(** * Batch PDF printer: a shallow embedding of the dispatch loops

    The repository holds several front ends (command line, graphical,
    terminal menu; Linux and Windows) around the same small core: discover
    the PDF files under a directory, order them, and hand them to the
    printer in batches with pauses.  This file embeds the functions of

      - batch_pdf_printer.py           (module [batch_pdf_printer])
      - batch_pdf_printer_windows.py   (module [batch_pdf_printer_windows])
      - gui_pdf_printer.py             (module [gui_pdf_printer])
      - gui_pdf_printer_windows.py     (module [gui_pdf_printer_windows])
      - interactive_pdf_printer.py     (module [interactive_pdf_printer])

    over a small model of the Python primitives they use (module [Py]),
    and proves the properties of the specification about them.

    Conventions.  Python [int]s are [Z]; [//] and [%] are [Z.div] and
    [Z.modulo], which round and sign like Python's.  Python [str]s are
    [string]s compared character by character ([String.ltb]).  Durations
    handed to [time.sleep] are counted in milliseconds, so [time.sleep(0.5)]
    is [time_sleep 500] and [time.sleep(d)] for an integer [d] is
    [time_sleep (1000 * d)].  Calls to [logging] and [print] are not
    part of the model. *)

From Stdlib Require Import ZArith Lia String Ascii List Sorted Permutation.
From stdpp Require Import base list gmap strings sorting.

Local Set Warnings "-register-all".
Local Open Scope string_scope.
Local Open Scope list_scope.
Local Open Scope Z_scope.

(* ===================================================================== *)
(** * Python primitives *)
(* ===================================================================== *)

Module Py.

(** The exceptions that the embedded functions can meet. *)
Inductive exn : Type :=
| ValueError (msg : string)
| ZeroDivisionError
| FileNotFoundError
| PermissionError
| UnicodeDecodeError
| AttributeError (msg : string)
| KeyboardInterrupt
| SystemExit (code : Z).

(** [len(l)] *)
Definition len {A} (l : list A) : Z := Z.of_nat (length l).

(** Number of elements of [range(lo, hi, step)] for [step > 0]. *)
Definition range_length (lo hi step : Z) : Z :=
  if lo <? hi then (hi - lo - 1) / step + 1 else 0.

(** [range(start, stop, step)], listed.  A zero step raises [ValueError];
    a negative step counts downwards. *)
Definition range (start stop step : Z) : exn + list Z :=
  if step =? 0 then inl (ValueError "range() arg 3 must not be zero")
  else
    let n := if 0 <? step then range_length start stop step
             else range_length stop start (- step) in
    inr (map (fun k : nat => start + Z.of_nat k * step) (seq 0 (Z.to_nat n))).

(** A slice bound brought into [0 .. n]: negative bounds count from the
    end, and bounds beyond either end are clipped. *)
Definition slice_index (n k : Z) : Z :=
  if k <? 0 then Z.max (k + n) 0 else Z.min k n.

(** [l[i:j]] *)
Definition slice {A} (l : list A) (i j : Z) : list A :=
  let n := len l in
  let lo := slice_index n i in
  let hi := slice_index n j in
  take (Z.to_nat (hi - lo)) (drop (Z.to_nat lo) l).

(** [a // b] and [a % b] *)
Definition floordiv (a b : Z) : exn + Z :=
  if b =? 0 then inl ZeroDivisionError else inr (a / b).

Definition mod_ (a b : Z) : exn + Z :=
  if b =? 0 then inl ZeroDivisionError else inr (a mod b).

(** [enumerate(l, start)] *)
Fixpoint enumerate {A} (start : Z) (l : list A) : list (Z * A) :=
  match l with
  | [] => []
  | x :: l' => (start, x) :: enumerate (start + 1) l'
  end.

(** ** Strings

    [str.lower], [str.upper] and [str.strip] on the ASCII range; other
    characters are left as they are. *)
Definition lower_char (c : ascii) : ascii :=
  let n := nat_of_ascii c in
  if (65 <=? n)%nat && (n <=? 90)%nat then ascii_of_nat (n + 32) else c.

Definition upper_char (c : ascii) : ascii :=
  let n := nat_of_ascii c in
  if (97 <=? n)%nat && (n <=? 122)%nat then ascii_of_nat (n - 32) else c.

Fixpoint map_string (f : ascii -> ascii) (s : string) : string :=
  match s with
  | EmptyString => EmptyString
  | String c s' => String (f c) (map_string f s')
  end.

Definition lower : string -> string := map_string lower_char.
Definition upper : string -> string := map_string upper_char.

Definition startswith (s p : string) : bool := String.prefix p s.
Definition endswith (s p : string) : bool :=
  String.prefix (String.rev p) (String.rev s).

(** [str.isspace] of a character of the ASCII range: the space, tab to
    carriage return, and the four separators [0x1c] to [0x1f]. *)
Definition is_space (c : ascii) : bool :=
  let n := nat_of_ascii c in
  (n =? 32)%nat || ((9 <=? n)%nat && (n <=? 13)%nat)
  || ((28 <=? n)%nat && (n <=? 31)%nat).

Fixpoint lstrip (s : string) : string :=
  match s with
  | String c s' => if is_space c then lstrip s' else s
  | EmptyString => EmptyString
  end.

Definition strip (s : string) : string :=
  String.rev (lstrip (String.rev (lstrip s))).

(** [x in l] for a list of strings *)
Definition str_in (x : string) (l : list string) : bool :=
  existsb (String.eqb x) l.

(** [(a0, a1) < (b0, b1)] on pairs of strings: the first components
    that differ decide. *)
Definition tuple_lt (a b : string * string) : bool :=
  if String.eqb a.1 b.1 then String.ltb a.2 b.2 else String.ltb a.1 b.1.

(** ** [list.sort]

    Modelled from the library's contract, as the sort itself is not code
    of this repository: [l.sort(key=k)] leaves the elements in
    non-decreasing order of key, compares keys with [<] only, and is
    stable.  [insert_sorted x l] puts [x] in front of the first element
    whose key is not below the key of [x]. *)
Section Sort.
Context {A K : Type} (key : A -> K) (lt : K -> K -> bool).

Fixpoint insert_sorted (x : A) (l : list A) : list A :=
  match l with
  | [] => [x]
  | y :: l' => if lt (key y) (key x) then y :: insert_sorted x l'
               else x :: y :: l'
  end.

Fixpoint list_sort (l : list A) : list A :=
  match l with
  | [] => []
  | x :: l' => insert_sorted x (list_sort l')
  end.

End Sort.

(** ** [os.path.join(a, b)] (POSIX) *)
Definition os_path_join (a b : string) : string :=
  if startswith b "/" then b
  else if String.eqb a "" || endswith a "/" then a +:+ b
  else a +:+ "/" +:+ b.

End Py.

(** The list comprehension
    [[found_pdfs[i:i + batch_size] for i in range(0, len(found_pdfs), batch_size)]]
    of [show_preview], [_print_thread], [dry_run] and [print_pdfs]. *)
Definition batches {A} (found_pdfs : list A) (batch_size : Z)
  : Py.exn + list (list A) :=
  match Py.range 0 (Py.len found_pdfs) batch_size with
  | inl e => inl e
  | inr starts => inr (map (fun i => Py.slice found_pdfs i (i + batch_size)) starts)
  end.

(** [(total_files + batch_size - 1) // batch_size], the batch count that
    [print_pdfs_in_batches] logs. *)
Definition total_batches (total_files batch_size : Z) : Z :=
  (total_files + batch_size - 1) / batch_size.


(* ===================================================================== *)
(** * The host: printer, clock and the user-interface thread *)
(* ===================================================================== *)

(** The ends of [subprocess.run(['lp', path], ..., check=True)] that the
    front ends provide for: it returns, raises [CalledProcessError]
    (with the spooler's [stderr]) or raises [FileNotFoundError] (no
    [lp] on the machine).  A [Host] is a machine on which the call ends
    in no other way; the other exceptions of the call are those of a
    [RaisingHost], further down. *)
Inductive proc_result : Type :=
| Completed
| CalledProcessError (stderr : string)
| LpNotFound.

(** Everything outside the program.  The state of the outside is a
    [world]; each interaction reads and changes it.
    - [host_lp path]: the spooler command, run without a time limit;
    - [host_lp_timeout t path]: the same with [timeout=t]; [None] is
      [TimeoutExpired];
    - [host_startfile path]: [os.startfile(path, "print")]; [Some msg] is
      an [Exception] raised by it;
    - [host_sleep ms]: what happens while the program sleeps;
    - [host_is_printing]: a read of the attribute [self.is_printing],
      which the interface thread may have changed in the meantime;
    - [host_set_is_printing b]: the assignment [self.is_printing = b]. *)
Class Host : Type := {
  world : Type;
  host_lp : string -> world -> proc_result * world;
  host_lp_timeout : Z -> string -> world -> option proc_result * world;
  host_startfile : string -> world -> option string * world;
  host_sleep : Z -> world -> world;
  host_is_printing : world -> bool * world;
  host_set_is_printing : bool -> world -> world
}.

(** What a run does, in the order it does it. *)
Inductive event : Type :=
| Lp (path : string)
| Startfile (path : string)
| Sleep (ms : Z)
| ReadFlag (b : bool)
| WriteFlag (b : bool)
| LogCompleted (successful failed : Z)
| PrintFinished (successful failed : Z)
| ReportPrinted (printed_count total_files : Z).

Global Instance event_eq_dec : EqDecision event.
Proof. solve_decision. Defined.

(** Is the event a submission of a file to the printer? *)
Definition is_submit (e : event) : bool :=
  match e with
  | Lp _ | Startfile _ => true
  | _ => false
  end.

Definition is_sleep (ms : Z) (e : event) : bool :=
  match e with
  | Sleep d => d =? ms
  | _ => false
  end.

(** ** The monad of the embedded code

    A computation takes the world, and gives a value or a raised
    exception, the world it leaves, and the events it caused. *)
Section Monad.
Context {H : Host}.

Definition M (A : Type) : Type := world -> (Py.exn + A) * world * list event.

Definition ret {A} (a : A) : M A := fun w => (inr a, w, []).

Definition raise {A} (e : Py.exn) : M A := fun w => (inl e, w, []).

Definition bind {A B} (m : M A) (k : A -> M B) : M B :=
  fun w =>
    match m w with
    | (inl e, w1, t1) => (inl e, w1, t1)
    | (inr a, w1, t1) =>
        match k a w1 with
        | (r, w2, t2) => (r, w2, t1 ++ t2)
        end
    end.

(** A value or exception computed without the host. *)
Definition lift {A} (r : Py.exn + A) : M A := fun w => (r, w, []).

(** [for x in xs: s = body x s], with the local variables that the
    body assigns carried in [s]. *)
Fixpoint for_each {A S} (xs : list A) (body : A -> S -> M S) (s : S) : M S :=
  match xs with
  | [] => ret s
  | x :: xs' => bind (body x s) (for_each xs' body)
  end.

(** The same for a body that may [break]. *)
Inductive flow : Type := Next | Break.

Fixpoint for_break {A S} (xs : list A) (body : A -> S -> M (flow * S)) (s : S)
  : M S :=
  match xs with
  | [] => ret s
  | x :: xs' =>
      bind (body x s) (fun r =>
        match r.1 with
        | Next => for_break xs' body r.2
        | Break => ret r.2
        end)
  end.

(** *** The host's operations *)

Definition subprocess_run_lp (path : string) : M proc_result :=
  fun w => let r := host_lp path w in (inr r.1, r.2, [Lp path]).

Definition subprocess_run_lp_timeout (t : Z) (path : string)
  : M (option proc_result) :=
  fun w => let r := host_lp_timeout t path w in (inr r.1, r.2, [Lp path]).

Definition os_startfile_print (path : string) : M (option string) :=
  fun w => let r := host_startfile path w in (inr r.1, r.2, [Startfile path]).

(** [time.sleep]: a negative length raises [ValueError]. *)
Definition time_sleep (ms : Z) : M unit :=
  fun w =>
    if ms <? 0 then (inl (Py.ValueError "sleep length must be non-negative"), w, [])
    else (inr tt, host_sleep ms w, [Sleep ms]).

Definition read_is_printing : M bool :=
  fun w => let r := host_is_printing w in (inr r.1, r.2, [ReadFlag r.1]).

Definition write_is_printing (b : bool) : M unit :=
  fun w => (inr tt, host_set_is_printing b w, [WriteFlag b]).

(** A message that carries the counts of a run. *)
Definition emit (e : event) : M unit := fun w => (inr tt, w, [e]).

End Monad.

Declare Scope py_scope.
Delimit Scope py_scope with py.
Notation "x <- m ;; k" := (bind m (fun x => k))
  (at level 100, m at next level, k at level 200, right associativity) : py_scope.
Notation "m ;;; k" := (bind m (fun _ => k))
  (at level 100, k at level 200, right associativity) : py_scope.
Local Open Scope py_scope.

(** The exit status of a script whose body ended with [r]: [0] after a
    normal end, the code of [sys.exit], and [1] after an exception that
    nobody caught and that the interpreter reports with a traceback.
    (A [KeyboardInterrupt] at the prompt does not get this far: the
    [main]s catch it.) *)
Definition exit_status {A} (r : Py.exn + A) : Z :=
  match r with
  | inr _ => 0
  | inl (Py.SystemExit c) => c
  | inl _ => 1
  end.

(* ===================================================================== *)
(** * batch_pdf_printer.py *)
(* ===================================================================== *)

(** A directory as [os.walk] sees it: the names of its plain files and
    its subdirectories, both in the order in which the system lists
    them (which is arbitrary). *)
Inductive tree : Type :=
| Dir (files : list string) (subdirs : list (string * tree)).

(** The caller of [sort_pdf_files] hands over a reference to its list;
    the store maps references to the lists they name. *)
Abbreviation loc := positive (only parsing).
Abbreviation heap := (gmap positive (list (string * string))) (only parsing).

Module batch_pdf_printer.

(** [find_pdf_files].  [os.walk] yields a directory before its
    subdirectories and descends into them in the order of the list
    [dirs] as the loop body leaves it, that is, sorted ([dirs.sort()]);
    the subdirectory [d] of [root] is walked as [os.path.join(root, d)].
    The walk of a subdirectory is paired with its name before sorting. *)
Fixpoint walk_pdf_files (t : tree) (root : string) : list (string * string) :=
  match t with
  | Dir files subdirs =>
      let dirs :=
        Py.list_sort fst String.ltb
          (map (fun d : string * tree => (d.1, walk_pdf_files d.2)) subdirs) in
      let pdf_files_in_dir :=
        Py.list_sort id String.ltb
          (List.filter (fun f => Py.endswith (Py.lower f) ".pdf") files) in
      map (fun pdf_file => (root, pdf_file)) pdf_files_in_dir
      ++ flat_map (fun d => d.2 (Py.os_path_join root d.1)) dirs
  end.

Definition find_pdf_files (root_directory : string) (t : tree)
  : list (string * string) :=
  walk_pdf_files t root_directory.

(** [sort_pdf_files(pdf_files)]: sorts the list that [pdf_files] names,
    in place, and returns a new list of the joined paths. *)
Definition sort_pdf_files (pdf_files : loc) (h : heap) : list string * heap :=
  let sorted := Py.list_sort (fun x => (x.1, x.2)) Py.tuple_lt (h !!! pdf_files) in
  (map (fun x => Py.os_path_join x.1 x.2) sorted, <[pdf_files := sorted]> h).

Section WithHost.
Context {H : Host}.

Definition print_pdf (file_path : string) : M bool :=
  result <- subprocess_run_lp file_path ;;
  match result with
  | Completed => ret true
  | CalledProcessError _ => ret false
  | LpNotFound => ret false
  end.

(** The body of [for pdf_file in batch], on the pair
    [(successful_prints, failed_prints)]. *)
Definition file_body (pdf_file : string) (st : Z * Z) : M (Z * Z) :=
  ok <- print_pdf pdf_file ;;
  if ok then ret (st.1 + 1, st.2) else ret (st.1, st.2 + 1).

(** The body of [for i in range(0, total_files, batch_size)]. *)
Definition batch_body (pdf_files : list string) (batch_size total_files : Z)
    (i : Z) (st : Z * Z) : M (Z * Z) :=
  let batch := Py.slice pdf_files i (i + batch_size) in
  q <- lift (Py.floordiv i batch_size) ;;
  let batch_number := q + 1 in
  total_batches <- lift (Py.floordiv (total_files + batch_size - 1) batch_size) ;;
  st' <- for_each batch file_body st ;;
  if i + batch_size <? total_files then time_sleep 2000 ;;; ret st'
  else ret st'.

(** The loop of [print_pdfs_in_batches], giving the final values of
    [successful_prints] and [failed_prints]. *)
Definition print_loop (pdf_files : list string) (batch_size : Z) : M (Z * Z) :=
  let total_files := Py.len pdf_files in
  starts <- lift (Py.range 0 total_files batch_size) ;;
  for_each starts (batch_body pdf_files batch_size total_files) (0, 0).

(** [print_pdfs_in_batches] returns nothing; it logs the two counts. *)
Definition print_pdfs_in_batches (pdf_files : list string) (batch_size : Z)
  : M unit :=
  st <- print_loop pdf_files batch_size ;;
  emit (LogCompleted st.1 st.2).

(** The parsed command line.  [--batch-size] is declared with
    [type=int] and nothing else, so every integer can be its value. *)
Record args : Type := Args {
  directory : string;
  batch_size : Z;
  dry_run : bool
}.

(** [main].  [fs] is the tree under [args.directory], or [None] when
    that is not a directory; [answer] is what [input] gives at the
    confirmation prompt. *)
Definition main (a : args) (fs : option tree) (answer : Py.exn + string)
  : M unit :=
  match fs with
  | None => raise (Py.SystemExit 1)
  | Some t =>
      let pdf_files_tuples := find_pdf_files (directory a) t in
      match pdf_files_tuples with
      | [] => ret tt
      | _ :: _ =>
          let sorted_pdf_files :=
            (sort_pdf_files 1%positive {[ 1%positive := pdf_files_tuples ]}).1 in
          if dry_run a then ret tt
          else
            match answer with
            | inl Py.KeyboardInterrupt => ret tt
            | inl e => raise e
            | inr response =>
                if negb (Py.str_in (Py.lower response) ["y"; "yes"]) then ret tt
                else print_pdfs_in_batches sorted_pdf_files (batch_size a)
            end
      end
  end.

(** Running the script: [main()] is the last statement. *)
Definition script_status (a : args) (fs : option tree)
    (answer : Py.exn + string) (w : world) : Z :=
  exit_status (main a fs answer w).1.1.

End WithHost.
End batch_pdf_printer.

(* ===================================================================== *)
(** * batch_pdf_printer_windows.py *)
(* ===================================================================== *)

Module batch_pdf_printer_windows.
Section WithHost.
Context {H : Host}.

(** [print_pdf_file]: every [Exception] of [os.startfile] is caught. *)
Definition print_pdf_file (pdf_path : string) (verbose : bool) : M bool :=
  r <- os_startfile_print pdf_path ;;
  match r with
  | None => ret true
  | Some _ => ret false
  end.

(** The body of [for i, (pdf_path, relative_path) in enumerate(pdf_files)],
    on the pair [(successful_count, error_count)]. *)
Definition file_body (total_files batch_size delay_between_batches : Z)
    (verbose : bool) (x : Z * (string * string)) (st : Z * Z) : M (Z * Z) :=
  let i := x.1 in
  let pdf_path := x.2.1 in
  q <- lift (Py.floordiv i batch_size) ;;
  let batch_num := q + 1 in
  r <- lift (Py.mod_ i batch_size) ;;
  let file_in_batch := r + 1 in
  ok <- print_pdf_file pdf_path verbose ;;
  let st' := if ok then (st.1 + 1, st.2) else (st.1, st.2 + 1) in
  time_sleep 500 ;;;
  m <- lift (Py.mod_ (i + 1) batch_size) ;;
  if (m =? 0) && (i + 1 <? total_files)
  then time_sleep (1000 * delay_between_batches) ;;; ret st'
  else ret st'.

Definition print_pdfs_in_batches (pdf_files : list (string * string))
    (batch_size delay_between_batches : Z) (verbose : bool) : M (Z * Z) :=
  let total_files := Py.len pdf_files in
  for_each (Py.enumerate 0 pdf_files)
    (file_body total_files batch_size delay_between_batches verbose) (0, 0).

Record args : Type := Args {
  directory : string;
  batch_size : Z;
  delay : Z;
  dry_run : bool;
  verbose : bool;
  list_only : bool
}.

(** What [main] asks of the machine before it prints:
    [platform.system()], [os.path.exists] and [os.path.isdir] of the
    directory, whether [check_windows_printer] finds a default printer
    ([None]: it raises [RuntimeError]), the list that [find_pdf_files]
    returns, and the answer at the prompt. *)
Record machine : Type := Machine {
  platform_system : string;
  path_exists : bool;
  path_isdir : bool;
  default_printer : option string;
  found_pdf_files : list (string * string);
  answer : Py.exn + string
}.

(** [main], giving its return value. *)
Definition main (a : args) (m : machine) : M Z :=
  if negb (String.eqb (platform_system m) "Windows") then ret 1
  else if negb (path_exists m) then ret 1
  else if negb (path_isdir m) then ret 1
  else if negb (dry_run a) && negb (list_only a) && negb (bool_decide (is_Some (default_printer m)))
  then ret 1
  else
    let pdf_files := found_pdf_files m in
    match pdf_files with
    | [] => ret 0
    | _ :: _ =>
        if list_only a then ret 0
        else if dry_run a then
          n <- lift (Py.floordiv (Py.len pdf_files + batch_size a - 1) (batch_size a)) ;;
          for_each (Py.enumerate 1 pdf_files)
            (fun x (_ : unit) =>
               q <- lift (Py.floordiv (x.1 - 1) (batch_size a)) ;; ret tt) tt ;;;
          ret 0
        else
          match answer m with
          | inl Py.KeyboardInterrupt => ret 0
          | inl e => raise e
          | inr confirm =>
              if negb (String.eqb (Py.upper (Py.strip confirm)) "JA") then ret 0
              else
                st <- print_pdfs_in_batches pdf_files (batch_size a) (delay a)
                        (verbose a) ;;
                let successful_count := st.1 in
                let error_count := st.2 in
                ret (if 0 <? error_count then 1 else 0)
          end
    end.

(** Running the script: [sys.exit(main())], with [sys.exit(1)] in the
    handlers of [KeyboardInterrupt] and [Exception]. *)
Definition script_status (a : args) (m : machine) (w : world) : Z :=
  match (main a m w).1.1 with
  | inr exit_code => exit_code
  | inl (Py.SystemExit c) => c
  | inl _ => 1
  end.

End WithHost.
End batch_pdf_printer_windows.

(* ===================================================================== *)
(** * gui_pdf_printer.py *)
(* ===================================================================== *)

Module gui_pdf_printer.
Section WithHost.
Context {H : Host}.

(** The local variables of [_print_thread]. *)
Record counters : Type := Counters {
  successful : Z;
  failed : Z;
  current_file : Z
}.

(** The body of [for pdf_file in batch].  [FileNotFoundError] has no
    handler here and ends the thread. *)
Definition file_body (pdf_file : string) (c : counters)
  : M (flow * counters) :=
  is_printing <- read_is_printing ;;
  if negb is_printing then ret (Break, c)
  else
    let current := current_file c + 1 in
    result <- subprocess_run_lp_timeout 60 pdf_file ;;
    match result with
    | Some Completed =>
        ret (Next, Counters (successful c + 1) (failed c) current)
    | Some (CalledProcessError _) =>
        ret (Next, Counters (successful c) (failed c + 1) current)
    | None =>
        ret (Next, Counters (successful c) (failed c + 1) current)
    | Some LpNotFound => raise Py.FileNotFoundError
    end.

(** The body of [for batch_num, batch in enumerate(batches, 1)]. *)
Definition batch_body (len_batches : Z) (x : Z * list string) (c : counters)
  : M (flow * counters) :=
  let batch_num := x.1 in
  let batch := x.2 in
  is_printing <- read_is_printing ;;
  if negb is_printing then ret (Break, c)
  else
    c' <- for_break batch file_body c ;;
    if batch_num <? len_batches then
      is_printing' <- read_is_printing ;;
      if is_printing' then time_sleep 3000 ;;; ret (Next, c')
      else ret (Next, c')
    else ret (Next, c').

(** [_print_thread]; [batch_size] is [int(self.batch_var.get())].  It
    ends by handing [successful] and [failed] to [_print_finished]. *)
Definition _print_thread (found_pdfs : list string) (batch_size : Z) : M unit :=
  bs <- lift (batches found_pdfs batch_size) ;;
  c <- for_break (Py.enumerate 1 bs) (batch_body (Py.len bs)) (Counters 0 0 0) ;;
  emit (PrintFinished (successful c) (failed c)).

End WithHost.
End gui_pdf_printer.

(* ===================================================================== *)
(** * gui_pdf_printer_windows.py *)
(* ===================================================================== *)

Module gui_pdf_printer_windows.
Section WithHost.
Context {H : Host}.

(** The body of [for i, (pdf_path, _, _) in enumerate(self.found_pdfs)],
    on [printed_count].  The inner [try] catches every [Exception]: one
    raised by [os.startfile], and the [ZeroDivisionError] of
    [(i + 1) % self.batch_size], which comes after the count has been
    raised. *)
Definition file_body (total_files batch_size : Z)
    (x : Z * (string * string * Z)) (printed_count : Z) : M (flow * Z) :=
  let i := x.1 in
  let pdf_path := x.2.1.1 in
  is_printing <- read_is_printing ;;
  if negb is_printing then ret (Break, printed_count)
  else
    r <- os_startfile_print pdf_path ;;
    match r with
    | Some _ => ret (Next, printed_count)
    | None =>
        let printed_count' := printed_count + 1 in
        match Py.mod_ (i + 1) batch_size with
        | inl _ => ret (Next, printed_count')
        | inr m =>
            (if (m =? 0) && (i + 1 <? total_files) then time_sleep 3000
             else time_sleep 500) ;;;
            ret (Next, printed_count')
        end
    end.

(** [print_worker]; [batch_size] is [self.batch_size]. *)
Definition print_worker (found_pdfs : list (string * string * Z))
    (batch_size : Z) : M unit :=
  let total_files := Py.len found_pdfs in
  printed_count <- for_break (Py.enumerate 0 found_pdfs)
                     (file_body total_files batch_size) 0 ;;
  is_printing <- read_is_printing ;;
  (if is_printing then emit (ReportPrinted printed_count total_files)
   else ret tt) ;;;
  write_is_printing false.

End WithHost.
End gui_pdf_printer_windows.

(* ===================================================================== *)
(** * interactive_pdf_printer.py *)
(* ===================================================================== *)

Module interactive_pdf_printer.
Section WithHost.
Context {H : Host}.

(** The body of [for pdf in batch], on [(successful, failed)]; only
    [CalledProcessError] is handled. *)
Definition file_body (pdf : string) (st : Z * Z) : M (Z * Z) :=
  result <- subprocess_run_lp pdf ;;
  match result with
  | Completed => ret (st.1 + 1, st.2)
  | CalledProcessError _ => ret (st.1, st.2 + 1)
  | LpNotFound => raise Py.FileNotFoundError
  end.

(** The body of [for batch_num, batch in enumerate(batches, 1)]. *)
Definition batch_body (len_batches : Z) (x : Z * list string) (st : Z * Z)
  : M (Z * Z) :=
  st' <- for_each x.2 file_body st ;;
  if x.1 <? len_batches then time_sleep 3000 ;;; ret st' else ret st'.

(** [print_pdfs]; [confirm] is the line typed at the prompt. *)
Definition print_pdfs (found_pdfs : list string) (batch_size : Z)
    (confirm : string) : M bool :=
  match found_pdfs with
  | [] => ret false
  | _ :: _ =>
      if negb (String.eqb (Py.upper confirm) "JA") then ret false
      else
        bs <- lift (batches found_pdfs batch_size) ;;
        st <- for_each (Py.enumerate 1 bs) (batch_body (Py.len bs)) (0, 0) ;;
        emit (LogCompleted st.1 st.2) ;;;
        ret true
  end.

End WithHost.
End interactive_pdf_printer.

(* ===================================================================== *)
(** * Hosts for the scenarios *)
(* ===================================================================== *)

(** A host whose world counts the submissions and the reads of the
    flag made so far.  The printer refuses the submissions whose number
    (from 0) is in [fails]; the flag reads [True] for the first
    [patience] reads and [False] from then on ([None]: nobody ever
    cancels). *)
Definition scripted_host (fails : list nat) (patience : option nat) : Host := {|
  world := nat * nat;
  host_lp := fun _ w =>
    (if bool_decide (w.1 ∈ fails) then CalledProcessError "refused" else Completed,
     (S w.1, w.2));
  host_lp_timeout := fun _ _ w =>
    (Some (if bool_decide (w.1 ∈ fails) then CalledProcessError "refused"
           else Completed),
     (S w.1, w.2));
  host_startfile := fun _ w =>
    (if bool_decide (w.1 ∈ fails) then Some "refused" else None, (S w.1, w.2));
  host_sleep := fun _ w => w;
  host_is_printing := fun w =>
    (match patience with
     | None => true
     | Some n => bool_decide (w.2 < n)%nat
     end, (w.1, S w.2));
  host_set_is_printing := fun _ w => w
|}.

(** [n] files for a scenario.  The scenarios only count files, so all
    of them carry the same name. *)
Definition n_files (n : nat) : list string := replicate n "doc.pdf".

(* ===================================================================== *)
(** * Reading runs *)
(* ===================================================================== *)

(** The submissions in a trace, and how many there are. *)
Definition submitted (tr : list event) : list event := List.filter is_submit tr.
Definition submissions (tr : list event) : Z := Py.len (submitted tr).

(** The sleeps of [ms] milliseconds in a trace. *)
Definition sleeps (ms : Z) (tr : list event) : Z :=
  Py.len (List.filter (is_sleep ms) tr).

(** The two counts of a loop went from [st] to [st'] while [tr]
    happened: neither went down, and together they grew by the number
    of submissions in [tr]. *)
Definition accounted (st st' : Z * Z) (tr : list event) : Prop :=
  st.1 <= st'.1 /\ st.2 <= st'.2 /\ st'.1 + st'.2 = st.1 + st.2 + submissions tr.

(** Every submission in the trace comes directly after a read of the
    flag that gave [True]; [armed] tells whether the event before the
    trace was such a read. *)
Fixpoint guarded (armed : bool) (tr : list event) : bool :=
  match tr with
  | [] => true
  | e :: tr' =>
      (if is_submit e then armed else true)
      && guarded (bool_decide (e = ReadFlag true)) tr'
  end.

(** [m] started in [w] returns [a], leaves [w'] and causes [tr]. *)
Definition returns `{Host} {A} (m : M A) (w : world) (a : A) (w' : world)
    (tr : list event) : Prop :=
  m w = (inr a, w', tr).

(** The events of a run, whatever its end. *)
Definition events_of `{Host} {A} (m : M A) (w : world) : list event := (m w).2.

(** What the three command-line and menu loops do, file by file and
    batch by batch, written from what the specification says of pauses:
    the files of a batch, then the pause if more files follow. *)
Definition batch_schedule (pause : Z) (pdf_files : list string)
    (batch_size : Z) (i : Z) : list event :=
  map Lp (Py.slice pdf_files i (i + batch_size))
  ++ (if i + batch_size <? Py.len pdf_files then [Sleep pause] else []).

(** The whole run: the schedules of the batches one after the other
    (nothing at all when [range] refuses the batch size). *)
Definition run_schedule (pause : Z) (pdf_files : list string) (batch_size : Z)
  : list event :=
  match Py.range 0 (Py.len pdf_files) batch_size with
  | inr starts => flat_map (batch_schedule pause pdf_files batch_size) starts
  | inl _ => []
  end.

Definition windows_file_schedule (total_files batch_size delay : Z)
    (x : Z * (string * string)) : list event :=
  Startfile x.2.1 :: Sleep 500 ::
  (if ((x.1 + 1) mod batch_size =? 0) && (x.1 + 1 <? total_files)
   then [Sleep (1000 * delay)] else []).


(** [x] may stand before [y] in a list sorted by [key]: the key of [y]
    is not below that of [x]. *)
Definition may_precede {A K} (key : A -> K) (lt : K -> K -> bool) (x y : A)
  : Prop :=
  lt (key y) (key x) = false.

(** The directory of the scenario: [A] holds [2.pdf] and [1.pdf], [B]
    holds [1.pdf]; the system lists [B] before [A]. *)
Definition scenario_tree : tree :=
  Dir [] [("B", Dir ["1.pdf"] []); ("A", Dir ["2.pdf"; "1.pdf"] [])].

(** The specification's reading of the pause between files: it falls
    between two files and never after the last one, so a stretch of the
    trace that ends the run and holds no submission holds no sleep of
    [ms] milliseconds either. *)
Definition no_sleep_after_final_file (ms : Z) (tr : list event) : Prop :=
  forall pre post : list event,
    tr = pre ++ post -> submitted post = [] -> sleeps ms post = 0.

(** [c] is the ceiling of [n / b]. *)
Definition is_ceil_div (n b c : Z) : Prop := (c - 1) * b < n <= c * b.

(* ===================================================================== *)
(** * Discovery, seen from the directory *)
(* ===================================================================== *)

(** The test of the comprehension in [find_pdf_files]:
    [f.lower().endswith('.pdf')]. *)
Definition is_pdf (f : string) : bool := Py.endswith (Py.lower f) ".pdf".

(** Every plain file under a directory, with the path of the directory
    that holds it, in the order in which the system lists them. *)
Fixpoint all_files (t : tree) (root : string) : list (string * string) :=
  match t with
  | Dir files subdirs =>
      map (fun f => (root, f)) files
      ++ flat_map (fun d : string * tree =>
                     all_files d.2 (Py.os_path_join root d.1)) subdirs
  end.

(** The directory of the scenario as another system might list it. *)
Definition scenario_tree_relisted : tree :=
  Dir [] [("A", Dir ["1.pdf"; "2.pdf"] []); ("B", Dir ["1.pdf"] [])].

(* ===================================================================== *)
(** * More string primitives *)
(* ===================================================================== *)

(** [str.isspace] on the ASCII range: tab to carriage return, the four
    separators [0x1c] to [0x1f], and the space. *)
Definition str_isspace (c : ascii) : bool :=
  let n := nat_of_ascii c in
  ((9 <=? n)%nat && (n <=? 13)%nat) || ((28 <=? n)%nat && (n <=? 32)%nat).

Fixpoint str_lstrip (s : string) : string :=
  match s with
  | String c s' => if str_isspace c then str_lstrip s' else s
  | EmptyString => EmptyString
  end.

(** [s.strip()] *)
Definition str_strip (s : string) : string :=
  String.rev (str_lstrip (String.rev (str_lstrip s))).

(* ===================================================================== *)
(** * interactive_pdf_printer.py: the menu *)
(* ===================================================================== *)

Module interactive_pdf_printer_menu.





Section WithHost.
Context {H : Host}.

(** [set_batch_size], giving the new value of [self.batch_size].
    [new_size] is the line typed at the prompt; [int_] is the built-in
    [int] on strings, [None] being its [ValueError]. *)
Definition set_batch_size (int_ : string -> option Z) (batch_size : Z)
    (new_size : string) : M Z :=
  if negb (String.eqb (str_strip new_size) "") then
    match int_ new_size with
    | None => time_sleep 1000 ;;; ret batch_size
    | Some size =>
        if (1 <=? size) && (size <=? 100) then time_sleep 1000 ;;; ret size
        else time_sleep 1000 ;;; ret batch_size
    end
  else time_sleep 1000 ;;; ret batch_size.

End WithHost.
End interactive_pdf_printer_menu.

(* ===================================================================== *)
(** * interactive_pdf_printer_windows.py *)
(* ===================================================================== *)

Module interactive_pdf_printer_windows.

(** The loop of [configure_print_settings], giving the new value of
    [self.batch_size]; [inputs] are the lines typed at its prompt and
    [int_] is the built-in [int] on strings, [None] being its
    [ValueError].  [None] stands for a loop that has used up the lines
    and goes on asking. *)
Fixpoint configure_print_settings (int_ : string -> option Z) (batch_size : Z)
    (inputs : list string) : option Z :=
  match inputs with
  | [] => None
  | line :: rest =>
      let new_size := str_strip line in
      if String.eqb new_size "" then Some batch_size
      else
        match int_ new_size with
        | None => configure_print_settings int_ batch_size rest
        | Some new_size =>
            if (1 <=? new_size) && (new_size <=? 50) then Some new_size
            else configure_print_settings int_ batch_size rest
        end
  end.

Section WithHost.
Context {H : Host}.

(** The body of [for i, (pdf_path, rel_path) in enumerate(self.found_pdfs, 1)],
    on [(printed_count, errors)].  The [try] catches every [Exception]:
    one raised by [os.startfile], and the [ZeroDivisionError] of
    [i % self.batch_size], which comes after [printed_count] has been
    raised. *)
Definition file_body (len_found batch_size : Z) (x : Z * (string * string))
    (st : Z * Z) : M (Z * Z) :=
  let i := x.1 in
  let pdf_path := x.2.1 in
  r <- os_startfile_print pdf_path ;;
  match r with
  | Some _ => ret (st.1, st.2 + 1)
  | None =>
      let printed_count := st.1 + 1 in
      match Py.mod_ i batch_size with
      | inl _ => ret (printed_count, st.2 + 1)
      | inr m =>
          (if (m =? 0) && (i <? len_found) then time_sleep 3000
           else time_sleep 500) ;;;
          ret (printed_count, st.2)
      end
  end.

(** [print_pdfs]; [confirm] is the line typed at the prompt. *)
Definition print_pdfs (found_pdfs : list (string * string)) (batch_size : Z)
    (confirm : string) : M bool :=
  match found_pdfs with
  | [] => ret false
  | _ :: _ =>
      if negb (String.eqb (Py.upper (str_strip confirm)) "JA") then ret false
      else
        st <- for_each (Py.enumerate 1 found_pdfs)
                (file_body (Py.len found_pdfs) batch_size) (0, 0) ;;
        emit (LogCompleted st.1 st.2) ;;;
        ret true
  end.

End WithHost.
End interactive_pdf_printer_windows.

(* ===================================================================== *)
(** * Exceptions of [subprocess.run] that no handler names *)
(* ===================================================================== *)

(** [subprocess.run(['lp', path], capture_output=True, text=True,
    check=True)] can end in more ways than [proc_result] lists: in
    [PermissionError] when [lp] is found and may not be executed, and
    in [UnicodeDecodeError] when [text=True] meets output of [lp] that
    is not valid in the encoding of the locale.  No handler of the
    Linux front ends names them. *)
Inductive other_error : Type :=
| NotPermitted
| NotDecodable.

Definition exception_of (o : other_error) : Py.exn :=
  match o with
  | NotPermitted => Py.PermissionError
  | NotDecodable => Py.UnicodeDecodeError
  end.

(** A host on which a call of [lp] may end so: [host_lp_raises path w]
    is the error of the call for [path] made in the world [w], if it
    ends in one of the two; otherwise the call ends as [host_lp] (or
    [host_lp_timeout]) says.  The world goes on as the host says in
    both cases. *)
Class RaisingHost : Type := {
  raising_host :: Host;
  host_lp_raises : string -> world -> option other_error
}.

Section RaisingOperations.
Context {RH : RaisingHost}.

Definition subprocess_run_lp_raising (path : string) : M proc_result :=
  fun w =>
    let r := host_lp path w in
    match host_lp_raises path w with
    | Some o => (inl (exception_of o), r.2, [Lp path])
    | None => (inr r.1, r.2, [Lp path])
    end.

Definition subprocess_run_lp_timeout_raising (t : Z) (path : string)
  : M (option proc_result) :=
  fun w =>
    let r := host_lp_timeout t path w in
    match host_lp_raises path w with
    | Some o => (inl (exception_of o), r.2, [Lp path])
    | None => (inr r.1, r.2, [Lp path])
    end.

End RaisingOperations.

(** ** batch_pdf_printer.py on such a host *)

Module batch_pdf_printer_raising.
Section WithHost.
Context {RH : RaisingHost}.

(** [print_pdf]: the two handlers turn [CalledProcessError] and
    [FileNotFoundError] into [False]; any other exception of
    [subprocess.run] passes. *)
Definition print_pdf (file_path : string) : M bool :=
  result <- subprocess_run_lp_raising file_path ;;
  match result with
  | Completed => ret true
  | CalledProcessError _ => ret false
  | LpNotFound => ret false
  end.

Definition file_body (pdf_file : string) (st : Z * Z) : M (Z * Z) :=
  ok <- print_pdf pdf_file ;;
  if ok then ret (st.1 + 1, st.2) else ret (st.1, st.2 + 1).

Definition batch_body (pdf_files : list string) (batch_size total_files : Z)
    (i : Z) (st : Z * Z) : M (Z * Z) :=
  let batch := Py.slice pdf_files i (i + batch_size) in
  q <- lift (Py.floordiv i batch_size) ;;
  let batch_number := q + 1 in
  total_batches <- lift (Py.floordiv (total_files + batch_size - 1) batch_size) ;;
  st' <- for_each batch file_body st ;;
  if i + batch_size <? total_files then time_sleep 2000 ;;; ret st'
  else ret st'.

Definition print_loop (pdf_files : list string) (batch_size : Z) : M (Z * Z) :=
  let total_files := Py.len pdf_files in
  starts <- lift (Py.range 0 total_files batch_size) ;;
  for_each starts (batch_body pdf_files batch_size total_files) (0, 0).

Definition print_pdfs_in_batches (pdf_files : list string) (batch_size : Z)
  : M unit :=
  st <- print_loop pdf_files batch_size ;;
  emit (LogCompleted st.1 st.2).

End WithHost.
End batch_pdf_printer_raising.

(** ** The thread of gui_pdf_printer.py on such a host *)

Module gui_pdf_printer_raising.
Section WithHost.
Context {RH : RaisingHost}.

(** The body of [for pdf_file in batch].  The handlers name
    [CalledProcessError] and [TimeoutExpired]; [FileNotFoundError] and
    the other exceptions of [subprocess.run] end the thread. *)
Definition file_body (pdf_file : string) (c : gui_pdf_printer.counters)
  : M (flow * gui_pdf_printer.counters) :=
  is_printing <- read_is_printing ;;
  if negb is_printing then ret (Break, c)
  else
    let current := gui_pdf_printer.current_file c + 1 in
    result <- subprocess_run_lp_timeout_raising 60 pdf_file ;;
    match result with
    | Some Completed =>
        ret (Next, gui_pdf_printer.Counters (gui_pdf_printer.successful c + 1)
                     (gui_pdf_printer.failed c) current)
    | Some (CalledProcessError _) =>
        ret (Next, gui_pdf_printer.Counters (gui_pdf_printer.successful c)
                     (gui_pdf_printer.failed c + 1) current)
    | None =>
        ret (Next, gui_pdf_printer.Counters (gui_pdf_printer.successful c)
                     (gui_pdf_printer.failed c + 1) current)
    | Some LpNotFound => raise Py.FileNotFoundError
    end.

Definition batch_body (len_batches : Z) (x : Z * list string)
    (c : gui_pdf_printer.counters) : M (flow * gui_pdf_printer.counters) :=
  let batch_num := x.1 in
  let batch := x.2 in
  is_printing <- read_is_printing ;;
  if negb is_printing then ret (Break, c)
  else
    c' <- for_break batch file_body c ;;
    if batch_num <? len_batches then
      is_printing' <- read_is_printing ;;
      if is_printing' then time_sleep 3000 ;;; ret (Next, c')
      else ret (Next, c')
    else ret (Next, c').

Definition _print_thread (found_pdfs : list string) (batch_size : Z) : M unit :=
  bs <- lift (batches found_pdfs batch_size) ;;
  c <- for_break (Py.enumerate 1 bs) (batch_body (Py.len bs))
         (gui_pdf_printer.Counters 0 0 0) ;;
  emit (PrintFinished (gui_pdf_printer.successful c) (gui_pdf_printer.failed c)).

End WithHost.
End gui_pdf_printer_raising.

(** A machine whose printer takes every file, and whose [lp] answers
    the file [bad] with bytes that are no text in the locale. *)
Definition garbled_host (bad : string) : RaisingHost := {|
  raising_host := scripted_host [] None;
  host_lp_raises := fun path _ =>
    if String.eqb path bad then Some NotDecodable else None
|}.

(* ===================================================================== *)
(** * Outcomes of loops that may raise or break *)
(* ===================================================================== *)

(** What is known of a computation started with the local variables
    [s], from what it gave ([o]): the trace satisfies [P]; if it
    returned [r], the variables [proj r] it left and the trace are
    related to [s] by [Step]; if it raised, the exception is one of
    [E]. *)
Definition outcome `{Host} {S R} (Step : S -> S -> list event -> Prop)
    (E : Py.exn -> Prop) (P : list event -> Prop) (proj : R -> S) (s : S)
    (o : (Py.exn + R) * world * list event) : Prop :=
  P o.2
  /\ match o.1.1 with
     | inr r => Step s (proj r) o.2
     | inl e => E e
     end.

(** A machine without the spooler command: every call of [lp] ends in
    [FileNotFoundError].  Nobody cancels. *)
Definition no_lp_host : Host := {|
  world := unit;
  host_lp := fun _ w => (LpNotFound, w);
  host_lp_timeout := fun _ _ w => (Some LpNotFound, w);
  host_startfile := fun _ w => (Some "no such action", w);
  host_sleep := fun _ w => w;
  host_is_printing := fun w => (true, w);
  host_set_is_printing := fun _ w => w
|}.

(* ********************************************************************* *)
(** * Proofs *)
(* ********************************************************************* *)

(* ===================================================================== *)
(** * Batching *)
(* ===================================================================== *)

Section Batching.
Context {A : Type}.
Implicit Types (l : list A) (B : Z).

Lemma range_pos_spec (n B : Z) :
  0 <= n -> 1 <= B ->
  Py.range 0 n B
  = inr (map (fun k : nat => Z.of_nat k * B) (seq 0 (Z.to_nat (total_batches n B)))).
Proof.
  intros Hn HB. unfold Py.range, Py.range_length, total_batches.
  destruct (Z.eqb_spec B 0) as [->|_]; [lia|].
  destruct (Z.ltb_spec 0 B) as [_|]; [|lia].
  f_equal. destruct (Z.ltb_spec 0 n) as [Hpos|Hz].
  - replace (n - 0 - 1) with (n - 1) by lia.
    replace (n + B - 1) with ((n - 1) + 1 * B) by lia.
    rewrite Z.div_add by lia. reflexivity.
  - assert (n = 0) as -> by lia.
    replace (0 + B - 1) with (B - 1) by lia.
    rewrite Z.div_small by lia. reflexivity.
Qed.

Lemma slice_chunk l B (k : nat) :
  1 <= B ->
  Py.slice l (Z.of_nat k * B) (Z.of_nat k * B + B)
  = take (Z.to_nat B) (drop (k * Z.to_nat B) l).
Proof.
  intros HB. unfold Py.slice, Py.slice_index, Py.len.
  set (n := length l).
  destruct (Z.ltb_spec (Z.of_nat k * B) 0) as [|_]; [nia|].
  destruct (Z.ltb_spec (Z.of_nat k * B + B) 0) as [|_]; [nia|].
  assert (Hk : Z.of_nat (k * Z.to_nat B) = Z.of_nat k * B) by lia.
  destruct (Z.le_gt_cases (Z.of_nat k * B) (Z.of_nat n)) as [Hin|Hout].
  - rewrite (Z.min_l (Z.of_nat k * B)) by lia.
    replace (Z.to_nat (Z.of_nat k * B)) with (k * Z.to_nat B)%nat by lia.
    destruct (Z.le_gt_cases (Z.of_nat k * B + B) (Z.of_nat n)).
    + rewrite Z.min_l by lia. f_equal. lia.
    + rewrite Z.min_r by lia.
      rewrite !take_ge; [done| |]; rewrite length_drop; lia.
  - rewrite !Z.min_r by lia.
    rewrite !drop_ge by lia. by rewrite !take_nil.
Qed.

Lemma concat_chunks l (b n : nat) :
  concat (map (fun k : nat => take b (drop (k * b) l)) (seq 0 n)) = take (n * b) l.
Proof.
  induction n as [|n IH]; [done|].
  rewrite seq_S, map_app, concat_app, IH. simpl.
  rewrite app_nil_r, take_take_drop. f_equal. lia.
Qed.

Lemma batches_spec l B :
  1 <= B ->
  batches l B
  = inr (map (fun k : nat => take (Z.to_nat B) (drop (k * Z.to_nat B) l))
             (seq 0 (Z.to_nat (total_batches (Py.len l) B)))).
Proof.
  intros HB. unfold batches.
  rewrite range_pos_spec by (unfold Py.len; lia).
  f_equal. rewrite map_map. apply map_ext. intros k. by apply slice_chunk.
Qed.

Lemma total_batches_bounds (n B : Z) :
  0 <= n -> 1 <= B ->
  n <= total_batches n B * B < n + B.
Proof.
  intros Hn HB. unfold total_batches.
  pose proof (Z.div_mod (n + B - 1) B ltac:(lia)).
  pose proof (Z.mod_pos_bound (n + B - 1) B ltac:(lia)). nia.
Qed.


Lemma total_batches_nonneg (n B : Z) : 0 <= n -> 1 <= B -> 0 <= total_batches n B.
Proof.
  intros Hn HB. unfold total_batches. apply Z.div_pos; lia.
Qed.

Lemma length_batches l B bs :
  1 <= B -> batches l B = inr bs -> Py.len bs = total_batches (Py.len l) B.
Proof.
  intros HB. rewrite batches_spec by done. intros [= <-].
  unfold Py.len at 1. rewrite length_map, length_seq.
  pose proof (total_batches_nonneg (Py.len l) B). unfold Py.len in *. lia.
Qed.

Lemma concat_batches l B bs :
  1 <= B -> batches l B = inr bs -> concat bs = l.
Proof.
  intros HB. rewrite batches_spec by done. intros [= <-].
  rewrite concat_chunks. apply take_ge.
  pose proof (total_batches_bounds (Py.len l) B). unfold Py.len in *. nia.
Qed.

Lemma full_batches l B bs (k : nat) b :
  1 <= B -> batches l B = inr bs ->
  bs !! k = Some b -> (S k < length bs)%nat -> Py.len b = B.
Proof.
  intros HB. rewrite batches_spec by done. intros [= <-].
  rewrite length_map, length_seq. intros Hk Hlast.
  rewrite list_lookup_fmap in Hk.
  rewrite lookup_seq_lt in Hk by lia. simpl in Hk. injection Hk as <-.
  unfold Py.len. rewrite length_take, length_drop.
  pose proof (total_batches_bounds (Py.len l) B). unfold Py.len in *. nia.
Qed.

End Batching.

(** C1.  For every list [L] and batch size [B >= 1] the batching step
    returns batches whose concatenation, in order, is [L]; every batch
    but the last has exactly [B] elements; and the number of batches is
    the ceiling of [len(L) / B], that is the [c] with
    [(c - 1) * B < len(L) <= c * B], which is also the count
    [(len(L) + B - 1) // B] that the program logs. *)
Theorem batches_partition {A} (L : list A) (B : Z) :
  1 <= B ->
  exists bs : list (list A),
    batches L B = inr bs
    /\ concat bs = L
    /\ (forall (k : nat) b, bs !! k = Some b -> (S k < length bs)%nat -> Py.len b = B)
    /\ (Py.len bs - 1) * B < Py.len L <= Py.len bs * B
    /\ Py.len bs = total_batches (Py.len L) B.
Proof.
  intros HB.
  destruct (batches L B) as [e|bs] eqn:Hbs.
  { rewrite batches_spec in Hbs by done. discriminate. }
  exists bs. split; [done|].
  pose proof (length_batches L B bs HB Hbs) as Hlen.
  pose proof (total_batches_bounds (Py.len L) B) as Hb.
  repeat split.
  - by eapply concat_batches.
  - intros k b. by eapply full_batches.
  - unfold Py.len in *. nia.
  - unfold Py.len in *. nia.
  - done.
Qed.

Lemma batches_partition_witness :
  1 <= 2
  /\ exists bs : list (list nat),
    batches [1; 2; 3; 4; 5]%nat 2 = inr bs
    /\ concat bs = [1; 2; 3; 4; 5]%nat
    /\ (forall (k : nat) b, bs !! k = Some b -> (S k < length bs)%nat -> Py.len b = 2)
    /\ (Py.len bs - 1) * 2 < Py.len [1; 2; 3; 4; 5]%nat <= Py.len bs * 2
    /\ Py.len bs = total_batches (Py.len [1; 2; 3; 4; 5]%nat) 2.
Proof. split; [lia | apply (batches_partition [1; 2; 3; 4; 5]%nat 2); lia]. Defined.

(* ===================================================================== *)
(** * Runs of the monad *)
(* ===================================================================== *)

Section Runs.
Context {H : Host}.

Lemma returns_ret {A} (a : A) w : returns (ret a) w a w [].
Proof. reflexivity. Qed.

Lemma returns_bind {A B} (m : M A) (k : A -> M B) w a w1 t1 b w2 t2 :
  returns m w a w1 t1 -> returns (k a) w1 b w2 t2 ->
  returns (bind m k) w b w2 (t1 ++ t2).
Proof.
  unfold returns, bind. intros -> ->. reflexivity.
Qed.

Lemma returns_lift {A} (a : A) w : returns (lift (inr a)) w a w [].
Proof. reflexivity. Qed.

Lemma bind_lift {A B} (a : A) (k : A -> M B) w : bind (lift (inr a)) k w = k a w.
Proof.
  unfold bind, lift. by destruct (k a w) as [[r w2] t2].
Qed.

Lemma returns_sleep ms w :
  0 <= ms -> returns (time_sleep ms) w tt (host_sleep ms w) [Sleep ms].
Proof.
  intros Hms. unfold returns, time_sleep.
  destruct (Z.ltb_spec ms 0); [lia|done].
Qed.

Lemma events_bind {A B} (m : M A) (k : A -> M B) w :
  events_of (bind m k) w
  = match (m w).1.1 with
    | inl _ => events_of m w
    | inr a => events_of m w ++ events_of (k a) (m w).1.2
    end.
Proof.
  unfold events_of, bind. destruct (m w) as [[[e|a] w1] t1]; [done|].
  simpl. by destruct (k a w1) as [[r w2] t2].
Qed.

(** ** Counting submissions *)

Lemma submissions_app t1 t2 :
  submissions (t1 ++ t2) = submissions t1 + submissions t2.
Proof.
  unfold submissions, submitted, Py.len.
  rewrite List.filter_app, length_app. lia.
Qed.

Lemma submissions_nil : submissions [] = 0.
Proof. reflexivity. Qed.

Lemma submissions_nonneg t : 0 <= submissions t.
Proof. unfold submissions, Py.len. lia.
Qed.

Lemma sleeps_app ms t1 t2 : sleeps ms (t1 ++ t2) = sleeps ms t1 + sleeps ms t2.
Proof.
  unfold sleeps, Py.len. rewrite List.filter_app, length_app. lia.
Qed.

Lemma sleeps_cons ms e t :
  sleeps ms (e :: t) = (if is_sleep ms e then 1 else 0) + sleeps ms t.
Proof.
  unfold sleeps, Py.len. cbn [List.filter].
  destruct (is_sleep ms e); cbn [length]; lia.
Qed.

Lemma sleeps_nil ms : sleeps ms [] = 0.
Proof. reflexivity. Qed.

Lemma accounted_refl st : accounted st st [].
Proof. unfold accounted. rewrite submissions_nil. lia. Qed.

Lemma accounted_trans st1 st2 st3 t1 t2 :
  accounted st1 st2 t1 -> accounted st2 st3 t2 -> accounted st1 st3 (t1 ++ t2).
Proof. unfold accounted. rewrite submissions_app. lia. Qed.

Lemma accounted_more st st' t t' :
  accounted st st' t -> submissions t' = 0 -> accounted st st' (t ++ t').
Proof. unfold accounted. rewrite submissions_app. lia. Qed.

(** ** Loops whose bodies always return *)

(** If the body, for each element, returns and causes a trace that
    only depends on the element, then so does the loop, and the counts
    stay accounted for. *)
Lemma for_each_schedule {A} (body : A -> Z * Z -> M (Z * Z))
    (T : A -> list event) (xs : list A) :
  (forall x st w, exists st' w',
      returns (body x st) w st' w' (T x) /\ accounted st st' (T x)) ->
  forall st w, exists st' w',
      returns (for_each xs body st) w st' w' (flat_map T xs)
      /\ accounted st st' (flat_map T xs).
Proof.
  intros Hbody. induction xs as [|x xs IH]; intros st w; simpl.
  - exists st, w. split; [apply returns_ret | apply accounted_refl].
  - destruct (Hbody x st w) as (st1 & w1 & Hrun1 & Hacc1).
    destruct (IH st1 w1) as (st2 & w2 & Hrun2 & Hacc2).
    exists st2, w2. split.
    + eapply returns_bind; eassumption.
    + eapply accounted_trans; eassumption.
Qed.

(** ** Traces of loops, whatever their end *)

Lemma guarded_weaken t : guarded false t = true -> forall b, guarded b t = true.
Proof.
  destruct t as [|e t]; [done|]. simpl. intros Hg b.
  destruct (is_submit e); [done|]. by destruct b.
Qed.

Lemma guarded_app t1 t2 :
  guarded false t1 = true -> guarded false t2 = true ->
  guarded false (t1 ++ t2) = true.
Proof.
  generalize false at 1 3. induction t1 as [|e t1 IH]; intros b H1 H2; simpl in *.
  - by apply guarded_weaken.
  - apply andb_true_iff in H1 as [-> H1]. simpl. by apply IH.
Qed.

Lemma for_break_events {A S} (P : list event -> Prop)
    (body : A -> S -> M (flow * S)) (xs : list A) :
  P [] -> (forall t1 t2, P t1 -> P t2 -> P (t1 ++ t2)) ->
  (forall x s w, P (events_of (body x s) w)) ->
  forall s w, P (events_of (for_break xs body s) w).
Proof.
  intros Hnil Happ Hbody. induction xs as [|x xs IH]; intros s w; simpl.
  - exact Hnil.
  - rewrite events_bind. specialize (Hbody x s w).
    destruct ((body x s w).1.1) as [e|[[] s1]]; simpl; [done| |].
    + by apply Happ.
    + apply Happ; [done|]. exact Hnil.
Qed.

End Runs.

(* ===================================================================== *)
(** * The schedule of a batched run *)
(* ===================================================================== *)

Section Schedule.
Implicit Types (files : list string) (B pause : Z).

Lemma submitted_app t1 t2 : submitted (t1 ++ t2) = submitted t1 ++ submitted t2.
Proof. apply List.filter_app. Qed.

Lemma submitted_map_Lp files : submitted (map Lp files) = map Lp files.
Proof.
  unfold submitted. induction files as [|f files IH]; [done|].
  simpl. by rewrite IH.
Qed.

Lemma sleeps_map_Lp ms files : sleeps ms (map Lp files) = 0.
Proof.
  unfold sleeps. induction files as [|f files IH]; [done|]. exact IH.
Qed.

Lemma submitted_batch_schedule pause files B i :
  submitted (batch_schedule pause files B i)
  = map Lp (Py.slice files i (i + B)).
Proof.
  unfold batch_schedule. rewrite submitted_app, submitted_map_Lp.
  destruct (i + B <? Py.len files); simpl; by rewrite app_nil_r.
Qed.

Lemma sleeps_batch_schedule pause files B i :
  0 <= pause ->
  sleeps pause (batch_schedule pause files B i)
  = if i + B <? Py.len files then 1 else 0.
Proof.
  intros Hp. unfold batch_schedule. rewrite sleeps_app, sleeps_map_Lp.
  destruct (i + B <? Py.len files); [|done].
  unfold sleeps. simpl. by rewrite Z.eqb_refl.
Qed.

Lemma run_schedule_spec pause files B :
  1 <= B ->
  run_schedule pause files B
  = flat_map (fun k : nat => batch_schedule pause files B (Z.of_nat k * B))
      (seq 0 (Z.to_nat (total_batches (Py.len files) B))).
Proof.
  intros HB. unfold run_schedule.
  rewrite range_pos_spec by (unfold Py.len; lia).
  rewrite !flat_map_concat_map, map_map. reflexivity.
Qed.

(** The submissions of a run are the files, each once, in order. *)
Lemma submitted_run_schedule pause files B :
  1 <= B -> submitted (run_schedule pause files B) = map Lp files.
Proof.
  intros HB. rewrite run_schedule_spec by done.
  pose proof (batches_spec files B HB) as Hbs.
  pose proof (concat_batches files B _ HB Hbs) as Hcat.
  rewrite <- Hcat at 2.
  generalize (Z.to_nat (total_batches (Py.len files) B)). intros n.
  induction (seq 0 n) as [|k ks IH]; [done|].
  simpl. rewrite submitted_app, submitted_batch_schedule, IH, map_app.
  f_equal. f_equal. by apply slice_chunk.
Qed.

Lemma pauses_upto pause files B (j : nat) :
  1 <= B -> 0 <= pause -> 0 < Py.len files ->
  Z.of_nat j <= total_batches (Py.len files) B ->
  sleeps pause
    (flat_map (fun k : nat => batch_schedule pause files B (Z.of_nat k * B)) (seq 0 j))
  = Z.min (Z.of_nat j) (total_batches (Py.len files) B - 1).
Proof.
  intros HB Hp Hn.
  pose proof (total_batches_bounds (Py.len files) B) as Hb.
  induction j as [|j IH]; intros Hj.
  - assert (1 <= total_batches (Py.len files) B) by nia.
    rewrite Z.min_l by lia. reflexivity.
  - rewrite seq_S, flat_map_app, sleeps_app, IH by lia. simpl.
    rewrite app_nil_r, sleeps_batch_schedule by done.
    destruct (Z.ltb_spec (Z.of_nat j * B + B) (Py.len files)); nia.
Qed.

(** A run over at least one file pauses once less than it has batches. *)
Lemma pauses_run_schedule pause files B :
  1 <= B -> 0 <= pause -> files <> [] ->
  sleeps pause (run_schedule pause files B)
  = total_batches (Py.len files) B - 1.
Proof.
  intros HB Hp Hne. rewrite run_schedule_spec by done.
  assert (0 < Py.len files) as Hn.
  { destruct files; [done|]. unfold Py.len. simpl. lia. }
  pose proof (total_batches_bounds (Py.len files) B) as Hb.
  rewrite pauses_upto; [|done|done|done|lia]. nia.
Qed.

(** With no file there is no batch and no pause. *)
Lemma pauses_empty_run pause B :
  1 <= B -> run_schedule pause [] B = [].
Proof.
  intros HB. rewrite run_schedule_spec by done.
  unfold total_batches, Py.len. simpl. by rewrite Z.div_small by lia.
Qed.

End Schedule.

(* ===================================================================== *)
(** * The loop of batch_pdf_printer.py *)
(* ===================================================================== *)

Section LinuxLoop.
Context {H : Host}.
Import batch_pdf_printer.

Lemma flat_map_singleton {A B} (f : A -> B) (l : list A) :
  flat_map (fun x => [f x]) l = map f l.
Proof. induction l as [|x l IH]; [done|]. simpl. by rewrite IH. Qed.

Lemma file_body_returns pdf_file st w :
  exists st' w',
    returns (file_body pdf_file st) w st' w' [Lp pdf_file]
    /\ accounted st st' [Lp pdf_file].
Proof.
  unfold returns, file_body, print_pdf, bind, subprocess_run_lp, ret, accounted.
  destruct (host_lp pdf_file w) as [[| |] w1]; simpl;
    eexists _, _; (split; [reflexivity|]); unfold submissions, Py.len; simpl; lia.
Qed.

Lemma files_loop_returns batch st w :
  exists st' w',
    returns (for_each batch file_body st) w st' w' (map Lp batch)
    /\ accounted st st' (map Lp batch).
Proof.
  rewrite <- flat_map_singleton.
  apply for_each_schedule. apply file_body_returns.
Qed.

Lemma batch_body_returns pdf_files B i st w :
  B <> 0 ->
  exists st' w',
    returns (batch_body pdf_files B (Py.len pdf_files) i st) w st' w'
      (batch_schedule 2000 pdf_files B i)
    /\ accounted st st' (batch_schedule 2000 pdf_files B i).
Proof.
  intros HB. unfold batch_body, batch_schedule, Py.floordiv.
  destruct (Z.eqb_spec B 0) as [|_]; [done|].
  destruct (files_loop_returns (Py.slice pdf_files i (i + B)) st w)
    as (st' & w' & Hrun & Hacc).
  destruct (i + B <? Py.len pdf_files).
  - exists st', (host_sleep 2000 w'). split.
    + change (map Lp (Py.slice pdf_files i (i + B)) ++ [Sleep 2000])
        with ([] ++ [] ++ map Lp (Py.slice pdf_files i (i + B)) ++ [Sleep 2000] ++ []).
      eapply returns_bind; [apply returns_lift|].
      eapply returns_bind; [apply returns_lift|].
      eapply returns_bind; [exact Hrun|].
      eapply returns_bind; [by apply returns_sleep|apply returns_ret].
    + by apply accounted_more.
  - exists st', w'. split.
    + change (map Lp (Py.slice pdf_files i (i + B)) ++ [])
        with ([] ++ [] ++ map Lp (Py.slice pdf_files i (i + B)) ++ []).
      eapply returns_bind; [apply returns_lift|].
      eapply returns_bind; [apply returns_lift|].
      eapply returns_bind; [exact Hrun|apply returns_ret].
    + by apply accounted_more.
Qed.


(** The loop returns, and does exactly what the schedule says. *)
Lemma print_loop_returns pdf_files B w :
  1 <= B ->
  exists st w',
    returns (print_loop pdf_files B) w st w' (run_schedule 2000 pdf_files B)
    /\ accounted (0, 0) st (run_schedule 2000 pdf_files B).
Proof.
  intros HB. unfold print_loop, run_schedule, returns.
  rewrite range_pos_spec by (unfold Py.len; lia).
  rewrite bind_lift.
  apply for_each_schedule. intros x st w0. apply batch_body_returns. lia.
Qed.

Lemma submissions_run_schedule pause pdf_files B :
  1 <= B -> submissions (run_schedule pause pdf_files B) = Py.len pdf_files.
Proof.
  intros HB. unfold submissions.
  rewrite submitted_run_schedule by done. unfold Py.len. by rewrite length_map.
Qed.

End LinuxLoop.

(* ===================================================================== *)
(** * The loop of batch_pdf_printer_windows.py *)
(* ===================================================================== *)

Section WindowsLoop.
Context {H : Host}.
Import batch_pdf_printer_windows.

Lemma windows_file_body_returns N B d v x st w :
  B <> 0 -> 0 <= d ->
  exists st' w',
    returns (file_body N B d v x st) w st' w' (windows_file_schedule N B d x)
    /\ accounted st st' (windows_file_schedule N B d x).
Proof.
  intros HB Hd.
  unfold returns, file_body, print_pdf_file, bind, lift, Py.floordiv, Py.mod_,
    os_startfile_print, time_sleep, ret, windows_file_schedule, accounted,
    submissions, Py.len.
  destruct (Z.eqb_spec B 0) as [|_]; [done|].
  destruct (Z.ltb_spec (1000 * d) 0) as [|_]; [lia|].
  simpl. destruct (host_startfile x.2.1 w) as [[msg|] w1]; simpl;
    destruct (((x.1 + 1) mod B =? 0) && (x.1 + 1 <? N)); simpl;
    eexists _, _; (split; [reflexivity|simpl; lia]).
Qed.


Lemma windows_loop_returns N B d v (xs : list (Z * (string * string))) w :
  B <> 0 -> 0 <= d ->
  exists st w',
    returns (for_each xs (file_body N B d v) (0, 0)) w st w'
      (flat_map (windows_file_schedule N B d) xs)
    /\ accounted (0, 0) st (flat_map (windows_file_schedule N B d) xs).
Proof.
  intros HB Hd. apply for_each_schedule.
  intros x st w0. by apply windows_file_body_returns.
Qed.

Lemma length_enumerate {A} (l : list A) start : length (Py.enumerate start l) = length l.
Proof.
  revert start. induction l as [|x l IH]; intros start; [done|].
  simpl. by rewrite IH.
Qed.

End WindowsLoop.



(** A failure for which [print_pdf] has a handler never ends the run of
    the command-line loop: on a host whose [lp] ends in no other way,
    for every list and batch size [B >= 1], the loop returns, its
    submissions are the files of the list, each once and in order,
    whatever the outcomes, and the two counts add up to the number of
    files.  With five files and a printer that refuses submissions 1
    and 3 (from 0), the counts are 3 printed and 2 failed, with one
    batch or several; the thread of the graphical front end, when
    nobody cancels, reports the same. *)
Theorem failures_never_abort `{Host} (pdf_files : list string) (B : Z) (w : world) :
  1 <= B ->
  (exists s f w' tr,
      returns (batch_pdf_printer.print_loop pdf_files B) w (s, f) w' tr
      /\ submitted tr = map Lp pdf_files
      /\ s + f = Py.len pdf_files)
  /\ returns (H := scripted_host [1; 3]%nat None)
       (batch_pdf_printer.print_pdfs_in_batches (n_files 5) 10) (0, 0)%nat
       tt (5, 0)%nat (map Lp (n_files 5) ++ [LogCompleted 3 2])
  /\ (batch_pdf_printer.print_loop (H := scripted_host [1; 3]%nat None)
        (n_files 5) 2 (0, 0)%nat).1.1 = inr (3, 2)
  /\ returns (H := scripted_host [1; 3]%nat None)
       (gui_pdf_printer._print_thread (n_files 5) 10) (0, 0)%nat
       tt (5, 6)%nat
       (ReadFlag true
        :: flat_map (fun f => [ReadFlag true; Lp f]) (n_files 5)
        ++ [PrintFinished 3 2]).
Proof.
  intros HB. repeat apply conj; try reflexivity.
  destruct (print_loop_returns pdf_files B w HB) as ([s f] & w' & Hrun & Hacc).
  exists s, f, w', (run_schedule 2000 pdf_files B).
  split; [done|]. split; [by apply submitted_run_schedule|].
  unfold accounted in Hacc. simpl in Hacc.
  rewrite submissions_run_schedule in Hacc by done. lia.
Qed.

Lemma failures_never_abort_witness :
  1 <= 2
  /\ exists s f w' tr,
      returns (H := scripted_host [0]%nat None)
        (batch_pdf_printer.print_loop ["a.pdf"; "b.pdf"; "c.pdf"] 2) (0, 0)%nat
        (s, f) w' tr
      /\ submitted tr = map Lp ["a.pdf"; "b.pdf"; "c.pdf"]
      /\ s + f = Py.len ["a.pdf"; "b.pdf"; "c.pdf"].
Proof.
  split; [lia|].
  apply (failures_never_abort (H := scripted_host [0]%nat None)
           ["a.pdf"; "b.pdf"; "c.pdf"] 2 (0, 0)%nat). lia.
Defined.

(** Where no call of [lp] ends in another exception, the loops on a
    [RaisingHost] are the loops on its [Host]. *)
Lemma for_each_ext `{Host} {A S} (body1 body2 : A -> S -> M S) (xs : list A) :
  (forall x s w, body1 x s w = body2 x s w) ->
  forall s w, for_each xs body1 s w = for_each xs body2 s w.
Proof.
  intros Hbody. induction xs as [|x xs IH]; intros s w; [done|].
  cbn [for_each]. unfold bind. rewrite Hbody.
  destruct (body2 x s w) as [[[e|s1] w1] t1]; [done|]. by rewrite IH.
Qed.

Section WithoutOtherErrors.
Context {RH : RaisingHost}.
Hypothesis no_other_error : forall path w, host_lp_raises path w = None.

Lemma print_pdf_without_other_errors file_path w :
  batch_pdf_printer_raising.print_pdf file_path w
  = batch_pdf_printer.print_pdf file_path w.
Proof.
  unfold batch_pdf_printer_raising.print_pdf, batch_pdf_printer.print_pdf, bind,
    subprocess_run_lp_raising, subprocess_run_lp.
  by rewrite no_other_error.
Qed.

Lemma print_loop_without_other_errors pdf_files B w :
  batch_pdf_printer_raising.print_loop pdf_files B w
  = batch_pdf_printer.print_loop pdf_files B w.
Proof.
  unfold batch_pdf_printer_raising.print_loop, batch_pdf_printer.print_loop, bind.
  destruct (lift (Py.range 0 (Py.len pdf_files) B) w) as [[[e|starts] w1] t1];
    [done|].
  rewrite (for_each_ext
             (batch_pdf_printer_raising.batch_body pdf_files B (Py.len pdf_files))
             (batch_pdf_printer.batch_body pdf_files B (Py.len pdf_files)));
    [done|].
  intros i st w0.
  unfold batch_pdf_printer_raising.batch_body, batch_pdf_printer.batch_body, bind.
  destruct (lift (Py.floordiv i B) w0) as [[[e|q] w2] t2]; [done|].
  destruct (lift (Py.floordiv (Py.len pdf_files + B - 1) B) w2)
    as [[[e|tb] w3] t3]; [done|].
  rewrite (for_each_ext batch_pdf_printer_raising.file_body
             batch_pdf_printer.file_body); [done|].
  intros pdf_file st0 w4.
  unfold batch_pdf_printer_raising.file_body, batch_pdf_printer.file_body, bind.
  by rewrite print_pdf_without_other_errors.
Qed.

End WithoutOtherErrors.

(** C3.  A failed file can end the run of the command-line loop.
    [print_pdf] turns [CalledProcessError] and [FileNotFoundError] into
    [False] and has no handler for the other exceptions of
    [subprocess.run].  With three files in one batch and an [lp] whose
    answer for the second file is no text in the locale, the call for
    that file ends in [UnicodeDecodeError] and so does
    [print_pdfs_in_batches]: the third file is never handed to the
    printer and no counts are logged.  The loop of the Windows command
    line, whose [print_pdf_file] catches every [Exception], goes on to
    the third file when the second fails, and counts 2 and 1. *)
Theorem unhandled_exception_ends_the_run :
  batch_pdf_printer_raising.print_pdfs_in_batches (RH := garbled_host "b.pdf")
    ["a.pdf"; "b.pdf"; "c.pdf"] 10 (0, 0)%nat
  = (inl Py.UnicodeDecodeError, (2, 0)%nat, [Lp "a.pdf"; Lp "b.pdf"])
  /\ batch_pdf_printer_windows.print_pdfs_in_batches (H := scripted_host [1%nat] None)
       [("a.pdf", "a.pdf"); ("b.pdf", "b.pdf"); ("c.pdf", "c.pdf")] 10 2 false
       (0, 0)%nat
     = (inr (2, 1), (3, 0)%nat,
        [Startfile "a.pdf"; Sleep 500; Startfile "b.pdf"; Sleep 500;
         Startfile "c.pdf"; Sleep 500]).
Proof. split; reflexivity. Qed.


(* ===================================================================== *)
(** * The threads of the graphical front ends *)
(* ===================================================================== *)

Section Threads.
Context {H : Host}.

Lemma guarded_bind {A B} (m : M A) (k : A -> M B) w :
  guarded false (events_of m w) = true ->
  (forall a w1, guarded false (events_of (k a) w1) = true) ->
  guarded false (events_of (bind m k) w) = true.
Proof.
  intros Hm Hk. rewrite events_bind.
  destruct ((m w).1.1) as [e|a]; [done|]. by apply guarded_app.
Qed.

Lemma guarded_for_break {A S} (body : A -> S -> M (flow * S)) (xs : list A) :
  (forall x s w, guarded false (events_of (body x s) w) = true) ->
  forall s w, guarded false (events_of (for_break xs body s) w) = true.
Proof.
  intros Hbody. apply (for_break_events (fun t => guarded false t = true));
    [done | apply guarded_app | done].
Qed.

Lemma guarded_sleep ms w : guarded false (events_of (time_sleep ms) w) = true.
Proof. unfold events_of, time_sleep. by destruct (ms <? 0). Qed.

Lemma gui_file_body_guarded pdf_file c w :
  guarded false (events_of (gui_pdf_printer.file_body pdf_file c) w) = true.
Proof.
  unfold events_of, gui_pdf_printer.file_body, bind, read_is_printing,
    subprocess_run_lp_timeout, ret, raise.
  destruct (host_is_printing w) as [[] w1]; simpl; [|done].
  by destruct (host_lp_timeout 60 pdf_file w1) as [[[]|] w2].
Qed.

Lemma gui_batch_body_guarded n x c w :
  guarded false (events_of (gui_pdf_printer.batch_body n x c) w) = true.
Proof.
  unfold gui_pdf_printer.batch_body.
  apply guarded_bind; [done|]. intros [] w1; [|done]. simpl.
  apply guarded_bind.
  { apply guarded_for_break. apply gui_file_body_guarded. }
  intros c' w2. destruct (x.1 <? n); [|done].
  apply guarded_bind; [done|]. intros [] w3; [|done].
  apply guarded_bind; [apply guarded_sleep|done].
Qed.

Lemma print_thread_guarded found_pdfs B w :
  guarded false (events_of (gui_pdf_printer._print_thread found_pdfs B) w) = true.
Proof.
  unfold gui_pdf_printer._print_thread.
  apply guarded_bind; [done|]. intros bs w1.
  apply guarded_bind; [|done].
  apply guarded_for_break. apply gui_batch_body_guarded.
Qed.

Lemma worker_file_body_guarded N B x n w :
  guarded false (events_of (gui_pdf_printer_windows.file_body N B x n) w) = true.
Proof.
  unfold events_of, gui_pdf_printer_windows.file_body, bind, read_is_printing,
    os_startfile_print, ret.
  destruct (host_is_printing w) as [[] w1]; simpl; [|done].
  destruct (host_startfile x.2.1.1 w1) as [[msg|] w2]; simpl; [done|].
  destruct (Py.mod_ (x.1 + 1) B) as [e|m]; [done|].
  unfold time_sleep. destruct ((m =? 0) && (x.1 + 1 <? N)); by simpl.
Qed.

Lemma print_worker_guarded found_pdfs B w :
  guarded false (events_of (gui_pdf_printer_windows.print_worker found_pdfs B) w)
  = true.
Proof.
  unfold gui_pdf_printer_windows.print_worker.
  apply guarded_bind.
  { apply guarded_for_break. apply worker_file_body_guarded. }
  intros n w1. apply guarded_bind; [done|]. intros b w2.
  apply guarded_bind; [by destruct b|done].
Qed.

(** *** Cancelled before the first file *)

Lemma batches_nil {A} B : 1 <= B -> batches (@nil A) B = inr [].
Proof.
  intros HB. rewrite batches_spec by done.
  unfold total_batches, Py.len. simpl. by rewrite Z.div_small by lia.
Qed.

Lemma batches_cons {A} (x : A) l B :
  1 <= B -> exists b bs, batches (x :: l) B = inr (b :: bs).
Proof.
  intros HB. rewrite batches_spec by done.
  pose proof (total_batches_bounds (Py.len (x :: l)) B) as Hb.
  assert (0 < Py.len (x :: l)) as Hn by (unfold Py.len; simpl; lia).
  destruct (Z.to_nat (total_batches (Py.len (x :: l)) B)) as [|n] eqn:Hc.
  { assert (total_batches (Py.len (x :: l)) B <= 0) by lia. nia. }
  simpl. eauto.
Qed.

Lemma print_thread_cancelled found_pdfs B w :
  1 <= B -> (host_is_printing w).1 = false ->
  (gui_pdf_printer._print_thread found_pdfs B w).1.1 = inr tt
  /\ events_of (gui_pdf_printer._print_thread found_pdfs B) w
     = match found_pdfs with
       | [] => [PrintFinished 0 0]
       | _ :: _ => [ReadFlag false; PrintFinished 0 0]
       end.
Proof.
  intros HB Hflag. unfold events_of, gui_pdf_printer._print_thread.
  destruct found_pdfs as [|f fs].
  - by rewrite batches_nil.
  - destruct (batches_cons f fs B HB) as (b & bs & ->).
    rewrite bind_lift. simpl.
    unfold bind, gui_pdf_printer.batch_body, bind, read_is_printing.
    destruct (host_is_printing w) as [flag w1]. simpl in Hflag. subst flag.
    by simpl.
Qed.

Lemma print_worker_cancelled found_pdfs B w :
  (host_is_printing w).1 = false ->
  (gui_pdf_printer_windows.print_worker found_pdfs B w).1.1 = inr tt
  /\ submitted (events_of (gui_pdf_printer_windows.print_worker found_pdfs B) w) = []
  /\ forall n t,
       In (ReportPrinted n t)
          (events_of (gui_pdf_printer_windows.print_worker found_pdfs B) w) ->
       n = 0.
Proof.
  intros Hflag. unfold events_of, gui_pdf_printer_windows.print_worker.
  destruct found_pdfs as [|x xs]; simpl.
  - unfold bind, read_is_printing, write_is_printing, ret.
    destruct (host_is_printing w) as [flag w1]. simpl in Hflag. subst flag.
    simpl. split; [done|]. split; [done|]. intros n t Hin.
    repeat (destruct Hin as [Hin|Hin]; [discriminate|]). destruct Hin.
  - unfold bind, gui_pdf_printer_windows.file_body, bind, read_is_printing,
      write_is_printing, ret, emit.
    destruct (host_is_printing w) as [flag w1]. simpl in Hflag. subst flag.
    simpl. destruct (host_is_printing w1) as [[] w2]; simpl.
    + split; [done|]. split; [done|]. intros n t Hin.
      repeat (destruct Hin as [Hin|Hin]; [congruence|]). destruct Hin.
    + split; [done|]. split; [done|]. intros n t Hin.
      repeat (destruct Hin as [Hin|Hin]; [discriminate|]). destruct Hin.
Qed.

End Threads.

Lemma print_thread_cancelled_submits_nothing `{Host} found_pdfs B w :
  (host_is_printing w).1 = false ->
  submitted (events_of (gui_pdf_printer._print_thread found_pdfs B) w) = [].
Proof.
  intros Hflag. unfold events_of, gui_pdf_printer._print_thread.
  destruct (batches found_pdfs B) as [e|[|b bs]]; [done|done|].
  rewrite bind_lift. simpl.
  unfold bind, gui_pdf_printer.batch_body, bind, read_is_printing.
  destruct (host_is_printing w) as [flag w1]. simpl in Hflag. subst flag.
  by simpl.
Qed.

(** C4.  In both graphical front ends the flag [is_printing] is read
    before each file is handed to the printer: in every run, whatever
    its end, each submission comes directly after a read of the flag
    that gave [True].  If the first read of the flag gives [False]
    (the user cancelled before the thread reached the first file), no
    file is submitted; the Linux thread then hands [successful = 0] and
    [failed = 0] to [_print_finished] (for a batch size of at least 1),
    and the Windows worker returns having printed nothing. *)
Theorem cancellation_checked_before_each_file `{Host}
    (found_pdfs : list string) (win_found : list (string * string * Z))
    (B : Z) (w : world) :
  guarded false (events_of (gui_pdf_printer._print_thread found_pdfs B) w) = true
  /\ guarded false
       (events_of (gui_pdf_printer_windows.print_worker win_found B) w) = true
  /\ ((host_is_printing w).1 = false ->
      submitted (events_of (gui_pdf_printer._print_thread found_pdfs B) w) = []
      /\ (gui_pdf_printer_windows.print_worker win_found B w).1.1 = inr tt
      /\ submitted
           (events_of (gui_pdf_printer_windows.print_worker win_found B) w) = []
      /\ (forall n t,
            In (ReportPrinted n t)
               (events_of (gui_pdf_printer_windows.print_worker win_found B) w) ->
            n = 0)
      /\ (1 <= B ->
          (gui_pdf_printer._print_thread found_pdfs B w).1.1 = inr tt
          /\ events_of (gui_pdf_printer._print_thread found_pdfs B) w
             = match found_pdfs with
               | [] => [PrintFinished 0 0]
               | _ :: _ => [ReadFlag false; PrintFinished 0 0]
               end)).
Proof.
  split; [apply print_thread_guarded|].
  split; [apply print_worker_guarded|].
  intros Hflag.
  split; [by apply print_thread_cancelled_submits_nothing|].
  destruct (print_worker_cancelled win_found B w Hflag) as (Hr & Hs & Hn).
  repeat (split; [assumption|]).
  intros HB. by apply print_thread_cancelled.
Qed.

Lemma cancellation_checked_before_each_file_witness :
  (host_is_printing (Host := scripted_host [] (Some 0%nat)) (0, 0)%nat).1 = false
  /\ 1 <= 10
  /\ events_of (H := scripted_host [] (Some 0%nat))
       (gui_pdf_printer._print_thread (n_files 3) 10) (0, 0)%nat
     = [ReadFlag false; PrintFinished 0 0].
Proof.
  split; [reflexivity|]. split; [lia|].
  apply (cancellation_checked_before_each_file (H := scripted_host [] (Some 0%nat))
           (n_files 3) [] 10 (0, 0)%nat); [reflexivity | lia].
Defined.

(* ===================================================================== *)
(** * Pauses of the Windows loop *)
(* ===================================================================== *)

Section WindowsPauses.
Implicit Types (N B d : Z) (xs : list (Z * (string * string))).

Lemma flat_map_cons_app {A} (T : A -> list event) x l :
  flat_map T (x :: l) = T x ++ flat_map T l.
Proof. reflexivity. Qed.

Lemma short_sleeps_windows_schedule N B d xs :
  sleeps 500 (flat_map (windows_file_schedule N B d) xs) = Py.len xs.
Proof.
  induction xs as [|x xs IH]; [done|].
  rewrite flat_map_cons_app, sleeps_app, IH.
  unfold windows_file_schedule. rewrite !sleeps_cons. cbn [is_sleep].
  rewrite Z.eqb_refl.
  replace (Py.len (x :: xs)) with (1 + Py.len xs)
    by (unfold Py.len; cbn [length]; lia).
  destruct (_ && _); [|by rewrite sleeps_nil].
  rewrite sleeps_cons, sleeps_nil. cbn [is_sleep].
  destruct (Z.eqb_spec (1000 * d) 500); lia.
Qed.

Lemma div_succ (s B : Z) :
  1 <= B -> 0 <= s ->
  (s + 1) / B - s / B = if (s + 1) mod B =? 0 then 1 else 0.
Proof.
  intros HB Hs.
  pose proof (Z.div_mod s B ltac:(lia)) as Hdm.
  pose proof (Z.mod_pos_bound s B ltac:(lia)) as Hm.
  destruct (Z.eq_dec (s mod B + 1) B) as [Heq|Hne].
  - assert ((s + 1) mod B = 0) as Hz.
    { symmetry. apply (Z.mod_unique_pos _ _ (s / B + 1)); lia. }
    assert ((s + 1) / B = s / B + 1) as Hq.
    { symmetry. apply (Z.div_unique_pos _ _ _ 0); lia. }
    rewrite Hz, Hq. simpl. lia.
  - assert ((s + 1) mod B = s mod B + 1) as Hz.
    { symmetry. apply (Z.mod_unique_pos _ _ (s / B)); lia. }
    assert ((s + 1) / B = s / B) as Hq.
    { symmetry. apply (Z.div_unique_pos _ _ _ (s mod B + 1)); lia. }
    rewrite Hz, Hq. destruct (Z.eqb_spec (s mod B + 1) 0); lia.
Qed.

Lemma long_sleeps_windows_schedule N B d (l : list (string * string)) (s : Z) :
  1 <= B -> 0 <= d -> 0 <= s ->
  sleeps (1000 * d) (flat_map (windows_file_schedule N B d) (Py.enumerate s l))
  = Z.min (s + Py.len l) (N - 1) / B - Z.min s (N - 1) / B.
Proof.
  intros HB Hd. revert s. induction l as [|x l IH]; intros s Hs.
  - unfold sleeps, Py.len. simpl. rewrite Z.add_0_r. lia.
  - simpl Py.enumerate. rewrite flat_map_cons_app, sleeps_app, IH by lia.
    replace (s + 1 + Py.len l) with (s + Py.len (x :: l))
      by (unfold Py.len; simpl length; lia).
    assert (sleeps (1000 * d) (windows_file_schedule N B d (s, x))
            = Z.min (s + 1) (N - 1) / B - Z.min s (N - 1) / B) as ->; [|lia].
    unfold windows_file_schedule. cbn [fst snd].
    rewrite !sleeps_cons. cbn [is_sleep].
    destruct (Z.eqb_spec 500 (1000 * d)); [lia|].
    destruct (Z.ltb_spec (s + 1) N) as [Hlt|Hge].
    + rewrite !Z.min_l by lia. rewrite div_succ by lia.
      destruct ((s + 1) mod B =? 0); cbn [andb]; [|by rewrite sleeps_nil].
      rewrite sleeps_cons, sleeps_nil. cbn [is_sleep].
      rewrite Z.eqb_refl. lia.
    + rewrite !Z.min_r by lia. rewrite andb_false_r, sleeps_nil. lia.
Qed.

(** The long pauses of a whole run over at least one file. *)
Lemma pauses_windows_run B d (l : list (string * string)) :
  1 <= B -> 0 <= d -> l <> [] ->
  sleeps (1000 * d)
    (flat_map (windows_file_schedule (Py.len l) B d) (Py.enumerate 0 l))
  = total_batches (Py.len l) B - 1.
Proof.
  intros HB Hd Hne. rewrite long_sleeps_windows_schedule by lia.
  assert (0 < Py.len l) as Hn.
  { destruct l; [done|]. unfold Py.len. simpl. lia. }
  rewrite (Z.min_r (0 + Py.len l)), (Z.min_l 0), Z.div_0_l by lia.
  unfold total_batches.
  replace (Py.len l + B - 1) with (Py.len l - 1 + 1 * B) by lia.
  rewrite Z.div_add by lia. lia.
Qed.

End WindowsPauses.

Lemma other_sleeps_run_schedule ms pause files B :
  1 <= B -> pause <> ms -> sleeps ms (run_schedule pause files B) = 0.
Proof.
  intros HB Hne. rewrite run_schedule_spec by done.
  induction (seq 0 _) as [|k ks IH]; [done|].
  rewrite flat_map_cons_app, sleeps_app, IH.
  unfold batch_schedule. rewrite sleeps_app, sleeps_map_Lp.
  destruct (_ <? _); [|done].
  rewrite sleeps_cons, sleeps_nil. cbn [is_sleep].
  destruct (Z.eqb_spec pause ms); [done|lia].
Qed.

Lemma worker_sleep_after_file `{Host} N B (x : Z * (string * string * Z)) n w :
  B <> 0 ->
  (host_is_printing w).1 = true ->
  (host_startfile x.2.1.1 (host_is_printing w).2).1 = None ->
  events_of (gui_pdf_printer_windows.file_body N B x n) w
  = [ReadFlag true; Startfile x.2.1.1;
     Sleep (if ((x.1 + 1) mod B =? 0) && (x.1 + 1 <? N) then 3000 else 500)].
Proof.
  intros HB Hflag Hok.
  unfold events_of, gui_pdf_printer_windows.file_body, bind, read_is_printing,
    os_startfile_print, ret, Py.mod_, time_sleep.
  destruct (host_is_printing w) as [flag w1]. cbn [fst snd] in *. subst flag.
  cbn [negb]. destruct (host_startfile x.2.1.1 w1) as [r w2].
  cbn [fst snd] in *. subst r.
  destruct (Z.eqb_spec B 0) as [|_]; [done|].
  by destruct (((x.1 + 1) mod B =? 0) && (x.1 + 1 <? N)).
Qed.

(** C5, as the code has it.  The Windows command-line loop sleeps for
    the inter-file delay of 0.5 s directly after every file, whatever
    its outcome: also after the last file of a batch (where the pause
    between batches then follows) and after the last file of the run.
    A run over [N] files makes [N] such sleeps.  The Linux command-line
    loop makes none.  The worker of the Windows graphical front end
    sleeps after each file that the system accepted: 3 s if the file
    ends a batch and more files follow, and 0.5 s otherwise, which
    includes the last file of the run. *)
Theorem windows_loop_sleeps_after_every_file `{Host}
    (win_files : list (string * string)) (pdf_files : list string)
    (B d : Z) (verbose : bool) (w : world) :
  1 <= B -> 0 <= d ->
  (exists st w' tr,
      returns (batch_pdf_printer_windows.print_pdfs_in_batches win_files B d verbose)
        w st w' tr
      /\ tr = flat_map
                (fun x : Z * (string * string) =>
                   Startfile x.2.1 :: Sleep 500 ::
                   (if ((x.1 + 1) mod B =? 0) && (x.1 + 1 <? Py.len win_files)
                    then [Sleep (1000 * d)] else []))
                (Py.enumerate 0 win_files)
      /\ sleeps 500 tr = Py.len win_files)
  /\ (exists st w' tr,
      returns (batch_pdf_printer.print_loop pdf_files B) w st w' tr
      /\ sleeps 500 tr = 0)
  /\ (forall (total_files : Z) (x : Z * (string * string * Z)) (printed_count : Z),
      (host_is_printing w).1 = true ->
      (host_startfile x.2.1.1 (host_is_printing w).2).1 = None ->
      events_of (gui_pdf_printer_windows.file_body total_files B x printed_count) w
      = [ReadFlag true; Startfile x.2.1.1;
         Sleep (if ((x.1 + 1) mod B =? 0) && (x.1 + 1 <? total_files)
                then 3000 else 500)]).
Proof.
  intros HB Hd. split; [|split].
  - destruct (windows_loop_returns (Py.len win_files) B d verbose
                (Py.enumerate 0 win_files) w) as (st & w' & Hrun & _); [lia|done|].
    eexists st, w', _. split; [exact Hrun|]. split; [reflexivity|].
    rewrite short_sleeps_windows_schedule.
    unfold Py.len. by rewrite length_enumerate.
  - destruct (print_loop_returns pdf_files B w HB) as (st & w' & Hrun & _).
    eexists st, w', _. split; [exact Hrun|].
    apply other_sleeps_run_schedule; [done|lia].
  - intros N x n Hflag Hok. apply worker_sleep_after_file; [lia|done|done].
Qed.

Lemma windows_loop_sleeps_after_every_file_witness :
  1 <= 2 /\ 0 <= 3
  /\ exists st w' tr,
      returns (H := scripted_host [] None)
        (batch_pdf_printer_windows.print_pdfs_in_batches
           [("a", "a"); ("b", "b"); ("c", "c")] 2 3 false) (0, 0)%nat st w' tr
      /\ tr = flat_map
                (fun x : Z * (string * string) =>
                   Startfile x.2.1 :: Sleep 500 ::
                   (if ((x.1 + 1) mod 2 =? 0)
                       && (x.1 + 1 <? Py.len [("a", "a"); ("b", "b"); ("c", "c")])
                    then [Sleep (1000 * 3)] else []))
                (Py.enumerate 0 [("a", "a"); ("b", "b"); ("c", "c")])
      /\ sleeps 500 tr = Py.len [("a", "a"); ("b", "b"); ("c", "c")].
Proof.
  split; [lia|]. split; [lia|].
  apply (windows_loop_sleeps_after_every_file (H := scripted_host [] None)
           [("a", "a"); ("b", "b"); ("c", "c")] [] 2 3 false (0, 0)%nat); lia.
Defined.

(** C5, as the specification has it, fails: with one file the Windows
    command-line loop sleeps 0.5 s after that file, the last of the
    run. *)
Lemma inter_file_sleep_follows_final_file :
  events_of (H := scripted_host [] None)
    (batch_pdf_printer_windows.print_pdfs_in_batches [("a.pdf", "a.pdf")] 10 3 false)
    (0, 0)%nat
  = [Startfile "a.pdf"; Sleep 500]
  /\ ~ no_sleep_after_final_file 500
       (events_of (H := scripted_host [] None)
          (batch_pdf_printer_windows.print_pdfs_in_batches
             [("a.pdf", "a.pdf")] 10 3 false) (0, 0)%nat).
Proof.
  split; [reflexivity|].
  intros Hclaim.
  specialize (Hclaim [Startfile "a.pdf"] [Sleep 500] eq_refl eq_refl).
  discriminate Hclaim.
Qed.

(* ===================================================================== *)
(** * The loop of interactive_pdf_printer.py *)
(* ===================================================================== *)

Section InteractiveLoop.
Context {H : Host}.
Import interactive_pdf_printer.

(** The spooler command exists on the machine. *)
Hypothesis lp_installed : forall path w, (host_lp path w).1 <> LpNotFound.

Lemma interactive_file_body_returns pdf st w :
  exists st' w',
    returns (file_body pdf st) w st' w' [Lp pdf] /\ accounted st st' [Lp pdf].
Proof.
  unfold returns, file_body, bind, subprocess_run_lp, ret, accounted.
  pose proof (lp_installed pdf w) as Hlp.
  destruct (host_lp pdf w) as [[| |] w1]; simpl in *; [| |done];
    eexists _, _; (split; [reflexivity|]); unfold submissions, Py.len; simpl; lia.
Qed.

Lemma interactive_batch_body_returns n x st w :
  exists st' w',
    returns (batch_body n x st) w st' w'
      (map Lp x.2 ++ (if x.1 <? n then [Sleep 3000] else []))
    /\ accounted st st' (map Lp x.2 ++ (if x.1 <? n then [Sleep 3000] else [])).
Proof.
  unfold batch_body.
  destruct (for_each_schedule file_body (fun f => [Lp f]) x.2
              interactive_file_body_returns st w) as (st' & w' & Hrun & Hacc).
  rewrite flat_map_singleton in Hrun, Hacc.
  destruct (x.1 <? n).
  - exists st', (host_sleep 3000 w'). split.
    + change (map Lp x.2 ++ [Sleep 3000])
        with (map Lp x.2 ++ [Sleep 3000] ++ []).
      eapply returns_bind; [exact Hrun|].
      eapply returns_bind; [by apply returns_sleep|apply returns_ret].
    + by apply accounted_more.
  - exists st', w'. split.
    + eapply returns_bind; [exact Hrun|apply returns_ret].
    + by apply accounted_more.
Qed.

Lemma enumerate_batches_schedule files B (n a m : nat) :
  1 <= B -> n = Z.to_nat (total_batches (Py.len files) B) -> (a + m <= n)%nat ->
  flat_map (fun x : Z * list string =>
              map Lp x.2 ++ (if x.1 <? Z.of_nat n then [Sleep 3000] else []))
    (Py.enumerate (Z.of_nat a + 1)
       (map (fun k : nat => take (Z.to_nat B) (drop (k * Z.to_nat B) files))
            (seq a m)))
  = flat_map (fun k : nat => batch_schedule 3000 files B (Z.of_nat k * B)) (seq a m).
Proof.
  intros HB Hn. revert a. induction m as [|m IH]; intros a Ham; [done|].
  cbn [seq map Py.enumerate]. rewrite !flat_map_cons_app.
  replace (Z.of_nat a + 1 + 1) with (Z.of_nat (S a) + 1) by lia.
  rewrite IH by lia. f_equal.
  unfold batch_schedule. cbn [fst snd]. rewrite slice_chunk by done.
  f_equal.
  pose proof (total_batches_bounds (Py.len files) B) as Hb.
  assert (0 <= Py.len files) by (unfold Py.len; lia).
  destruct (Z.ltb_spec (Z.of_nat a + 1) (Z.of_nat n));
    destruct (Z.ltb_spec (Z.of_nat a * B + B) (Py.len files)); try done; nia.
Qed.

Lemma interactive_loop_returns found_pdfs B bs w :
  1 <= B -> batches found_pdfs B = inr bs ->
  exists st w',
    returns (for_each (Py.enumerate 1 bs) (batch_body (Py.len bs)) (0, 0)) w st w'
      (run_schedule 3000 found_pdfs B)
    /\ accounted (0, 0) st (run_schedule 3000 found_pdfs B).
Proof.
  intros HB Hbs.
  destruct (for_each_schedule (batch_body (Py.len bs)) _ (Py.enumerate 1 bs)
              (interactive_batch_body_returns (Py.len bs)) (0, 0) w)
    as (st & w' & Hrun & Hacc).
  assert (flat_map (fun x : Z * list string =>
                      map Lp x.2 ++ (if x.1 <? Py.len bs then [Sleep 3000] else []))
            (Py.enumerate 1 bs) = run_schedule 3000 found_pdfs B) as Heq.
  { rewrite run_schedule_spec by done.
    rewrite batches_spec in Hbs by done. injection Hbs as <-.
    unfold Py.len at 1. rewrite length_map, length_seq.
    by apply (enumerate_batches_schedule found_pdfs B _ 0). }
  rewrite Heq in Hrun, Hacc. eauto.
Qed.

Lemma print_pdfs_returns f fs B confirm w :
  1 <= B -> String.eqb (Py.upper confirm) "JA" = true ->
  exists s1 s2 w',
    returns (print_pdfs (f :: fs) B confirm) w true w'
      (run_schedule 3000 (f :: fs) B ++ [LogCompleted s1 s2]).
Proof.
  intros HB Hc. unfold print_pdfs, returns. rewrite Hc. cbn [negb].
  destruct (batches (f :: fs) B) as [e|bs] eqn:Hbs.
  { rewrite batches_spec in Hbs by done. discriminate. }
  rewrite bind_lift.
  destruct (interactive_loop_returns (f :: fs) B bs w HB Hbs)
    as ([s1 s2] & w' & Hrun & _).
  exists s1, s2, w'.
  eapply returns_bind; [exact Hrun|]. reflexivity.
Qed.

End InteractiveLoop.

(* ===================================================================== *)
(** * Pauses between batches *)
(* ===================================================================== *)

Lemma total_batches_is_ceil (n B : Z) :
  0 < n -> 1 <= B -> is_ceil_div n B (total_batches n B).
Proof.
  intros Hn HB. unfold is_ceil_div.
  pose proof (total_batches_bounds n B). nia.
Qed.

Lemma len_pos {A} (l : list A) : l <> [] -> 0 < Py.len l.
Proof. destruct l; [done|]. unfold Py.len. simpl. lia. Qed.

(** Twenty-three files in batches of ten. *)
Lemma schedule_23_by_10 pause (files : list string) :
  length files = 23%nat ->
  run_schedule pause files 10
  = map Lp (take 10 files) ++ [Sleep pause]
    ++ map Lp (take 10 (drop 10 files)) ++ [Sleep pause]
    ++ map Lp (drop 20 files).
Proof.
  intros Hlen. rewrite run_schedule_spec by lia.
  unfold batch_schedule, Py.len. rewrite Hlen.
  change (Z.to_nat (total_batches (Z.of_nat 23) 10)) with 3%nat.
  cbn [seq flat_map].
  rewrite !slice_chunk by lia.
  change (Z.to_nat 10) with 10%nat.
  change (0 * 10)%nat with 0%nat. change (1 * 10)%nat with 10%nat.
  change (2 * 10)%nat with 20%nat.
  change (Z.of_nat 0 * 10 + 10 <? Z.of_nat 23) with true.
  change (Z.of_nat 1 * 10 + 10 <? Z.of_nat 23) with true.
  change (Z.of_nat 2 * 10 + 10 <? Z.of_nat 23) with false.
  rewrite drop_0, (take_ge (drop 20 files)) by (rewrite length_drop; lia).
  by rewrite !app_nil_r, <- !app_assoc.
Qed.

Lemma batches_23_by_10 {A} (files : list A) :
  length files = 23%nat ->
  exists bs, batches files 10 = inr bs /\ map length bs = [10; 10; 3]%nat.
Proof.
  intros Hlen. rewrite batches_spec by lia. eexists. split; [reflexivity|].
  unfold Py.len. rewrite Hlen.
  change (Z.to_nat (total_batches (Z.of_nat 23) 10)) with 3%nat.
  cbn [seq map]. rewrite !length_take, !length_drop, Hlen. reflexivity.
Qed.

(** C6.  A run over [N >= 1] files in batches of [B >= 1] pauses
    between batches one time less than it has batches: the number of
    inter-batch sleeps is [c - 1] for the ceiling [c] of [N / B].
    This holds for the Linux command-line loop (pauses of 2 s), the
    Windows command-line loop (pauses of [delay] seconds) and the
    terminal menu (pauses of 3 s, on a machine that has the spooler
    command).  With 23 files and batches of 10 the batches have 10, 10
    and 3 files and the run is: ten files, a pause, ten files, a pause,
    three files, and no pause after them. *)
Theorem pauses_between_batches `{Host}
    (pdf_files : list string) (win_files : list (string * string))
    (B d : Z) (verbose : bool) (confirm : string) (w : world) :
  1 <= B -> 0 <= d -> pdf_files <> [] -> win_files <> [] ->
  (forall path w0, (host_lp path w0).1 <> LpNotFound) ->
  String.eqb (Py.upper confirm) "JA" = true ->
  is_ceil_div (Py.len pdf_files) B (total_batches (Py.len pdf_files) B)
  /\ is_ceil_div (Py.len win_files) B (total_batches (Py.len win_files) B)
  /\ (exists st w' tr,
        returns (batch_pdf_printer.print_loop pdf_files B) w st w' tr
        /\ sleeps 2000 tr = total_batches (Py.len pdf_files) B - 1)
  /\ (exists st w' tr,
        returns (batch_pdf_printer_windows.print_pdfs_in_batches win_files B d
                   verbose) w st w' tr
        /\ sleeps (1000 * d) tr = total_batches (Py.len win_files) B - 1)
  /\ (exists w' tr,
        returns (interactive_pdf_printer.print_pdfs pdf_files B confirm) w true w' tr
        /\ sleeps 3000 tr = total_batches (Py.len pdf_files) B - 1)
  /\ (forall files23 : list string,
        length files23 = 23%nat ->
        (exists bs, batches files23 10 = inr bs /\ map length bs = [10; 10; 3]%nat)
        /\ exists st w',
             returns (batch_pdf_printer.print_loop files23 10) w st w'
               (map Lp (take 10 files23) ++ [Sleep 2000]
                ++ map Lp (take 10 (drop 10 files23)) ++ [Sleep 2000]
                ++ map Lp (drop 20 files23))).
Proof.
  intros HB Hd Hne Hwne Hlp Hconfirm.
  split; [apply total_batches_is_ceil; [by apply len_pos|done]|].
  split; [apply total_batches_is_ceil; [by apply len_pos|done]|].
  split; [|split; [|split]].
  - destruct (print_loop_returns pdf_files B w HB) as (st & w' & Hrun & _).
    eexists st, w', _. split; [exact Hrun|].
    apply pauses_run_schedule; [done|lia|done].
  - destruct (windows_loop_returns (Py.len win_files) B d verbose
                (Py.enumerate 0 win_files) w) as (st & w' & Hrun & _); [lia|done|].
    eexists st, w', _. split; [exact Hrun|].
    by apply pauses_windows_run.
  - destruct pdf_files as [|f fs]; [done|].
    destruct (print_pdfs_returns Hlp f fs B confirm w HB Hconfirm)
      as (s1 & s2 & w' & Hrun).
    eexists w', _. split; [exact Hrun|].
    rewrite sleeps_app, sleeps_cons, sleeps_nil. cbn [is_sleep].
    rewrite pauses_run_schedule; [lia|done|lia|done].
  - intros files23 Hlen. split; [by apply batches_23_by_10|].
    destruct (print_loop_returns files23 10 w ltac:(lia)) as (st & w' & Hrun & _).
    exists st, w'. by rewrite <- (schedule_23_by_10 2000).
Qed.

Lemma pauses_between_batches_witness :
  1 <= 10 /\ 0 <= 3 /\ n_files 23 <> [] /\ replicate 23 ("a", "a") <> []
  /\ (forall path w0,
        (host_lp (Host := scripted_host [1]%nat None) path w0).1 <> LpNotFound)
  /\ String.eqb (Py.upper "ja") "JA" = true
  /\ exists st w' tr,
       returns (H := scripted_host [1]%nat None)
         (batch_pdf_printer.print_loop (n_files 23) 10) (0, 0)%nat st w' tr
       /\ sleeps 2000 tr = total_batches (Py.len (n_files 23)) 10 - 1.
Proof.
  assert (forall path w0,
            (host_lp (Host := scripted_host [1]%nat None) path w0).1 <> LpNotFound)
    as Hlp.
  { intros path w0. simpl. destruct (bool_decide _); discriminate. }
  split; [lia|]. split; [lia|]. split; [discriminate|]. split; [discriminate|].
  split; [exact Hlp|]. split; [reflexivity|].
  apply (pauses_between_batches (H := scripted_host [1]%nat None)
           (n_files 23) (replicate 23 ("a", "a")) 10 3 false "ja" (0, 0)%nat);
    [lia | lia | discriminate | discriminate | exact Hlp | reflexivity].
Defined.

(* ===================================================================== *)
(** * Sorting *)
(* ===================================================================== *)

Section SortFacts.
Context {A K : Type} (key : A -> K) (lt : K -> K -> bool).

Local Abbreviation may_precede := (may_precede key lt).

Lemma insert_sorted_perm x l : Permutation (Py.insert_sorted key lt x l) (x :: l).
Proof.
  induction l as [|y l IH]; simpl; [done|].
  destruct (lt (key y) (key x)); [|done].
  rewrite IH. apply perm_swap.
Qed.

Lemma list_sort_perm l : Permutation l (Py.list_sort key lt l).
Proof.
  induction l as [|x l IH]; simpl; [done|].
  rewrite insert_sorted_perm. by constructor.
Qed.

(** A list already in order comes back as it is. *)
Lemma list_sort_sorted l : Sorted may_precede l -> Py.list_sort key lt l = l.
Proof.
  induction 1 as [|x l Hsorted IH Hhd]; simpl; [done|].
  rewrite IH. destruct Hhd as [|y l Hxy]; simpl; [done|].
  unfold may_precede in Hxy. by rewrite Hxy.
Qed.

Hypothesis lt_asym : forall a b, lt a b = true -> lt b a = false.

Lemma insert_sorted_hd x y l :
  lt (key y) (key x) = true -> HdRel may_precede y l ->
  HdRel may_precede y (Py.insert_sorted key lt x l).
Proof.
  intros Hyx Hhd. destruct Hhd as [|z l Hyz]; simpl.
  - constructor. by apply lt_asym.
  - destruct (lt (key z) (key x)); constructor; [done|]. by apply lt_asym.
Qed.

Lemma insert_sorted_sorted x l :
  Sorted may_precede l -> Sorted may_precede (Py.insert_sorted key lt x l).
Proof.
  induction 1 as [|y l Hsorted IH Hhd]; simpl.
  - repeat constructor.
  - destruct (lt (key y) (key x)) eqn:Hyx.
    + constructor; [done|]. by apply insert_sorted_hd.
    + constructor; [by constructor|]. by constructor.
Qed.

Lemma list_sort_Sorted l : Sorted may_precede (Py.list_sort key lt l).
Proof.
  induction l as [|x l IH]; simpl; [constructor|].
  by apply insert_sorted_sorted.
Qed.

End SortFacts.

(** ** The order of strings and of pairs of strings *)

Lemma ltb_negb_leb (a b : string) : String.ltb a b = negb (String.leb b a).
Proof.
  unfold String.ltb, String.leb. rewrite (String.compare_antisym b a).
  by destruct (String.compare a b).
Qed.

Lemma string_ltb_asym (a b : string) :
  String.ltb a b = true -> String.ltb b a = false.
Proof.
  unfold String.ltb. rewrite (String.compare_antisym a b).
  by destruct (String.compare b a).
Qed.

Lemma tuple_lt_asym (a b : string * string) :
  Py.tuple_lt a b = true -> Py.tuple_lt b a = false.
Proof.
  unfold Py.tuple_lt. rewrite (String.eqb_sym b.1 a.1).
  destruct (String.eqb a.1 b.1); apply string_ltb_asym.
Qed.

Lemma string_leb_trans (a b c : string) :
  String.leb a b = true -> String.leb b c = true -> String.leb a c = true.
Proof.
  intros Hab Hbc. apply Is_true_true.
  change (String.le a c). transitivity b; by apply Is_true_true.
Qed.

Lemma tuple_may_precede_trans :
  Transitive (may_precede (fun x : string * string => (x.1, x.2)) Py.tuple_lt).
Proof.
  intros a b c. unfold may_precede, Py.tuple_lt. cbn [fst snd].
  destruct (String.eqb_spec b.1 a.1) as [Hba|Hba];
    destruct (String.eqb_spec c.1 b.1) as [Hcb|Hcb];
    destruct (String.eqb_spec c.1 a.1) as [Hca|Hca];
    rewrite !ltb_negb_leb, !negb_false_iff; intros Hab Hbc;
    try congruence.
  - by eapply string_leb_trans.
  - exfalso. apply Hba. apply String.leb_antisym; [by rewrite <- Hca|done].
  - by eapply string_leb_trans.
Qed.

(* ===================================================================== *)
(** * Ordering and discovery *)
(* ===================================================================== *)

Section Ordering.
Import batch_pdf_printer.

(** The order of [sort_pdf_files]: by directory, then by file name. *)
Abbreviation in_order := (may_precede (fun x : string * string => (x.1, x.2)) Py.tuple_lt).

Lemma sort_pdf_files_sorted_input (h : heap) (pdf_files : loc) L :
  h !! pdf_files = Some L -> Sorted in_order L ->
  sort_pdf_files pdf_files h
  = (map (fun x => Py.os_path_join x.1 x.2) L, h).
Proof.
  intros Hl Hsorted. unfold sort_pdf_files.
  rewrite (lookup_total_correct _ _ _ Hl).
  rewrite list_sort_sorted by done. by rewrite insert_id.
Qed.

(** *** Paths under an arbitrary root *)

Lemma compare_app_prefix (p a b : string) :
  String.compare (p +:+ a) (p +:+ b) = String.compare a b.
Proof.
  induction p as [|c p IH]; [done|]. simpl.
  assert (Ascii.compare c c = Eq) as ->
    by (unfold Ascii.compare; apply N.compare_refl).
  exact IH.
Qed.

Lemma ltb_app_prefix (p a b : string) :
  String.ltb (p +:+ a) (p +:+ b) = String.ltb a b.
Proof. unfold String.ltb. by rewrite compare_app_prefix. Qed.

Lemma eqb_app_prefix (p a b : string) :
  String.eqb (p +:+ a) (p +:+ b) = String.eqb a b.
Proof.
  destruct (String.eqb_spec a b) as [->|Hne].
  - apply String.eqb_refl.
  - apply String.eqb_neq. intros Heq. apply Hne.
    by apply (inj (String.append p)).
Qed.

Lemma string_app_assoc (a b c : string) : (a +:+ b) +:+ c = a +:+ (b +:+ c).
Proof.
  induction a as [|x a IH]; [done|].
  change (String x ((a +:+ b) +:+ c) = String x (a +:+ (b +:+ c))).
  by rewrite IH.
Qed.

Lemma rev_app_append (s t acc : string) :
  String.rev_app (s +:+ t) acc = String.rev_app t (String.rev_app s acc).
Proof.
  revert acc. induction s as [|c s IH]; intros acc; [done|]. simpl. apply IH.
Qed.

(** A path that ends in a letter of a directory name does not end in
    a slash and is not empty. *)
Lemma join_onto_name (p : string) (c : ascii) (name : string) :
  c <> "/"%char -> Py.startswith name "/" = false ->
  Py.os_path_join (p +:+ String c "") name = (p +:+ String c "") +:+ "/" +:+ name.
Proof.
  intros Hc Hname. unfold Py.os_path_join. rewrite Hname.
  assert (String.eqb (p +:+ String c "") "" = false) as ->.
  { apply String.eqb_neq. by destruct p. }
  assert (Py.endswith (p +:+ String c "") "/" = false) as ->; [|done].
  unfold Py.endswith, String.rev. rewrite rev_app_append.
  cbn [String.rev_app String.prefix].
  destruct (ascii_dec "/" c) as [<-|]; done.
Qed.

Lemma scenario_found root :
  find_pdf_files root scenario_tree
  = [(Py.os_path_join root "A", "1.pdf"); (Py.os_path_join root "A", "2.pdf");
     (Py.os_path_join root "B", "1.pdf")].
Proof. reflexivity. Qed.

(** Under every root the two directories are [root'A] and [root'B]
    for one string [root']: the root with a slash added if it lacks
    one. *)
Lemma scenario_dirs root :
  exists p, Py.os_path_join root "A" = p +:+ "A"
            /\ Py.os_path_join root "B" = p +:+ "B"
            /\ Py.os_path_join root "A/1.pdf" = p +:+ "A/1.pdf"
            /\ Py.os_path_join root "A/2.pdf" = p +:+ "A/2.pdf"
            /\ Py.os_path_join root "B/1.pdf" = p +:+ "B/1.pdf".
Proof.
  unfold Py.os_path_join. cbn [Py.startswith String.prefix].
  change (if ascii_dec "/" "A" then _ else false) with false.
  change (if ascii_dec "/" "B" then _ else false) with false.
  cbv iota.
  destruct (String.eqb root "" || Py.endswith root "/").
  - by exists root.
  - exists (root +:+ "/"). by rewrite !string_app_assoc.
Qed.

Lemma scenario_sorted root :
  Sorted in_order (find_pdf_files root scenario_tree).
Proof.
  rewrite scenario_found.
  destruct (scenario_dirs root) as (p & -> & -> & _).
  repeat constructor; unfold may_precede, Py.tuple_lt; cbn [fst snd].
  - by rewrite eqb_app_prefix, ltb_app_prefix.
  - by rewrite String.eqb_refl.
Qed.

Lemma scenario_paths root :
  map (fun x : string * string => Py.os_path_join x.1 x.2)
      (find_pdf_files root scenario_tree)
  = map (Py.os_path_join root) ["A/1.pdf"; "A/2.pdf"; "B/1.pdf"].
Proof.
  rewrite scenario_found. cbn [map fst snd].
  destruct (scenario_dirs root) as (p & -> & -> & -> & -> & ->).
  rewrite !(join_onto_name p) by done.
  by rewrite !string_app_assoc.
Qed.

End Ordering.

(** C8.  On a list of (directory, file name) pairs that is already in
    the final order (no pair is below the one before it) the sort
    returns the list unchanged: [sort_pdf_files] leaves the caller's
    list as it was and returns its joined paths in the same order.
    And for the tree with [A/2.pdf], [A/1.pdf] and [B/1.pdf] under a
    root, discovery followed by ordering gives [A/1.pdf], [A/2.pdf],
    [B/1.pdf] under that root, in this order. *)
Theorem ordering_keeps_sorted_input (h : heap) (pdf_files : loc)
    (L : list (string * string)) (root : string) :
  h !! pdf_files = Some L ->
  Sorted (fun a b => Py.tuple_lt b a = false) L ->
  Py.list_sort (fun x : string * string => (x.1, x.2)) Py.tuple_lt L = L
  /\ batch_pdf_printer.sort_pdf_files pdf_files h
     = (map (fun x => Py.os_path_join x.1 x.2) L, h)
  /\ (batch_pdf_printer.sort_pdf_files 1%positive
        {[ 1%positive := batch_pdf_printer.find_pdf_files root scenario_tree ]}).1
     = map (Py.os_path_join root) ["A/1.pdf"; "A/2.pdf"; "B/1.pdf"].
Proof.
  intros Hl Hsorted. split; [by apply list_sort_sorted|].
  split; [by apply sort_pdf_files_sorted_input|].
  rewrite (sort_pdf_files_sorted_input _ _
             (batch_pdf_printer.find_pdf_files root scenario_tree)).
  - apply scenario_paths.
  - apply lookup_singleton_eq.
  - apply scenario_sorted.
Qed.

Lemma ordering_keeps_sorted_input_witness :
  ({[ 5%positive := [("a", "1.pdf"); ("a", "2.pdf"); ("b", "1.pdf")] ]} : heap)
    !! 5%positive = Some [("a", "1.pdf"); ("a", "2.pdf"); ("b", "1.pdf")]
  /\ Sorted (fun a b => Py.tuple_lt b a = false)
       [("a", "1.pdf"); ("a", "2.pdf"); ("b", "1.pdf")]
  /\ batch_pdf_printer.sort_pdf_files 5%positive
       {[ 5%positive := [("a", "1.pdf"); ("a", "2.pdf"); ("b", "1.pdf")] ]}
     = (["a/1.pdf"; "a/2.pdf"; "b/1.pdf"],
        {[ 5%positive := [("a", "1.pdf"); ("a", "2.pdf"); ("b", "1.pdf")] ]}).
Proof.
  assert (Sorted (fun a b => Py.tuple_lt b a = false)
            [("a", "1.pdf"); ("a", "2.pdf"); ("b", "1.pdf")]) as Hsorted
    by (repeat constructor).
  split; [reflexivity|]. split; [exact Hsorted|].
  apply (ordering_keeps_sorted_input
           {[ 5%positive := [("a", "1.pdf"); ("a", "2.pdf"); ("b", "1.pdf")] ]}
           5%positive [("a", "1.pdf"); ("a", "2.pdf"); ("b", "1.pdf")] "docs");
    [reflexivity | exact Hsorted].
Defined.

(** C10.  [sort_pdf_files] works on the caller's list: after the call
    the reference that was passed names a list with the same elements,
    each as often as before, in the order of directory and then file
    name (no element is below an earlier one); no other list of the
    store is touched; and the value returned is the list of the joined
    paths of the sorted list, in its order. *)
Theorem sort_pdf_files_in_place (h : heap) (pdf_files : loc)
    (L : list (string * string)) :
  h !! pdf_files = Some L ->
  exists L' : list (string * string),
    (batch_pdf_printer.sort_pdf_files pdf_files h).2 !! pdf_files = Some L'
    /\ (forall other : loc, other <> pdf_files ->
          (batch_pdf_printer.sort_pdf_files pdf_files h).2 !! other = h !! other)
    /\ Permutation L L'
    /\ StronglySorted (fun a b => Py.tuple_lt b a = false) L'
    /\ (batch_pdf_printer.sort_pdf_files pdf_files h).1
       = map (fun x => Py.os_path_join x.1 x.2) L'.
Proof.
  intros Hl. unfold batch_pdf_printer.sort_pdf_files.
  rewrite (lookup_total_correct _ _ _ Hl). cbn [fst snd].
  eexists. split; [apply lookup_insert_eq|].
  split; [intros other Hne; by apply lookup_insert_ne|].
  split; [apply list_sort_perm|]. split; [|reflexivity].
  apply Sorted_StronglySorted; [exact tuple_may_precede_trans|].
  exact (list_sort_Sorted (fun x : string * string => (x.1, x.2)) Py.tuple_lt
           tuple_lt_asym L).
Qed.

Lemma sort_pdf_files_in_place_witness :
  ({[ 2%positive := [("b", "1.pdf"); ("a", "2.pdf"); ("a", "1.pdf")] ]} : heap)
    !! 2%positive = Some [("b", "1.pdf"); ("a", "2.pdf"); ("a", "1.pdf")]
  /\ exists L' : list (string * string),
    (batch_pdf_printer.sort_pdf_files 2%positive
       {[ 2%positive := [("b", "1.pdf"); ("a", "2.pdf"); ("a", "1.pdf")] ]}).2
      !! 2%positive = Some L'
    /\ (forall other : loc, other <> 2%positive ->
          (batch_pdf_printer.sort_pdf_files 2%positive
             {[ 2%positive := [("b", "1.pdf"); ("a", "2.pdf"); ("a", "1.pdf")] ]}).2
            !! other
          = ({[ 2%positive := [("b", "1.pdf"); ("a", "2.pdf"); ("a", "1.pdf")] ]}
               : heap) !! other)
    /\ Permutation [("b", "1.pdf"); ("a", "2.pdf"); ("a", "1.pdf")] L'
    /\ StronglySorted (fun a b => Py.tuple_lt b a = false) L'
    /\ (batch_pdf_printer.sort_pdf_files 2%positive
          {[ 2%positive := [("b", "1.pdf"); ("a", "2.pdf"); ("a", "1.pdf")] ]}).1
       = map (fun x => Py.os_path_join x.1 x.2) L'.
Proof.
  split; [reflexivity|].
  apply (sort_pdf_files_in_place
           {[ 2%positive := [("b", "1.pdf"); ("a", "2.pdf"); ("a", "1.pdf")] ]}
           2%positive [("b", "1.pdf"); ("a", "2.pdf"); ("a", "1.pdf")]).
  reflexivity.
Defined.

(** C9.  [print_pdfs_in_batches] needs a batch size of at least 1 and
    does not check it: with [batch_size = 0] the call raises the
    [ValueError] of [range] before any file is printed, for every list
    of files.  The command line does not check it either: [main] with
    [--batch-size 0], a directory in which files are found and a yes
    at the prompt reaches that call and ends with that exception,
    nothing printed; the script exits with status 1. *)
Theorem batch_size_zero_is_not_refused `{Host}
    (pdf_files : list string) (a : batch_pdf_printer.args) (t : tree)
    (response : string) (w : world) :
  batch_pdf_printer.print_pdfs_in_batches pdf_files 0 w
  = (inl (Py.ValueError "range() arg 3 must not be zero"), w, [])
  /\ (batch_pdf_printer.batch_size a = 0 ->
      batch_pdf_printer.dry_run a = false ->
      batch_pdf_printer.find_pdf_files (batch_pdf_printer.directory a) t <> [] ->
      Py.str_in (Py.lower response) ["y"; "yes"] = true ->
      batch_pdf_printer.main a (Some t) (inr response) w
      = (inl (Py.ValueError "range() arg 3 must not be zero"), w, [])
      /\ batch_pdf_printer.script_status a (Some t) (inr response) w = 1).
Proof.
  split; [reflexivity|].
  intros HB Hdry Hfound Hyes.
  unfold batch_pdf_printer.script_status, batch_pdf_printer.main.
  destruct (batch_pdf_printer.find_pdf_files _ t) as [|x l]; [done|].
  by rewrite Hdry, Hyes, HB.
Qed.

Lemma batch_size_zero_is_not_refused_witness :
  batch_pdf_printer.batch_size (batch_pdf_printer.Args "docs" 0 false) = 0
  /\ batch_pdf_printer.dry_run (batch_pdf_printer.Args "docs" 0 false) = false
  /\ batch_pdf_printer.find_pdf_files "docs" scenario_tree <> []
  /\ Py.str_in (Py.lower "Y") ["y"; "yes"] = true
  /\ batch_pdf_printer.main (H := scripted_host [] None)
       (batch_pdf_printer.Args "docs" 0 false) (Some scenario_tree) (inr "Y")
       (0, 0)%nat
     = (inl (Py.ValueError "range() arg 3 must not be zero"), (0, 0)%nat, [])
  /\ batch_pdf_printer.script_status (H := scripted_host [] None)
       (batch_pdf_printer.Args "docs" 0 false) (Some scenario_tree) (inr "Y")
       (0, 0)%nat = 1.
Proof.
  split; [reflexivity|]. split; [reflexivity|]. split; [discriminate|].
  split; [reflexivity|].
  apply (batch_size_zero_is_not_refused (H := scripted_host [] None)
           [] (batch_pdf_printer.Args "docs" 0 false) scenario_tree "Y" (0, 0)%nat);
    [reflexivity | reflexivity | discriminate | reflexivity].
Defined.

(* ===================================================================== *)
(** * Exit status of the command-line front ends *)
(* ===================================================================== *)

(** The Windows script reports failures: after a print run its exit
    status is 1 if [error_count > 0] and 0 otherwise. *)
Lemma windows_cli_exit_status `{Host}
    (a : batch_pdf_printer_windows.args) (m : batch_pdf_printer_windows.machine)
    (confirm : string) (w : world) :
  batch_pdf_printer_windows.platform_system m = "Windows" ->
  batch_pdf_printer_windows.path_exists m = true ->
  batch_pdf_printer_windows.path_isdir m = true ->
  is_Some (batch_pdf_printer_windows.default_printer m) ->
  batch_pdf_printer_windows.dry_run a = false ->
  batch_pdf_printer_windows.list_only a = false ->
  batch_pdf_printer_windows.found_pdf_files m <> [] ->
  batch_pdf_printer_windows.answer m = inr confirm ->
  Py.upper (Py.strip confirm) = "JA" ->
  1 <= batch_pdf_printer_windows.batch_size a ->
  0 <= batch_pdf_printer_windows.delay a ->
  exists successful_count error_count w' tr,
    returns (batch_pdf_printer_windows.print_pdfs_in_batches
               (batch_pdf_printer_windows.found_pdf_files m)
               (batch_pdf_printer_windows.batch_size a)
               (batch_pdf_printer_windows.delay a)
               (batch_pdf_printer_windows.verbose a))
      w (successful_count, error_count) w' tr
    /\ 0 <= error_count
    /\ returns (batch_pdf_printer_windows.main a m) w
         (if 0 <? error_count then 1 else 0) w' tr
    /\ batch_pdf_printer_windows.script_status a m w
       = if 0 <? error_count then 1 else 0.
Proof.
  intros Hsys Hex Hdir Hprinter Hdry Hlist Hfound Hanswer Hja HB Hd.
  destruct (windows_loop_returns
              (Py.len (batch_pdf_printer_windows.found_pdf_files m))
              (batch_pdf_printer_windows.batch_size a)
              (batch_pdf_printer_windows.delay a)
              (batch_pdf_printer_windows.verbose a)
              (Py.enumerate 0 (batch_pdf_printer_windows.found_pdf_files m)) w)
    as ([s f] & w' & Hrun & Hacc); [lia|done|].
  eexists s, f, w', _. split; [exact Hrun|].
  split; [unfold accounted in Hacc; simpl in Hacc; lia|].
  assert (returns (batch_pdf_printer_windows.main a m) w
            (if 0 <? f then 1 else 0) w'
            (flat_map
               (windows_file_schedule
                  (Py.len (batch_pdf_printer_windows.found_pdf_files m))
                  (batch_pdf_printer_windows.batch_size a)
                  (batch_pdf_printer_windows.delay a))
               (Py.enumerate 0 (batch_pdf_printer_windows.found_pdf_files m))))
    as Hmain.
  { unfold batch_pdf_printer_windows.main.
    rewrite Hsys, Hex, Hdir, Hdry, Hlist, Hanswer, Hja.
    rewrite (bool_decide_eq_true_2 _ Hprinter). cbn [negb andb String.eqb].
    destruct (batch_pdf_printer_windows.found_pdf_files m) as [|x l] eqn:Hm;
      [done|].
    rewrite <- (app_nil_r (flat_map _ _)).
    eapply returns_bind; [exact Hrun|]. apply returns_ret. }
  split; [exact Hmain|].
  unfold batch_pdf_printer_windows.script_status. by rewrite Hmain.
Qed.

(** The Linux script does not: whenever its print run ends, whatever
    the two counts are, [main] returns and the exit status is 0. *)
Lemma linux_cli_exit_status `{Host}
    (a : batch_pdf_printer.args) (t : tree) (response : string) (w : world) :
  1 <= batch_pdf_printer.batch_size a ->
  batch_pdf_printer.dry_run a = false ->
  Py.str_in (Py.lower response) ["y"; "yes"] = true ->
  (batch_pdf_printer.main a (Some t) (inr response) w).1.1 = inr tt
  /\ batch_pdf_printer.script_status a (Some t) (inr response) w = 0.
Proof.
  intros HB Hdry Hyes.
  unfold batch_pdf_printer.script_status.
  assert ((batch_pdf_printer.main a (Some t) (inr response) w).1.1 = inr tt)
    as Hmain; [|by rewrite Hmain].
  unfold batch_pdf_printer.main.
  destruct (batch_pdf_printer.find_pdf_files _ t) as [|x l]; [done|].
  rewrite Hdry, Hyes. cbn [negb].
  unfold batch_pdf_printer.print_pdfs_in_batches.
  destruct (print_loop_returns
              (batch_pdf_printer.sort_pdf_files 1%positive
                 {[ 1%positive := x :: l ]}).1
              (batch_pdf_printer.batch_size a) w HB) as (st & w' & Hrun & _).
  unfold bind. by rewrite Hrun.
Qed.

(** C7 at a failing input.  One PDF file in the directory, a printer
    that refuses it, the default batch size and a yes at the prompt:
    the Linux script logs 0 printed and 1 failed, and still ends with
    exit status 0. *)
Lemma linux_cli_exit_status_ignores_failure :
  batch_pdf_printer.main (H := scripted_host [0]%nat None)
    (batch_pdf_printer.Args "docs" 10 false) (Some (Dir ["a.pdf"] [])) (inr "y")
    (0, 0)%nat
  = (inr tt, (1, 0)%nat, [Lp "docs/a.pdf"; LogCompleted 0 1])
  /\ batch_pdf_printer.script_status (H := scripted_host [0]%nat None)
       (batch_pdf_printer.Args "docs" 10 false) (Some (Dir ["a.pdf"] []))
       (inr "y") (0, 0)%nat
     = 0.
Proof. split; reflexivity. Qed.

(* ********************************************************************* *)
(** * Further properties of the code *)
(* ********************************************************************* *)

(* ===================================================================== *)
(** * Discovery finds the PDF files, all of them and nothing else *)
(* ===================================================================== *)

Section Discovery.
Import batch_pdf_printer.

Lemma tree_induction (P : tree -> Prop) :
  (forall files subdirs,
      Forall (fun d : string * tree => P d.2) subdirs -> P (Dir files subdirs)) ->
  forall t, P t.
Proof.
  intros Hdir. fix IH 1. intros [files subdirs]. apply Hdir.
  induction subdirs as [|d subdirs IHsub]; constructor; [apply IH|exact IHsub].
Qed.

Lemma filter_map_pair (root : string) (files : list string) :
  List.filter (fun e : string * string => is_pdf e.2)
    (map (fun f => (root, f)) files)
  = map (fun f => (root, f)) (List.filter is_pdf files).
Proof.
  induction files as [|f files IH]; [done|]. simpl.
  destruct (is_pdf f); simpl; by rewrite IH.
Qed.

Lemma filter_flat_map {A B} (p : B -> bool) (g : A -> list B) (l : list A) :
  List.filter p (flat_map g l) = flat_map (fun x => List.filter p (g x)) l.
Proof.
  induction l as [|x l IH]; [done|]. simpl.
  by rewrite List.filter_app, IH.
Qed.

Lemma flat_map_pointwise_perm {A B} (g1 g2 : A -> list B) (l : list A) :
  Forall (fun x => Permutation (g1 x) (g2 x)) l ->
  Permutation (flat_map g1 l) (flat_map g2 l).
Proof.
  induction 1 as [|x l Hx Hl IH]; [done|]. simpl.
  by apply Permutation_app.
Qed.

Lemma find_pdf_files_perm (t : tree) (root : string) :
  Permutation (find_pdf_files root t)
    (List.filter (fun e : string * string => is_pdf e.2) (all_files t root)).
Proof.
  unfold find_pdf_files. revert root.
  induction t as [files subdirs IH] using tree_induction. intros root.
  cbn [walk_pdf_files all_files].
  rewrite List.filter_app, filter_map_pair, filter_flat_map.
  apply Permutation_app.
  - apply Permutation_map. symmetry. apply list_sort_perm.
  - etransitivity.
    { apply Permutation_flat_map. symmetry. apply list_sort_perm. }
    rewrite flat_map_concat_map, map_map, <- flat_map_concat_map.
    cbn [fst snd]. apply flat_map_pointwise_perm.
    eapply Forall_impl; [exact IH|]. intros d Hd. apply Hd.
Qed.

(** *** The final order does not depend on the listing order *)

Lemma tuple_may_precede_antisym :
  AntiSymm (=) (may_precede (fun x : string * string => (x.1, x.2)) Py.tuple_lt).
Proof.
  intros [a1 a2] [b1 b2]. unfold may_precede, Py.tuple_lt. cbn [fst snd].
  rewrite (String.eqb_sym b1 a1).
  destruct (String.eqb_spec a1 b1) as [->|Hne];
    rewrite !ltb_negb_leb, !negb_false_iff; intros Hab Hba.
  - f_equal. by apply String.leb_antisym.
  - exfalso. apply Hne. by apply String.leb_antisym.
Qed.

Lemma list_sort_tuples_perm (l1 l2 : list (string * string)) :
  Permutation l1 l2 ->
  Py.list_sort (fun x : string * string => (x.1, x.2)) Py.tuple_lt l1
  = Py.list_sort (fun x : string * string => (x.1, x.2)) Py.tuple_lt l2.
Proof.
  intros Hperm.
  apply (StronglySorted_unique
           (may_precede (fun x : string * string => (x.1, x.2)) Py.tuple_lt)
           (AntiSymm0 := tuple_may_precede_antisym)).
  - apply Sorted_StronglySorted; [exact tuple_may_precede_trans|].
    apply list_sort_Sorted, tuple_lt_asym.
  - apply Sorted_StronglySorted; [exact tuple_may_precede_trans|].
    apply list_sort_Sorted, tuple_lt_asym.
  - rewrite <- !list_sort_perm. exact Hperm.
Qed.

End Discovery.

(** X1.  [find_pdf_files] returns the PDF files under the root, each
    once, and nothing else: its result is a rearrangement of the list
    of all files under the root whose name ends in [.pdf] in any mix of
    upper and lower case, each with the path of its directory. *)
Theorem find_pdf_files_finds_exactly_the_pdfs (t : tree) (root : string) :
  Permutation (batch_pdf_printer.find_pdf_files root t)
    (List.filter (fun e : string * string => is_pdf e.2) (all_files t root))
  /\ forall directory filename,
       In (directory, filename) (batch_pdf_printer.find_pdf_files root t)
       <-> In (directory, filename) (all_files t root) /\ is_pdf filename = true.
Proof.
  pose proof (find_pdf_files_perm t root) as Hperm.
  split; [exact Hperm|]. intros directory filename.
  rewrite <- (List.filter_In (fun e : string * string => is_pdf e.2)
                (directory, filename) (all_files t root)).
  split; intros Hin.
  - by eapply Permutation_in.
  - eapply Permutation_in; [symmetry; exact Hperm|exact Hin].
Qed.

(** X2.  The print order does not depend on the order in which the
    system lists directory entries: two directories that hold the same
    files, listed in whatever order, give the same list of paths after
    [find_pdf_files] and [sort_pdf_files]. *)
Theorem print_order_independent_of_listing (t1 t2 : tree) (root : string) :
  Permutation (all_files t1 root) (all_files t2 root) ->
  (batch_pdf_printer.sort_pdf_files 1%positive
     {[ 1%positive := batch_pdf_printer.find_pdf_files root t1 ]}).1
  = (batch_pdf_printer.sort_pdf_files 1%positive
       {[ 1%positive := batch_pdf_printer.find_pdf_files root t2 ]}).1.
Proof.
  intros Hsame. unfold batch_pdf_printer.sort_pdf_files. cbn [fst].
  rewrite !lookup_total_singleton. f_equal.
  apply list_sort_tuples_perm.
  etransitivity; [apply find_pdf_files_perm|].
  etransitivity; [|symmetry; apply find_pdf_files_perm].
  induction Hsame as [|x l l' Hl IH|x y l|l l' l'' H1 IH1 H2 IH2]; simpl.
  - done.
  - destruct (is_pdf x.2); [by constructor|done].
  - destruct (is_pdf x.2), (is_pdf y.2); try done. apply perm_swap.
  - by etransitivity.
Qed.

Lemma print_order_independent_of_listing_witness :
  Permutation (all_files scenario_tree "docs")
    (all_files scenario_tree_relisted "docs")
  /\ (batch_pdf_printer.sort_pdf_files 1%positive
        {[ 1%positive := batch_pdf_printer.find_pdf_files "docs" scenario_tree ]}).1
     = (batch_pdf_printer.sort_pdf_files 1%positive
          {[ 1%positive :=
               batch_pdf_printer.find_pdf_files "docs" scenario_tree_relisted ]}).1.
Proof.
  assert (Permutation (all_files scenario_tree "docs")
            (all_files scenario_tree_relisted "docs")) as Hsame
    by exact (Permutation_rev (all_files scenario_tree "docs")).
  split; [exact Hsame|].
  apply (print_order_independent_of_listing scenario_tree scenario_tree_relisted
           "docs"). exact Hsame.
Defined.

(* ===================================================================== *)
(** * Nothing is printed before the user has agreed *)
(* ===================================================================== *)

Section Consent.
Context {H : Host}.

Lemma for_each_events {A S} (P : list event -> Prop)
    (body : A -> S -> M S) (xs : list A) :
  P [] -> (forall t1 t2, P t1 -> P t2 -> P (t1 ++ t2)) ->
  (forall x s w, P (events_of (body x s) w)) ->
  forall s w, P (events_of (for_each xs body s) w).
Proof.
  intros Hnil Happ Hbody. induction xs as [|x xs IH]; intros s w; simpl.
  - exact Hnil.
  - rewrite events_bind. specialize (Hbody x s w).
    destruct ((body x s w).1.1) as [e|s1]; [done|]. by apply Happ.
Qed.

Lemma linux_main_needs_consent a fs answer w :
  submitted (events_of (batch_pdf_printer.main a fs answer) w) <> [] ->
  is_Some fs /\ batch_pdf_printer.dry_run a = false
  /\ exists response,
       answer = inr response
       /\ Py.str_in (Py.lower response) ["y"; "yes"] = true.
Proof.
  unfold events_of, batch_pdf_printer.main.
  destruct fs as [t|]; [|done].
  destruct (batch_pdf_printer.find_pdf_files _ t) as [|x l]; [done|].
  destruct (batch_pdf_printer.dry_run a); [done|].
  destruct answer as [[]|response]; try done.
  destruct (Py.str_in (Py.lower response) ["y"; "yes"]) eqn:Hyes; [|done].
  intros _. split; [by eexists|]. split; [done|]. by exists response.
Qed.

Lemma windows_dry_run_silent (a : batch_pdf_printer_windows.args)
    (pdf_files : list (string * string)) w :
  events_of
    (n <- lift (Py.floordiv
                  (Py.len pdf_files + batch_pdf_printer_windows.batch_size a - 1)
                  (batch_pdf_printer_windows.batch_size a)) ;;
     for_each (Py.enumerate 1 pdf_files)
       (fun x (_ : unit) =>
          q <- lift (Py.floordiv (x.1 - 1)
                       (batch_pdf_printer_windows.batch_size a)) ;; ret tt) tt ;;;
     ret 0) w = [].
Proof.
  rewrite events_bind. cbn [lift fst snd events_of].
  destruct (Py.floordiv _ _) as [e|n]; [done|]. cbn [app].
  rewrite events_bind.
  assert (events_of
            (for_each (Py.enumerate 1 pdf_files)
               (fun x (_ : unit) =>
                  q <- lift (Py.floordiv (x.1 - 1)
                               (batch_pdf_printer_windows.batch_size a)) ;;
                  ret tt) tt) w = []) as ->.
  { apply (for_each_events (fun t => t = [])); [done| |].
    - by intros t1 t2 -> ->.
    - intros x s w0. unfold events_of, bind, lift, ret.
      by destruct (Py.floordiv _ _). }
  by destruct (_.1.1).
Qed.

Lemma windows_main_needs_consent a m w :
  submitted (events_of (batch_pdf_printer_windows.main a m) w) <> [] ->
  batch_pdf_printer_windows.platform_system m = "Windows"
  /\ batch_pdf_printer_windows.path_exists m = true
  /\ batch_pdf_printer_windows.path_isdir m = true
  /\ is_Some (batch_pdf_printer_windows.default_printer m)
  /\ batch_pdf_printer_windows.dry_run a = false
  /\ batch_pdf_printer_windows.list_only a = false
  /\ exists confirm,
       batch_pdf_printer_windows.answer m = inr confirm
       /\ Py.upper (Py.strip confirm) = "JA".
Proof.
  unfold batch_pdf_printer_windows.main.
  destruct (String.eqb_spec (batch_pdf_printer_windows.platform_system m) "Windows")
    as [Hsys|]; [|done]. cbn [negb].
  destruct (batch_pdf_printer_windows.path_exists m); [|done].
  destruct (batch_pdf_printer_windows.path_isdir m); [|done]. cbn [negb].
  destruct (batch_pdf_printer_windows.dry_run a) eqn:Hdry;
    destruct (batch_pdf_printer_windows.list_only a) eqn:Hlist; cbn [negb andb].
  - by destruct (batch_pdf_printer_windows.found_pdf_files m).
  - destruct (batch_pdf_printer_windows.found_pdf_files m) as [|x l] eqn:Hm; [done|].
    rewrite <- Hm. by rewrite windows_dry_run_silent.
  - by destruct (batch_pdf_printer_windows.found_pdf_files m).
  - case_bool_decide as Hprinter; cbn [negb]; [|done].
    destruct (batch_pdf_printer_windows.found_pdf_files m) as [|x l]; [done|].
    destruct (batch_pdf_printer_windows.answer m) as [[]|confirm]; try done.
    destruct (String.eqb_spec (Py.upper (Py.strip confirm)) "JA") as [Hja|];
      [|done].
    intros _. repeat (split; [done|]). by exists confirm.
Qed.

Lemma menu_print_needs_consent found_pdfs B confirm w :
  submitted (events_of (interactive_pdf_printer.print_pdfs found_pdfs B confirm) w)
  <> [] ->
  found_pdfs <> [] /\ Py.upper confirm = "JA".
Proof.
  unfold events_of, interactive_pdf_printer.print_pdfs.
  destruct found_pdfs as [|f fs]; [done|].
  destruct (String.eqb_spec (Py.upper confirm) "JA") as [Hja|]; [|done].
  done.
Qed.

End Consent.

(** X3.  No front end hands a file to the printer before the user has
    agreed.  If a run of the Linux command line submits anything, it
    was not a dry run and the answer at the prompt was [y] or [yes] (in
    any case); for the Windows command line, neither [--dry-run] nor
    [--list-only] was given, a default printer was found, and the
    answer, stripped and put in upper case, was [JA]; for the terminal
    menu, the answer in upper case was [JA]. *)
Theorem nothing_printed_without_consent `{Host}
    (a : batch_pdf_printer.args) (fs : option tree) (answer : Py.exn + string)
    (wa : batch_pdf_printer_windows.args) (m : batch_pdf_printer_windows.machine)
    (found_pdfs : list string) (B : Z) (confirm : string) (w : world) :
  (submitted (events_of (batch_pdf_printer.main a fs answer) w) <> [] ->
   is_Some fs /\ batch_pdf_printer.dry_run a = false
   /\ exists response,
        answer = inr response
        /\ Py.str_in (Py.lower response) ["y"; "yes"] = true)
  /\ (submitted (events_of (batch_pdf_printer_windows.main wa m) w) <> [] ->
      batch_pdf_printer_windows.platform_system m = "Windows"
      /\ batch_pdf_printer_windows.path_exists m = true
      /\ batch_pdf_printer_windows.path_isdir m = true
      /\ is_Some (batch_pdf_printer_windows.default_printer m)
      /\ batch_pdf_printer_windows.dry_run wa = false
      /\ batch_pdf_printer_windows.list_only wa = false
      /\ exists typed,
           batch_pdf_printer_windows.answer m = inr typed
           /\ Py.upper (Py.strip typed) = "JA")
  /\ (submitted
        (events_of (interactive_pdf_printer.print_pdfs found_pdfs B confirm) w)
      <> [] ->
      found_pdfs <> [] /\ Py.upper confirm = "JA").
Proof.
  split; [apply linux_main_needs_consent|].
  split; [apply windows_main_needs_consent|apply menu_print_needs_consent].
Qed.

Lemma nothing_printed_without_consent_witness :
  submitted
    (events_of (H := scripted_host [] None)
       (batch_pdf_printer.main (batch_pdf_printer.Args "docs" 10 false)
          (Some scenario_tree) (inr "YES")) (0, 0)%nat) <> []
  /\ batch_pdf_printer.dry_run (batch_pdf_printer.Args "docs" 10 false) = false.
Proof.
  assert (submitted
            (events_of (H := scripted_host [] None)
               (batch_pdf_printer.main (batch_pdf_printer.Args "docs" 10 false)
                  (Some scenario_tree) (inr "YES")) (0, 0)%nat) <> []) as Hsub
    by discriminate.
  split; [exact Hsub|].
  destruct (nothing_printed_without_consent (H := scripted_host [] None)
              (batch_pdf_printer.Args "docs" 10 false) (Some scenario_tree)
              (inr "YES")
              (batch_pdf_printer_windows.Args "docs" 10 3 false false false)
              (batch_pdf_printer_windows.Machine "Windows" true true None []
                 (inr ""))
              [] 10 "" (0, 0)%nat) as [Hlinux _].
  destruct (Hlinux Hsub) as (_ & Hdry & _). exact Hdry.
Defined.

(* ===================================================================== *)
(** * Batch sizes and delays that nobody checks *)
(* ===================================================================== *)

Lemma range_negative_step (n B : Z) : 0 <= n -> B < 0 -> Py.range 0 n B = inr [].
Proof.
  intros Hn HB. unfold Py.range, Py.range_length.
  destruct (Z.eqb_spec B 0); [lia|].
  destruct (Z.ltb_spec 0 B); [lia|].
  destruct (Z.ltb_spec n 0); [lia|]. reflexivity.
Qed.

Lemma batches_negative {A} (l : list A) B : B < 0 -> batches l B = inr [].
Proof.
  intros HB. unfold batches.
  by rewrite range_negative_step by (unfold Py.len; lia).
Qed.

(** X4.  A negative batch size is accepted in silence and nothing is
    printed, however many files there are: the Linux command-line loop
    logs 0 printed and 0 failed, and [main] with such a [--batch-size]
    ends with exit status 0 after the user has agreed to print; the
    thread of the Linux graphical front end hands 0 and 0 to
    [_print_finished] without reading the flag. *)
Theorem negative_batch_size_prints_nothing `{Host}
    (pdf_files : list string) (a : batch_pdf_printer.args) (t : tree)
    (response : string) (B : Z) (w : world) :
  B < 0 ->
  batch_pdf_printer.print_pdfs_in_batches pdf_files B w
  = (inr tt, w, [LogCompleted 0 0])
  /\ gui_pdf_printer._print_thread pdf_files B w
     = (inr tt, w, [PrintFinished 0 0])
  /\ (batch_pdf_printer.batch_size a = B ->
      batch_pdf_printer.dry_run a = false ->
      batch_pdf_printer.find_pdf_files (batch_pdf_printer.directory a) t <> [] ->
      Py.str_in (Py.lower response) ["y"; "yes"] = true ->
      batch_pdf_printer.main a (Some t) (inr response) w
      = (inr tt, w, [LogCompleted 0 0])
      /\ batch_pdf_printer.script_status a (Some t) (inr response) w = 0).
Proof.
  intros HB.
  assert (forall l, batch_pdf_printer.print_pdfs_in_batches l B w
                    = (inr tt, w, [LogCompleted 0 0])) as Hloop.
  { intros l. unfold batch_pdf_printer.print_pdfs_in_batches,
      batch_pdf_printer.print_loop.
    unfold bind at 1. rewrite range_negative_step by (unfold Py.len; lia).
    by rewrite bind_lift. }
  split; [apply Hloop|]. split.
  - unfold gui_pdf_printer._print_thread. rewrite batches_negative by done.
    by rewrite bind_lift.
  - intros Ha Hdry Hfound Hyes.
    unfold batch_pdf_printer.script_status, batch_pdf_printer.main.
    destruct (batch_pdf_printer.find_pdf_files _ t) as [|x l]; [done|].
    rewrite Hdry, Hyes, Ha. cbn [negb]. by rewrite Hloop.
Qed.

Lemma negative_batch_size_prints_nothing_witness :
  -1 < 0
  /\ batch_pdf_printer.print_pdfs_in_batches (H := scripted_host [] None)
       (n_files 5) (-1) (0, 0)%nat
     = (inr tt, (0, 0)%nat, [LogCompleted 0 0]).
Proof.
  split; [lia|].
  destruct (negative_batch_size_prints_nothing (H := scripted_host [] None)
              (n_files 5) (batch_pdf_printer.Args "docs" (-1) false) scenario_tree
              "y" (-1) (0, 0)%nat) as [Hloop _]; [lia|].
  exact Hloop.
Defined.

Section WindowsEdges.
Context {H : Host}.
Import batch_pdf_printer_windows.

Lemma for_each_app {A S} (body : A -> S -> M S) (xs ys : list A) (s : S) w :
  for_each (xs ++ ys) body s w = bind (for_each xs body s) (for_each ys body) w.
Proof.
  revert s w. induction xs as [|x xs IH]; intros s w; simpl.
  - unfold bind, ret. by destruct (for_each ys body s w) as [[r w2] t2].
  - unfold bind. destruct (body x s w) as [[[e|s1] w1] t1]; [done|].
    rewrite IH. unfold bind.
    destruct (for_each xs body s1 w1) as [[[e|s2] w2] t2]; [done|].
    destruct (for_each ys body s2 w2) as [[r w3] t3].
    by rewrite app_assoc.
Qed.

Lemma for_each_schedule_in {A} (body : A -> Z * Z -> M (Z * Z))
    (T : A -> list event) (xs : list A) :
  (forall x, In x xs -> forall st w, exists st' w',
      returns (body x st) w st' w' (T x) /\ accounted st st' (T x)) ->
  forall st w, exists st' w',
      returns (for_each xs body st) w st' w' (flat_map T xs)
      /\ accounted st st' (flat_map T xs).
Proof.
  induction xs as [|x xs IH]; intros Hbody st w; simpl.
  - exists st, w. split; [apply returns_ret | apply accounted_refl].
  - destruct (Hbody x (or_introl eq_refl) st w) as (st1 & w1 & Hrun1 & Hacc1).
    destruct (IH (fun y Hy => Hbody y (or_intror Hy)) st1 w1)
      as (st2 & w2 & Hrun2 & Hacc2).
    exists st2, w2. split.
    + eapply returns_bind; eassumption.
    + eapply accounted_trans; eassumption.
Qed.

Lemma enumerate_app {A} (l1 l2 : list A) s :
  Py.enumerate s (l1 ++ l2)
  = Py.enumerate s l1 ++ Py.enumerate (s + Py.len l1) l2.
Proof.
  revert s. induction l1 as [|x l1 IH]; intros s; simpl.
  - unfold Py.len. simpl. by rewrite Z.add_0_r.
  - rewrite IH. do 3 f_equal. unfold Py.len. simpl length. lia.
Qed.

Lemma enumerate_index {A} (l : list A) s i x :
  In (i, x) (Py.enumerate s l) -> s <= i < s + Py.len l.
Proof.
  revert s. induction l as [|y l IH]; intros s; simpl; [done|].
  unfold Py.len in *. simpl length. intros [[= <- <-]|Hin]; [lia|].
  specialize (IH _ Hin). lia.
Qed.

(** A file that does not end a batch with more files to come: printed,
    short sleep, no pause, whatever the delay. *)
Lemma windows_file_body_no_pause N B d v x st w :
  B <> 0 -> ((x.1 + 1) mod B =? 0) && (x.1 + 1 <? N) = false ->
  exists st' w',
    returns (file_body N B d v x st) w st' w' [Startfile x.2.1; Sleep 500]
    /\ accounted st st' [Startfile x.2.1; Sleep 500].
Proof.
  intros HB Hcond.
  unfold returns, file_body, print_pdf_file, bind, lift, Py.floordiv, Py.mod_,
    os_startfile_print, time_sleep, ret, accounted, submissions, Py.len.
  destruct (Z.eqb_spec B 0) as [|_]; [done|]. rewrite Hcond.
  simpl. destruct (host_startfile x.2.1 w) as [[msg|] w1]; simpl;
    eexists _, _; (split; [reflexivity|simpl; lia]).
Qed.

(** A file that does, under a negative delay: printed, short sleep, and
    then the [ValueError] of [time.sleep]. *)
Lemma windows_file_body_bad_pause N B d v x st w :
  B <> 0 -> d < 0 -> ((x.1 + 1) mod B =? 0) && (x.1 + 1 <? N) = true ->
  exists w',
    file_body N B d v x st w
    = (inl (Py.ValueError "sleep length must be non-negative"), w',
       [Startfile x.2.1; Sleep 500]).
Proof.
  intros HB Hd Hcond.
  unfold file_body, print_pdf_file, bind, lift, Py.floordiv, Py.mod_,
    os_startfile_print, time_sleep, ret.
  destruct (Z.eqb_spec B 0) as [|_]; [done|]. rewrite Hcond.
  destruct (Z.ltb_spec (1000 * d) 0) as [_|]; [|lia].
  simpl. destruct (host_startfile x.2.1 w) as [[msg|] w1]; simpl; by eexists.
Qed.

Lemma windows_prefix_returns N B d v (l : list (string * string)) st w :
  1 <= B -> (Py.len l < B \/ Py.len l <= N <= B) ->
  exists st' w',
    returns (for_each (Py.enumerate 0 l) (file_body N B d v) st) w st' w'
      (flat_map (fun x : Z * (string * string) => [Startfile x.2.1; Sleep 500])
         (Py.enumerate 0 l))
    /\ accounted st st'
         (flat_map (fun x : Z * (string * string) => [Startfile x.2.1; Sleep 500])
            (Py.enumerate 0 l)).
Proof.
  intros HB Hshort. apply for_each_schedule_in.
  intros [i x] Hin st0 w0. apply windows_file_body_no_pause; [lia|].
  apply enumerate_index in Hin. cbn [fst].
  destruct (Z.eqb_spec ((i + 1) mod B) 0) as [Hz|]; [|done].
  destruct (Z.ltb_spec (i + 1) N); [|done]. exfalso.
  assert (i + 1 < B) as Hlt by lia.
  rewrite Z.mod_small in Hz by lia. lia.
Qed.

End WindowsEdges.

(** X5.  The Windows command line does not check [--batch-size]
    either: with a batch size of 0 the loop ends with
    [ZeroDivisionError] at the first file, before anything is handed to
    the printer, and the script exits with status 1.  The dry run,
    which computes the same batch numbers, ends the same way. *)
Theorem windows_batch_size_zero `{Host}
    (a : batch_pdf_printer_windows.args) (m : batch_pdf_printer_windows.machine)
    (x : string * string) (l : list (string * string)) (d : Z) (verbose : bool)
    (typed : string) (w : world) :
  batch_pdf_printer_windows.print_pdfs_in_batches (x :: l) 0 d verbose w
  = (inl Py.ZeroDivisionError, w, [])
  /\ (batch_pdf_printer_windows.batch_size a = 0 ->
      batch_pdf_printer_windows.platform_system m = "Windows" ->
      batch_pdf_printer_windows.path_exists m = true ->
      batch_pdf_printer_windows.path_isdir m = true ->
      batch_pdf_printer_windows.found_pdf_files m = x :: l ->
      batch_pdf_printer_windows.list_only a = false ->
      (batch_pdf_printer_windows.dry_run a = true
       \/ (is_Some (batch_pdf_printer_windows.default_printer m)
           /\ batch_pdf_printer_windows.answer m = inr typed
           /\ Py.upper (Py.strip typed) = "JA")) ->
      batch_pdf_printer_windows.main a m w = (inl Py.ZeroDivisionError, w, [])
      /\ batch_pdf_printer_windows.script_status a m w = 1).
Proof.
  split; [reflexivity|].
  intros HB Hsys Hex Hdir Hfound Hlist Hmode.
  unfold batch_pdf_printer_windows.script_status.
  assert (batch_pdf_printer_windows.main a m w
          = (inl Py.ZeroDivisionError, w, [])) as Hmain; [|by rewrite Hmain].
  unfold batch_pdf_printer_windows.main.
  rewrite Hsys, Hex, Hdir, Hlist, Hfound, HB. cbn [negb String.eqb Ascii.eqb].
  destruct Hmode as [Hdry|(Hprinter & Hanswer & Hja)].
  - by rewrite Hdry.
  - rewrite (bool_decide_eq_true_2 _ Hprinter), Hanswer, Hja.
    destruct (batch_pdf_printer_windows.dry_run a); reflexivity.
Qed.

Lemma windows_batch_size_zero_witness :
  batch_pdf_printer_windows.batch_size
    (batch_pdf_printer_windows.Args "docs" 0 3 true false false) = 0
  /\ batch_pdf_printer_windows.script_status (H := scripted_host [] None)
       (batch_pdf_printer_windows.Args "docs" 0 3 true false false)
       (batch_pdf_printer_windows.Machine "Windows" true true None
          [("docs\a.pdf", "a.pdf")] (inr ""))
       (0, 0)%nat = 1.
Proof.
  split; [reflexivity|].
  destruct (windows_batch_size_zero (H := scripted_host [] None)
              (batch_pdf_printer_windows.Args "docs" 0 3 true false false)
              (batch_pdf_printer_windows.Machine "Windows" true true None
                 [("docs\a.pdf", "a.pdf")] (inr ""))
              ("docs\a.pdf", "a.pdf") [] 3 false "" (0, 0)%nat) as [_ Hmain].
  destruct Hmain as [_ Hstatus];
    [reflexivity | reflexivity | reflexivity | reflexivity | reflexivity
    | reflexivity | by left | exact Hstatus].
Defined.

(** X6.  Nor does it check [--delay].  A negative delay does no harm
    while all files fit in one batch: the run prints every file, with
    the short sleep after each.  With more files than that, the first
    batch is printed and the pause after it raises the [ValueError] of
    [time.sleep]; the files of the later batches are never printed and
    the counts are lost. *)
Theorem windows_negative_delay `{Host}
    (pdf_files : list (string * string)) (B d : Z) (verbose : bool) (w : world) :
  1 <= B -> d < 0 ->
  (Py.len pdf_files <= B ->
   exists s f w',
     returns (batch_pdf_printer_windows.print_pdfs_in_batches pdf_files B d verbose)
       w (s, f) w'
       (flat_map (fun x : Z * (string * string) => [Startfile x.2.1; Sleep 500])
          (Py.enumerate 0 pdf_files))
     /\ s + f = Py.len pdf_files)
  /\ (B < Py.len pdf_files ->
      exists w',
        batch_pdf_printer_windows.print_pdfs_in_batches pdf_files B d verbose w
        = (inl (Py.ValueError "sleep length must be non-negative"), w',
           flat_map (fun x : Z * (string * string) => [Startfile x.2.1; Sleep 500])
             (Py.enumerate 0 (take (Z.to_nat B) pdf_files)))).
Proof.
  intros HB Hd. unfold batch_pdf_printer_windows.print_pdfs_in_batches. split.
  - intros Hfit.
    destruct (windows_prefix_returns (Py.len pdf_files) B d verbose pdf_files
                (0, 0) w HB) as ([s f] & w' & Hrun & Hacc); [lia|].
    exists s, f, w'. split; [exact Hrun|].
    unfold accounted in Hacc. cbn [fst snd] in Hacc.
    assert (submissions
              (flat_map (fun x : Z * (string * string) =>
                           [Startfile x.2.1; Sleep 500])
                 (Py.enumerate 0 pdf_files)) = Py.len pdf_files) as Hsub.
    { change (fun x : Z * (string * string) => [Startfile x.2.1; Sleep 500])
        with (fun x : Z * (string * string) =>
                [Startfile x.2.1; Sleep 500] ++ []).
      clear. generalize 0. induction pdf_files as [|x l IH]; intros i; [done|].
      cbn [Py.enumerate flat_map app]. 
      change (Startfile (i, x).2.1 :: Sleep 500 :: ?t)
        with ([Startfile (i, x).2.1; Sleep 500] ++ t).
      rewrite submissions_app, IH. unfold submissions, Py.len. simpl. lia. }
    lia.
  - intros Hmore.
    set (N := Py.len pdf_files).
    assert (exists (i : nat) x, Z.of_nat i + 1 = B /\ pdf_files !! i = Some x)
      as (i & x & Hi & Hx).
    { exists (Z.to_nat (B - 1)).
      destruct (lookup_lt_is_Some_2 pdf_files (Z.to_nat (B - 1))) as [x Hx].
      { unfold N, Py.len in Hmore. lia. }
      exists x. split; [lia|done]. }
    assert (Py.len (take i pdf_files) = Z.of_nat i) as Hlen.
    { unfold Py.len. rewrite length_take.
      apply lookup_lt_Some in Hx. lia. }
    assert (Py.enumerate 0 pdf_files
            = Py.enumerate 0 (take i pdf_files)
              ++ (Z.of_nat i, x)
                 :: Py.enumerate (Z.of_nat i + 1) (drop (S i) pdf_files))
      as Henum.
    { rewrite <- (take_drop_middle pdf_files i x Hx) at 1.
      rewrite enumerate_app. cbn [Py.enumerate]. by rewrite Hlen, !Z.add_0_l. }
    replace (Z.to_nat B) with (S i) by lia.
    rewrite (take_S_r _ _ _ Hx), enumerate_app, Hlen, Z.add_0_l.
    cbn [Py.enumerate]. rewrite Henum, for_each_app.
    destruct (windows_prefix_returns N B d verbose (take i pdf_files) (0, 0) w HB)
      as (st1 & w1 & Hrun1 & _); [lia|].
    destruct (windows_file_body_bad_pause N B d verbose (Z.of_nat i, x) st1 w1)
      as (w2 & Hraise); [lia|done| |].
    { cbn [fst]. rewrite Hi, Z.mod_same by lia.
      destruct (Z.ltb_spec B N); [done|lia]. }
    exists w2. unfold bind. rewrite Hrun1. cbn [for_each]. unfold bind.
    rewrite Hraise. rewrite flat_map_app. reflexivity.
Qed.

Lemma windows_negative_delay_witness :
  1 <= 2 /\ -1 < 0 /\ 2 < Py.len [("a", "a"); ("b", "b"); ("c", "c")]
  /\ exists w',
       batch_pdf_printer_windows.print_pdfs_in_batches
         (H := scripted_host [] None)
         [("a", "a"); ("b", "b"); ("c", "c")] 2 (-1) false (0, 0)%nat
       = (inl (Py.ValueError "sleep length must be non-negative"), w',
          [Startfile "a"; Sleep 500; Startfile "b"; Sleep 500]).
Proof.
  split; [lia|]. split; [lia|]. split; [reflexivity|].
  destruct (windows_negative_delay (H := scripted_host [] None)
              [("a", "a"); ("b", "b"); ("c", "c")] 2 (-1) false (0, 0)%nat)
    as [_ Hmore]; [lia | lia |].
  apply Hmore. reflexivity.
Defined.

(* ===================================================================== *)
(** * Reasoning about outcomes *)
(* ===================================================================== *)

Section Outcomes.
Context {H : Host} {S : Type}.
Variables (Step : S -> S -> list event -> Prop) (E : Py.exn -> Prop)
  (P : list event -> Prop).
Hypothesis Step_refl : forall s, Step s s [].
Hypothesis Step_trans : forall s1 s2 s3 t1 t2,
  Step s1 s2 t1 -> Step s2 s3 t2 -> Step s1 s3 (t1 ++ t2).
Hypothesis P_nil : P [].
Hypothesis P_app : forall t1 t2, P t1 -> P t2 -> P (t1 ++ t2).

Lemma outcome_ret {R} (proj : R -> S) (r : R) w :
  outcome Step E P proj (proj r) (ret r w).
Proof. split; [exact P_nil|apply Step_refl]. Qed.

Lemma outcome_raise {R} (proj : R -> S) s (e : Py.exn) w :
  E e -> outcome Step E P proj s (raise (A := R) e w).
Proof. intros He. split; [exact P_nil|exact He]. Qed.

Lemma outcome_bind {R1 R2} (proj1 : R1 -> S) (proj2 : R2 -> S)
    (m : M R1) (k : R1 -> M R2) s w :
  outcome Step E P proj1 s (m w) ->
  (forall r w1, outcome Step E P proj2 (proj1 r) (k r w1)) ->
  outcome Step E P proj2 s (bind m k w).
Proof.
  unfold outcome, bind. intros [HP Hm] Hk.
  destruct (m w) as [[[e|r] w1] t1]; cbn [fst snd] in *; [done|].
  specialize (Hk r w1). destruct (k r w1) as [[[e|r2] w2] t2];
    cbn [fst snd] in *; destruct Hk as [HP2 Hk]; (split; [by apply P_app|]).
  - exact Hk.
  - by eapply Step_trans.
Qed.


Lemma outcome_for_break {A} (body : A -> S -> M (flow * S)) (xs : list A) :
  (forall x s w, outcome Step E P snd s (body x s w)) ->
  forall s w, outcome Step E P id s (for_break xs body s w).
Proof.
  intros Hbody. induction xs as [|x xs IH]; intros s w; cbn [for_break].
  - apply (outcome_ret id).
  - apply (outcome_bind snd); [apply Hbody|].
    intros [[] s1] w1; cbn [fst snd]; [apply IH|apply (outcome_ret id)].
Qed.

Lemma outcome_for_each {A} (body : A -> S -> M S) (xs : list A) :
  (forall x s w, outcome Step E P id s (body x s w)) ->
  forall s w, outcome Step E P id s (for_each xs body s w).
Proof.
  intros Hbody. induction xs as [|x xs IH]; intros s w; cbn [for_each].
  - apply (outcome_ret id).
  - apply (outcome_bind id); [apply Hbody|]. intros s1 w1. apply IH.
Qed.

End Outcomes.

(* ===================================================================== *)
(** * What the thread of gui_pdf_printer.py reports *)
(* ===================================================================== *)

Section ThreadReport.
Context {RH : RaisingHost}.
Import gui_pdf_printer_raising.

Local Abbreviation counted := (fun c c' : gui_pdf_printer.counters =>
  accounted (gui_pdf_printer.successful c, gui_pdf_printer.failed c)
    (gui_pdf_printer.successful c', gui_pdf_printer.failed c')).
Local Abbreviation of_subprocess := (fun e : Py.exn =>
  e = Py.FileNotFoundError \/ exists o, e = exception_of o).
Local Abbreviation unreported := (fun t : list event =>
  forall s f, ~ In (PrintFinished s f) t).







End ThreadReport.



(* ===================================================================== *)
(** * What the worker of gui_pdf_printer_windows.py reports *)
(* ===================================================================== *)

Section WorkerReport.
Context {H : Host}.
Import gui_pdf_printer_windows.

Local Abbreviation printed := (fun (n n' : Z) (t : list event) =>
  n <= n' <= n + submissions t).
Local Abbreviation never := (fun _ : Py.exn => False).
Local Abbreviation no_report := (fun t : list event =>
  forall n total, ~ In (ReportPrinted n total) t).

Lemma printed_refl (n : Z) : printed n n [].
Proof. cbv beta. rewrite submissions_nil. lia. Qed.

Lemma printed_trans (n1 n2 n3 : Z) t1 t2 :
  printed n1 n2 t1 -> printed n2 n3 t2 -> printed n1 n3 (t1 ++ t2).
Proof. cbv beta. rewrite submissions_app. lia. Qed.

Lemma no_report_app (t1 t2 : list event) :
  no_report t1 -> no_report t2 -> no_report (t1 ++ t2).
Proof.
  intros H1 H2 n total Hin.
  apply in_app_or in Hin as [Hin|Hin]; [by eapply H1|by eapply H2].
Qed.

Lemma worker_file_body_outcome N B x n w :
  outcome printed never no_report snd n (file_body N B x n w).
Proof.
  unfold outcome, file_body, bind, read_is_printing, os_startfile_print, ret,
    time_sleep, submissions, Py.len.
  destruct (host_is_printing w) as [[] w1]; cbn [fst snd negb].
  - destruct (host_startfile x.2.1.1 w1) as [[msg|] w2]; cbn [fst snd].
    + cbn. split; [|lia]. intros k total Hin.
      repeat (destruct Hin as [Hin|Hin]; [discriminate|]). destruct Hin.
    + destruct (Py.mod_ (x.1 + 1) B) as [e|m].
      * cbn. split; [|lia]. intros k total Hin.
        repeat (destruct Hin as [Hin|Hin]; [discriminate|]). destruct Hin.
      * destruct ((m =? 0) && (x.1 + 1 <? N)); cbn;
          (split; [intros k total Hin;
                   repeat (destruct Hin as [Hin|Hin]; [discriminate|]);
                   destruct Hin
                  | lia]).
  - cbn. split; [|lia]. intros k total Hin.
    repeat (destruct Hin as [Hin|Hin]; [discriminate|]). destruct Hin.
Qed.

Lemma worker_file_body_submits_once N B x n w :
  submissions (events_of (file_body N B x n) w) <= 1.
Proof.
  unfold events_of, file_body, bind, read_is_printing, os_startfile_print, ret,
    time_sleep, submissions, Py.len.
  destruct (host_is_printing w) as [[] w1]; cbn [fst snd negb]; [|cbn; lia].
  destruct (host_startfile x.2.1.1 w1) as [[msg|] w2]; cbn [fst snd];
    [cbn; lia|].
  destruct (Py.mod_ (x.1 + 1) B) as [e|m]; [cbn; lia|].
  destruct ((m =? 0) && (x.1 + 1 <? N)); cbn; lia.
Qed.

Lemma for_break_submits_at_most {A S} (body : A -> S -> M (flow * S))
    (xs : list A) :
  (forall x s w, submissions (events_of (body x s) w) <= 1) ->
  forall s w, submissions (events_of (for_break xs body s) w) <= Py.len xs.
Proof.
  intros Hbody. induction xs as [|x xs IH]; intros s w; cbn [for_break].
  - unfold events_of, ret, submissions, Py.len. cbn. lia.
  - rewrite events_bind. specialize (Hbody x s w).
    assert (Py.len (x :: xs) = 1 + Py.len xs) as ->
      by (unfold Py.len; cbn [length]; lia).
    pose proof (submissions_nonneg (events_of (body x s) w)).
    assert (0 <= Py.len xs) by (unfold Py.len; lia).
    destruct ((body x s w).1.1) as [e|[[] s1]]; cbn [fst snd]; [lia| |].
    + rewrite submissions_app. specialize (IH s1 (body x s w).1.2). lia.
    + rewrite submissions_app.
      unfold events_of at 2, ret, submissions at 2, Py.len at 1. cbn. lia.
Qed.

Lemma worker_loop_outcome N B xs n w :
  outcome printed never no_report id n (for_break xs (file_body N B) n w).
Proof.
  apply (outcome_for_break printed never no_report printed_refl printed_trans
           ltac:(by intros ? ? []) no_report_app).
  apply worker_file_body_outcome.
Qed.

End WorkerReport.

(** X8.  The worker of the Windows graphical front end always comes
    to its end (every error of a file is caught there) and never hands
    over more files than it was given.  If it reports, it does so once,
    with the number of files it was given and a count of printed files
    that is neither negative nor above the number of files it handed
    to the system. *)
Theorem print_worker_report `{Host}
    (found_pdfs : list (string * string * Z)) (B : Z) (w : world) :
  exists w' tr,
    gui_pdf_printer_windows.print_worker found_pdfs B w = (inr tt, w', tr)
    /\ submissions tr <= Py.len found_pdfs
    /\ forall n total,
         In (ReportPrinted n total) tr ->
         0 <= n <= submissions tr /\ total = Py.len found_pdfs.
Proof.
  unfold gui_pdf_printer_windows.print_worker.
  pose proof (worker_loop_outcome (Py.len found_pdfs) B
                (Py.enumerate 0 found_pdfs) 0 w) as [Hquiet Hloop].
  pose proof (for_break_submits_at_most
                (gui_pdf_printer_windows.file_body (Py.len found_pdfs) B)
                (Py.enumerate 0 found_pdfs)
                (worker_file_body_submits_once (Py.len found_pdfs) B) 0 w)
    as Hmost.
  unfold events_of in Hmost.
  unfold bind, read_is_printing, write_is_printing, emit, ret.
  destruct (for_break _ _ _ w) as [[[e|n] w1] t1]; cbn [fst snd id] in *;
    [done|].
  assert (Py.len (Py.enumerate 0 found_pdfs) = Py.len found_pdfs) as Hlen
    by (unfold Py.len; by rewrite length_enumerate).
  rewrite Hlen in Hmost.
  destruct (host_is_printing w1) as [[] w2]; cbn [fst snd];
    eexists _, _; (split; [reflexivity|]); cbn [app];
    match goal with
    | |- context [t1 ++ ?tail] =>
        assert (submissions tail = 0) as Htail by reflexivity;
        rewrite !(submissions_app t1 tail), Htail
    end;
    (split; [lia|]); intros k total Hin;
    apply in_app_or in Hin as [Hin|Hin]; try (by apply Hquiet in Hin).
  - destruct Hin as [Hin|Hin]; [discriminate|].
    destruct Hin as [[= <- <-]|Hin]; [split; [lia|reflexivity]|].
    destruct Hin as [Hin|[]]; discriminate.
  - repeat (destruct Hin as [Hin|Hin]; [discriminate|]). destruct Hin.
Qed.

(* ===================================================================== *)
(** * A machine without the spooler command *)
(* ===================================================================== *)

Section MissingLp.
Context {H : Host}.

Hypothesis lp_missing : forall path w, (host_lp path w).1 = LpNotFound.

Local Abbreviation no_success := (fun (st st' : Z * Z) (_ : list event) =>
  st'.1 = st.1).
Local Abbreviation any_exn := (fun _ : Py.exn => True).
Local Abbreviation any_trace := (fun _ : list event => True).

Lemma failing_file_body_outcome pdf_file st w :
  outcome no_success any_exn any_trace id st
    (batch_pdf_printer.file_body pdf_file st w).
Proof.
  unfold outcome, batch_pdf_printer.file_body, batch_pdf_printer.print_pdf, bind,
    subprocess_run_lp, ret.
  pose proof (lp_missing pdf_file w) as Hlp.
  destruct (host_lp pdf_file w) as [r w1]. cbn [fst] in Hlp. subst r. by cbn.
Qed.

Lemma failing_batch_body_outcome pdf_files B N i st w :
  outcome no_success any_exn any_trace id st
    (batch_pdf_printer.batch_body pdf_files B N i st w).
Proof.
  assert (forall s : Z * Z, no_success s s []) as Hrefl by done.
  assert (forall (s1 s2 s3 : Z * Z) t1 t2,
             no_success s1 s2 t1 -> no_success s2 s3 t2 ->
             no_success s1 s3 (t1 ++ t2)) as Htrans
    by (cbv beta; congruence).
  assert (forall t1 t2 : list event, any_trace t1 -> any_trace t2 ->
                                     any_trace (t1 ++ t2)) as Happ by done.
  unfold batch_pdf_printer.batch_body.
  apply (outcome_bind no_success any_exn any_trace Htrans Happ (fun _ => st)).
  { unfold outcome, lift. cbn. by destruct (Py.floordiv _ _). }
  intros q w1.
  apply (outcome_bind no_success any_exn any_trace Htrans Happ (fun _ => st)).
  { unfold outcome, lift. cbn. by destruct (Py.floordiv _ _). }
  intros n w2.
  apply (outcome_bind no_success any_exn any_trace Htrans Happ id).
  { apply (outcome_for_each no_success any_exn any_trace Hrefl Htrans I Happ).
    apply failing_file_body_outcome. }
  intros st' w3. cbn [id].
  destruct (_ <? _).
  - apply (outcome_bind no_success any_exn any_trace Htrans Happ (fun _ => st')).
    { unfold outcome, time_sleep. by cbn. }
    intros _ w4. apply (outcome_ret no_success any_exn any_trace Hrefl I id st').
  - apply (outcome_ret no_success any_exn any_trace Hrefl I id st').
Qed.

Lemma failing_print_loop pdf_files B w :
  1 <= B ->
  exists w',
    batch_pdf_printer.print_loop pdf_files B w
    = (inr (0, Py.len pdf_files), w', run_schedule 2000 pdf_files B).
Proof.
  intros HB.
  destruct (print_loop_returns pdf_files B w HB) as ([s f] & w' & Hrun & Hacc).
  unfold accounted in Hacc. cbn [fst snd] in Hacc.
  rewrite submissions_run_schedule in Hacc by done.
  assert (s = 0) as ->.
  { unfold returns, batch_pdf_printer.print_loop in Hrun.
    rewrite range_pos_spec in Hrun by (unfold Py.len; lia).
    rewrite bind_lift in Hrun.
    match type of Hrun with
    | for_each ?xs ?body ?init ?w0 = _ =>
        pose proof (outcome_for_each no_success any_exn any_trace
                      ltac:(done) ltac:(cbv beta; congruence) I ltac:(done)
                      body xs
                      (failing_batch_body_outcome pdf_files B (Py.len pdf_files))
                      init w0) as [_ Hout]
    end.
    rewrite Hrun in Hout. exact Hout. }
  replace f with (Py.len pdf_files) in Hrun by lia.
  exists w'. exact Hrun.
Qed.

Lemma batches_cons_head {A} (x : A) l B :
  1 <= B -> exists b bs, batches (x :: l) B = inr ((x :: b) :: bs).
Proof.
  intros HB. rewrite batches_spec by done.
  pose proof (total_batches_bounds (Py.len (x :: l)) B) as Hb.
  assert (0 < Py.len (x :: l)) as Hn by (unfold Py.len; simpl; lia).
  destruct (Z.to_nat (total_batches (Py.len (x :: l)) B)) as [|n] eqn:Hc.
  { assert (total_batches (Py.len (x :: l)) B <= 0) by lia. nia. }
  destruct (Z.to_nat B) as [|b] eqn:HbB; [lia|].
  cbn [seq map Nat.mul drop take]. eauto.
Qed.

Lemma menu_dies_without_lp f fs B confirm w :
  1 <= B -> Py.upper confirm = "JA" ->
  exists w',
    interactive_pdf_printer.print_pdfs (f :: fs) B confirm w
    = (inl Py.FileNotFoundError, w', [Lp f]).
Proof.
  intros HB Hja. unfold interactive_pdf_printer.print_pdfs. rewrite Hja.
  cbn [String.eqb Ascii.eqb Bool.eqb negb andb].
  destruct (batches_cons_head f fs B HB) as (b & bs & ->).
  rewrite bind_lift. cbn [Py.enumerate for_each].
  unfold bind, interactive_pdf_printer.batch_body, bind. cbn [snd for_each].
  unfold bind, interactive_pdf_printer.file_body, bind, subprocess_run_lp.
  pose proof (lp_missing f w) as Hlp.
  destruct (host_lp f w) as [r w1]. cbn [fst snd] in *. subst r.
  by eexists.
Qed.

End MissingLp.

Lemma thread_dies_without_lp `{Host} f fs B w :
  1 <= B ->
  (host_is_printing w).1 = true ->
  (host_is_printing (host_is_printing w).2).1 = true ->
  (host_lp_timeout 60 f (host_is_printing (host_is_printing w).2).2).1
  = Some LpNotFound ->
  exists w',
    gui_pdf_printer._print_thread (f :: fs) B w
    = (inl Py.FileNotFoundError, w', [ReadFlag true; ReadFlag true; Lp f]).
Proof.
  intros HB Hflag1 Hflag2 Hlp. unfold gui_pdf_printer._print_thread.
  destruct (batches_cons_head f fs B HB) as (b & bs & ->).
  rewrite bind_lift. cbn [Py.enumerate for_break].
  unfold bind, gui_pdf_printer.batch_body, bind, read_is_printing.
  destruct (host_is_printing w) as [flag1 w1]. cbn [fst snd] in *. subst flag1.
  cbn [negb snd for_break].
  unfold bind, gui_pdf_printer.file_body, bind, read_is_printing.
  destruct (host_is_printing w1) as [flag2 w2]. cbn [fst snd] in *. subst flag2.
  cbn [negb]. unfold subprocess_run_lp_timeout.
  destruct (host_lp_timeout 60 f w2) as [r w3]. cbn [fst snd] in *. subst r.
  by eexists.
Qed.

(** X9.  On a machine without the [lp] command the front ends differ.
    The command-line loop treats the [FileNotFoundError] of every file
    as a failed print: it goes through the whole list and ends with 0
    printed and all files failed.  The terminal menu and the thread of
    the graphical front end have no handler for it: the run ends with
    that exception at the first file, no later file is tried, and the
    thread never calls [_print_finished]. *)
Theorem missing_lp_command `{Host}
    (f : string) (fs : list string) (B : Z) (confirm : string) (w : world) :
  1 <= B ->
  (forall path w0, (host_lp path w0).1 = LpNotFound) ->
  (forall path w0, (host_lp_timeout 60 path w0).1 = Some LpNotFound) ->
  (host_is_printing w).1 = true ->
  (host_is_printing (host_is_printing w).2).1 = true ->
  Py.upper confirm = "JA" ->
  (exists w',
      batch_pdf_printer.print_loop (f :: fs) B w
      = (inr (0, Py.len (f :: fs)), w', run_schedule 2000 (f :: fs) B))
  /\ submitted (run_schedule 2000 (f :: fs) B) = map Lp (f :: fs)
  /\ (exists w',
        interactive_pdf_printer.print_pdfs (f :: fs) B confirm w
        = (inl Py.FileNotFoundError, w', [Lp f]))
  /\ (exists w',
        gui_pdf_printer._print_thread (f :: fs) B w
        = (inl Py.FileNotFoundError, w', [ReadFlag true; ReadFlag true; Lp f])).
Proof.
  intros HB Hlp Hlpt Hflag1 Hflag2 Hja.
  split; [by apply failing_print_loop|].
  split; [by apply submitted_run_schedule|].
  split; [by apply menu_dies_without_lp|].
  by apply thread_dies_without_lp.
Qed.

Lemma missing_lp_command_witness :
  1 <= 2
  /\ (forall path w0, (host_lp (Host := no_lp_host) path w0).1 = LpNotFound)
  /\ (forall path w0,
        (host_lp_timeout (Host := no_lp_host) 60 path w0).1 = Some LpNotFound)
  /\ (host_is_printing (Host := no_lp_host) tt).1 = true
  /\ Py.upper "Ja" = "JA"
  /\ exists w',
       batch_pdf_printer.print_loop (H := no_lp_host) ["a.pdf"; "b.pdf"; "c.pdf"]
         2 tt
       = (inr (0, Py.len ["a.pdf"; "b.pdf"; "c.pdf"]), w',
          run_schedule 2000 ["a.pdf"; "b.pdf"; "c.pdf"] 2).
Proof.
  split; [lia|]. split; [reflexivity|]. split; [reflexivity|].
  split; [reflexivity|]. split; [reflexivity|].
  destruct (missing_lp_command (H := no_lp_host) "a.pdf" ["b.pdf"; "c.pdf"] 2 "Ja"
              tt) as [Hcli _];
    [lia | reflexivity | reflexivity | reflexivity | reflexivity | reflexivity |].
  exact Hcli.
Defined.

(* ===================================================================== *)
(** * Stopping, and pacing without a batch size *)
(* ===================================================================== *)

Lemma guarded_suffix b pre rest :
  guarded b (pre ++ rest) = true -> exists b', guarded b' rest = true.
Proof.
  revert b. induction pre as [|e pre IH]; intros b Hg; [by exists b|].
  cbn [app guarded] in Hg. apply andb_true_iff in Hg as [_ Hg]. by eapply IH.
Qed.

Lemma guarded_without_true post :
  guarded false post = true -> ~ In (ReadFlag true) post -> submitted post = [].
Proof.
  induction post as [|e post IH]; [done|]. cbn [guarded]. intros Hg Hno.
  apply andb_true_iff in Hg as [He Hg].
  assert (is_submit e = false) as Hsub by (by destruct (is_submit e)).
  unfold submitted. cbn [List.filter]. rewrite Hsub.
  rewrite bool_decide_eq_false_2 in Hg by (intros ->; apply Hno; by left).
  apply IH; [exact Hg|]. intros Hin. apply Hno. by right.
Qed.

Lemma nothing_after_false tr pre post :
  guarded false tr = true -> tr = pre ++ ReadFlag false :: post ->
  ~ In (ReadFlag true) post -> submitted post = [].
Proof.
  intros Hg -> Hno. apply guarded_suffix in Hg as [b' Hg].
  cbn [guarded is_submit] in Hg. apply andb_true_iff in Hg as [_ Hg].
  rewrite bool_decide_eq_false_2 in Hg by discriminate.
  by apply guarded_without_true.
Qed.

(** X10.  Stopping works: in both graphical front ends, once a read of
    [is_printing] has given [False], no further file is handed to the
    printer unless a later read gives [True] again. *)
Theorem nothing_submitted_after_stop `{Host}
    (found_pdfs : list string) (win_found : list (string * string * Z))
    (B : Z) (w : world) (pre post : list event) :
  ~ In (ReadFlag true) post ->
  (events_of (gui_pdf_printer._print_thread found_pdfs B) w
   = pre ++ ReadFlag false :: post ->
   submitted post = [])
  /\ (events_of (gui_pdf_printer_windows.print_worker win_found B) w
      = pre ++ ReadFlag false :: post ->
      submitted post = []).
Proof.
  intros Hno. split; intros Htr.
  - eapply nothing_after_false; [apply print_thread_guarded|exact Htr|exact Hno].
  - eapply nothing_after_false; [apply print_worker_guarded|exact Htr|exact Hno].
Qed.

Lemma nothing_submitted_after_stop_witness :
  ~ In (ReadFlag true) [ReadFlag false; WriteFlag false]
  /\ events_of (H := scripted_host [] (Some 2%nat))
       (gui_pdf_printer_windows.print_worker
          [("a", "a", 1); ("b", "b", 1); ("c", "c", 1)] 10) (0, 0)%nat
     = [ReadFlag true; Startfile "a"; Sleep 500; ReadFlag true; Startfile "b";
        Sleep 500] ++ ReadFlag false :: [ReadFlag false; WriteFlag false]
  /\ submitted [ReadFlag false; WriteFlag false] = [].
Proof.
  assert (~ In (ReadFlag true) [ReadFlag false; WriteFlag false]) as Hno.
  { intros Hin. repeat (destruct Hin as [Hin|Hin]; [discriminate|]). destruct Hin. }
  split; [exact Hno|]. split; [reflexivity|].
  destruct (nothing_submitted_after_stop (H := scripted_host [] (Some 2%nat))
              [] [("a", "a", 1); ("b", "b", 1); ("c", "c", 1)] 10 (0, 0)%nat
              [ReadFlag true; Startfile "a"; Sleep 500; ReadFlag true;
               Startfile "b"; Sleep 500]
              [ReadFlag false; WriteFlag false] Hno) as [_ Hworker].
  apply Hworker. reflexivity.
Defined.

Section NoPacing.
Context {H : Host}.

Local Abbreviation sleepless := (fun t : list event => forall ms, sleeps ms t = 0).

Lemma sleepless_app (t1 t2 : list event) :
  sleepless t1 -> sleepless t2 -> sleepless (t1 ++ t2).
Proof. intros H1 H2 ms. by rewrite sleeps_app, H1, H2. Qed.

Lemma events_closed_bind (P : list event -> Prop) {A B}
    (m : M A) (k : A -> M B) w :
  (forall t1 t2, P t1 -> P t2 -> P (t1 ++ t2)) ->
  P (events_of m w) -> (forall a w1, P (events_of (k a) w1)) ->
  P (events_of (bind m k) w).
Proof.
  intros Happ Hm Hk. rewrite events_bind.
  destruct ((m w).1.1) as [e|a]; [done|]. by apply Happ.
Qed.

Lemma worker_zero_file_body_sleepless N x n w :
  sleepless (events_of (gui_pdf_printer_windows.file_body N 0 x n) w).
Proof.
  intros ms.
  unfold events_of, gui_pdf_printer_windows.file_body, bind, read_is_printing,
    os_startfile_print, ret.
  destruct (host_is_printing w) as [[] w1]; cbn [fst snd negb]; [|done].
  by destruct (host_startfile x.2.1.1 w1) as [[msg|] w2].
Qed.

Lemma worker_zero_sleepless found_pdfs w :
  sleepless (events_of (gui_pdf_printer_windows.print_worker found_pdfs 0) w).
Proof.
  unfold gui_pdf_printer_windows.print_worker.
  apply (events_closed_bind sleepless); [apply sleepless_app| |].
  { apply (for_break_events sleepless); [done|apply sleepless_app|].
    apply worker_zero_file_body_sleepless. }
  intros n w1.
  apply (events_closed_bind sleepless); [apply sleepless_app|done|].
  intros b w2.
  apply (events_closed_bind sleepless); [apply sleepless_app|by destruct b|done].
Qed.

End NoPacing.

(** X11.  A batch size of 0 switches the pacing of the Windows
    graphical front end off.  The division by zero in the test for the
    end of a batch is caught with the errors of the file, after the
    file has been handed over, so the worker goes through the list as
    usual but never sleeps, neither between files nor between
    batches. *)
Theorem worker_batch_size_zero_never_sleeps `{Host}
    (found_pdfs : list (string * string * Z)) (w : world) :
  (forall ms, sleeps ms
     (events_of (gui_pdf_printer_windows.print_worker found_pdfs 0) w) = 0)
  /\ forall (x : Z * (string * string * Z)) (n : Z),
       (host_is_printing w).1 = true ->
       (host_startfile x.2.1.1 (host_is_printing w).2).1 = None ->
       exists w',
         gui_pdf_printer_windows.file_body (Py.len found_pdfs) 0 x n w
         = (inr (Next, n + 1), w', [ReadFlag true; Startfile x.2.1.1]).
Proof.
  split; [apply worker_zero_sleepless|].
  intros x n Hflag Hok.
  unfold gui_pdf_printer_windows.file_body, bind, read_is_printing,
    os_startfile_print, ret.
  destruct (host_is_printing w) as [flag w1]. cbn [fst snd] in *. subst flag.
  cbn [negb].
  destruct (host_startfile x.2.1.1 w1) as [r w2]. cbn [fst snd] in *. subst r.
  eexists. reflexivity.
Qed.

Lemma worker_batch_size_zero_never_sleeps_witness :
  (host_is_printing (Host := scripted_host [] None) (0, 0)%nat).1 = true
  /\ (host_startfile (Host := scripted_host [] None) "a"
        (host_is_printing (Host := scripted_host [] None) (0, 0)%nat).2).1 = None
  /\ exists w',
       gui_pdf_printer_windows.file_body (H := scripted_host [] None)
         (Py.len [("a", "a", 1); ("b", "b", 1)]) 0 (0, ("a", "a", 1)) 0 (0, 0)%nat
       = (inr (Next, 0 + 1), w', [ReadFlag true; Startfile "a"]).
Proof.
  split; [reflexivity|]. split; [reflexivity|].
  destruct (worker_batch_size_zero_never_sleeps (H := scripted_host [] None)
              [("a", "a", 1); ("b", "b", 1)] (0, 0)%nat) as [_ Hbody].
  apply (Hbody (0, ("a", "a", 1)) 0); reflexivity.
Defined.

(* ===================================================================== *)
(** * The menu of the terminal front end *)
(* ===================================================================== *)

Section Menu.
Import interactive_pdf_printer_menu.



End Menu.



Section BatchSizeSetting.
Context {H : Host}.
Import interactive_pdf_printer_menu.

Lemma set_batch_size_returns int_ b s w :
  exists b',
    returns (set_batch_size int_ b s) w b' (host_sleep 1000 w) [Sleep 1000]
    /\ (b' = b \/ (int_ s = Some b' /\ 1 <= b' <= 100)).
Proof.
  unfold set_batch_size, returns.
  destruct (negb (String.eqb (str_strip s) "")); [|exists b; by split; [|left]].
  destruct (int_ s) as [size|]; [|exists b; by split; [|left]].
  destruct (Z.leb_spec 1 size), (Z.leb_spec size 100); cbn [andb];
    first [ exists size; split; [done|right; split; [done|lia]]
          | exists b; by split; [|left] ].
Qed.

Lemma settings_returns int_ inputs b w :
  1 <= b <= 100 ->
  exists b' w',
    returns (for_each inputs (fun s b => set_batch_size int_ b s) b) w b' w'
      (repeat (Sleep 1000) (length inputs))
    /\ 1 <= b' <= 100
    /\ (b' = b \/ exists s, In s inputs /\ int_ s = Some b').
Proof.
  revert b w. induction inputs as [|s inputs IH]; intros b w Hb.
  - exists b, w. split; [apply returns_ret|]. split; [done|by left].
  - destruct (set_batch_size_returns int_ b s w) as (b1 & Hrun1 & Hb1).
    destruct (IH b1 (host_sleep 1000 w) ltac:(destruct Hb1 as [->|[_ ?]]; done))
      as (b2 & w2 & Hrun2 & Hb2 & Hfrom).
    exists b2, w2. split; [|split; [done|]].
    + cbn [for_each length repeat].
      change (Sleep 1000 :: repeat (Sleep 1000) (length inputs))
        with ([Sleep 1000] ++ repeat (Sleep 1000) (length inputs)).
      eapply returns_bind; [exact Hrun1|exact Hrun2].
    + destruct Hfrom as [->|(s' & Hin & Hs')].
      * destruct Hb1 as [->|[Hs _]]; [by left|].
        right. exists s. split; [by left|done].
      * right. exists s'. split; [by right|done].
Qed.

End BatchSizeSetting.

(** X13.  Whatever is typed at its prompts, and whatever [int] makes
    of it, [set_batch_size] never takes the batch size out of the
    range 1 to 100: any number of calls raise nothing, sleep one
    second each, and leave either the old value or a value that was
    typed; so the batches of the menu's [print_pdfs] are always
    defined, [ceil(n / batch_size)] of them. *)
Theorem batch_size_stays_between_1_and_100 `{Host}
    (int_ : string -> option Z) (inputs found_pdfs : list string)
    (batch_size : Z) w :
  1 <= batch_size <= 100 ->
  exists batch_size' w',
    returns
      (for_each inputs
         (fun new_size b => interactive_pdf_printer_menu.set_batch_size int_ b new_size)
         batch_size)
      w batch_size' w' (repeat (Sleep 1000) (length inputs))
    /\ 1 <= batch_size' <= 100
    /\ (batch_size' = batch_size
        \/ exists new_size, In new_size inputs /\ int_ new_size = Some batch_size')
    /\ exists bs, batches found_pdfs batch_size' = inr bs
                  /\ Py.len bs = total_batches (Py.len found_pdfs) batch_size'.
Proof.
  intros Hb.
  destruct (settings_returns int_ inputs batch_size w Hb)
    as (b' & w' & Hrun & Hb' & Hfrom).
  exists b', w'. do 3 (split; [done|]).
  eexists. split; [apply batches_spec; lia|].
  eapply length_batches; [|apply batches_spec]; lia.
Qed.

Lemma batch_size_stays_between_1_and_100_witness :
  1 <= 10 <= 100
  /\ exists batch_size' w',
      returns (H := scripted_host [] None)
        (for_each ["25"; "abc"; ""; "500"]
           (fun new_size b =>
              interactive_pdf_printer_menu.set_batch_size
                (fun s => if String.eqb s "25" then Some 25
                          else if String.eqb s "500" then Some 500 else None)
                b new_size)
           10)
        (0, 0)%nat batch_size' w' (repeat (Sleep 1000) (length ["25"; "abc"; ""; "500"]))
      /\ 1 <= batch_size' <= 100
      /\ (batch_size' = 10
          \/ exists new_size,
               In new_size ["25"; "abc"; ""; "500"]
               /\ (fun s => if String.eqb s "25" then Some 25
                            else if String.eqb s "500" then Some 500 else None)
                    new_size = Some batch_size')
      /\ exists bs, batches ["a.pdf"; "b.pdf"] batch_size' = inr bs
                    /\ Py.len bs = total_batches (Py.len ["a.pdf"; "b.pdf"]) batch_size'.
Proof.
  split; [lia|].
  apply (batch_size_stays_between_1_and_100 (H := scripted_host [] None)); lia.
Defined.

(* ===================================================================== *)
(** * The Windows menu front end *)
(* ===================================================================== *)

Section WindowsMenu.
Context {H : Host}.
Import interactive_pdf_printer_windows.

Lemma windows_menu_loop n B xs :
  forall i st w, exists st' w' tr,
    returns (for_each (Py.enumerate i xs) (file_body n B) st) w st' w' tr
    /\ submitted tr = map (fun x => Startfile x.1) xs
    /\ st.1 <= st'.1 <= st.1 + Py.len xs
    /\ (B <> 0 ->
        st'.1 + st'.2 = st.1 + st.2 + Py.len xs
        /\ sleeps 500 tr + sleeps 3000 tr = st'.1 - st.1)
    /\ (B = 0 -> st'.2 = st.2 + Py.len xs /\ forall ms, sleeps ms tr = 0).
Proof.
  induction xs as [|x xs IH]; intros i st w.
  - exists st, w, []. unfold Py.len. cbn [length].
    split; [apply returns_ret|]. split; [done|]. split; [lia|].
    split; intros _; (split; [lia|]); [rewrite !sleeps_nil; lia|done].
  - cbn [Py.enumerate for_each].
    assert (exists st1 w1 t1,
      returns (file_body n B (i, x) st) w st1 w1 t1
      /\ submitted t1 = [Startfile x.1]
      /\ st.1 <= st1.1 <= st.1 + 1
      /\ (B <> 0 ->
          st1.1 + st1.2 = st.1 + st.2 + 1
          /\ sleeps 500 t1 + sleeps 3000 t1 = st1.1 - st.1)
      /\ (B = 0 -> st1.2 = st.2 + 1 /\ forall ms, sleeps ms t1 = 0))
      as (st1 & w1 & t1 & Hrun1 & Hsub1 & Hp1 & Hpos1 & Hzero1).
    { unfold file_body, returns, bind, os_startfile_print, ret, Py.mod_.
      cbn [fst snd].
      destruct (host_startfile x.1 w) as [[msg|] w1]; cbn [fst snd].
      - eexists _, _, _. split; [reflexivity|]. cbn [fst snd app].
        split; [done|]. split; [lia|].
        split; intros _; (split; [lia|]);
          [rewrite !sleeps_cons, !sleeps_nil; cbn; lia|done].
      - destruct (Z.eqb_spec B 0) as [HB|HB].
        + eexists _, _, _. split; [reflexivity|]. cbn [fst snd app].
          split; [done|]. split; [lia|].
          split; [done|]. intros _. split; [lia|done].
        + destruct ((i mod B =? 0) && (i <? n)); unfold time_sleep;
            cbn [Z.ltb Z.compare fst snd app];
            (eexists _, _, _; split; [reflexivity|]; cbn [fst snd app];
             split; [done|]; split; [lia|];
             split; [intros _; split; [lia|]|done]);
            rewrite !sleeps_cons, !sleeps_nil; cbn; lia. }
    destruct (IH (i + 1) st1 w1) as (st2 & w2 & t2 & Hrun2 & Hsub2 & Hp2 & Hpos2 & Hzero2).
    exists st2, w2, (t1 ++ t2).
    split; [eapply returns_bind; [exact Hrun1|exact Hrun2]|].
    rewrite submitted_app, Hsub1, Hsub2.
    unfold Py.len in *. cbn [length map app].
    split; [done|]. split; [lia|]. split.
    + intros HB. destruct (Hpos1 HB), (Hpos2 HB). rewrite !sleeps_app.
      split; lia.
    + intros HB. destruct (Hzero1 HB) as [? Hs1], (Hzero2 HB) as [? Hs2].
      split; [lia|]. intros ms. rewrite sleeps_app, Hs1, Hs2. lia.
Qed.

Lemma configure_print_settings_range int_ inputs b :
  1 <= b <= 50 ->
  match configure_print_settings int_ b inputs with
  | Some b' =>
      1 <= b' <= 50
      /\ (b' = b \/ exists line, In line inputs /\ int_ (str_strip line) = Some b')
  | None => True
  end.
Proof.
  intros Hb. induction inputs as [|line rest IH]; [done|].
  cbn [configure_print_settings].
  destruct (String.eqb (str_strip line) ""); [by split; [|left]|].
  assert (match configure_print_settings int_ b rest with
          | Some b' =>
              1 <= b' <= 50
              /\ (b' = b \/ exists l, In l (line :: rest)
                                      /\ int_ (str_strip l) = Some b')
          | None => True
          end) as IH'.
  { destruct (configure_print_settings int_ b rest) as [b'|]; [|done].
    destruct IH as [? [->|(l & Hin & Hl)]]; (split; [done|]); [by left|].
    right. exists l. split; [by right|done]. }
  destruct (int_ (str_strip line)) as [size|] eqn:Hint; [|exact IH'].
  destruct (Z.leb_spec 1 size), (Z.leb_spec size 50); cbn [andb];
    try exact IH'.
  split; [lia|]. right. exists line. split; [by left|done].
Qed.

End WindowsMenu.

(** X14.  The print loop of the Windows menu front end, once the user
    has typed JA, starts every found file once, in order, whatever
    [os.startfile] does and whatever the batch size is, and returns
    [True].  With a batch size other than 0 each file counts as printed
    or as an error, and there is one pause, of half a second or of
    three, after each file that was started with success and none after
    a failure.  With a batch size of 0 every file counts as an error,
    also those counted as printed, and there is no pause at all. *)
Theorem windows_menu_print_counts `{Host}
    (found_pdfs : list (string * string)) (batch_size : Z) (confirm : string) w :
  found_pdfs <> [] ->
  Py.upper (str_strip confirm) = "JA" ->
  exists printed_count errors w' tr,
    interactive_pdf_printer_windows.print_pdfs found_pdfs batch_size confirm w
    = (inr true, w', tr ++ [LogCompleted printed_count errors])
    /\ submitted tr = map (fun x => Startfile x.1) found_pdfs
    /\ 0 <= printed_count <= Py.len found_pdfs
    /\ (batch_size <> 0 ->
        printed_count + errors = Py.len found_pdfs
        /\ sleeps 500 tr + sleeps 3000 tr = printed_count)
    /\ (batch_size = 0 ->
        errors = Py.len found_pdfs /\ forall ms, sleeps ms tr = 0).
Proof.
  intros Hne Hja.
  destruct found_pdfs as [|x0 rest] eqn:Hfound; [done|]. clear Hne.
  unfold interactive_pdf_printer_windows.print_pdfs. rewrite Hja.
  cbn [String.eqb Ascii.eqb Bool.eqb negb].
  destruct (windows_menu_loop (Py.len (x0 :: rest)) batch_size (x0 :: rest)
              1 (0, 0) w)
    as (st & w' & tr & Hrun & Hsub & Hp & Hpos & Hzero).
  cbn [fst snd] in *.
  exists st.1, st.2, w', tr. split.
  - unfold bind, emit, ret. unfold returns in Hrun. rewrite Hrun.
    cbn [fst snd]. by rewrite app_nil_r.
  - split; [done|]. split; [lia|]. split.
    + intros HB. destruct (Hpos HB). split; lia.
    + intros HB. destruct (Hzero HB). split; [lia|done].
Qed.

Lemma windows_menu_print_counts_witness :
  [("C:\a.pdf", "a.pdf"); ("C:\b.pdf", "b.pdf")] <> []
  /\ Py.upper (str_strip " ja ") = "JA"
  /\ exists printed_count errors w' tr,
      interactive_pdf_printer_windows.print_pdfs (H := scripted_host [1%nat] None)
        [("C:\a.pdf", "a.pdf"); ("C:\b.pdf", "b.pdf")] 0 " ja " (0, 0)%nat
      = (inr true, w', tr ++ [LogCompleted printed_count errors])
      /\ submitted tr
         = map (fun x => Startfile x.1)
             [("C:\a.pdf", "a.pdf"); ("C:\b.pdf", "b.pdf")]
      /\ 0 <= printed_count <= Py.len [("C:\a.pdf", "a.pdf"); ("C:\b.pdf", "b.pdf")]
      /\ (0 <> 0 ->
          printed_count + errors
          = Py.len [("C:\a.pdf", "a.pdf"); ("C:\b.pdf", "b.pdf")]
          /\ sleeps 500 tr + sleeps 3000 tr = printed_count)
      /\ (0 = 0 ->
          errors = Py.len [("C:\a.pdf", "a.pdf"); ("C:\b.pdf", "b.pdf")]
          /\ forall ms, sleeps ms tr = 0).
Proof.
  split; [done|]. split; [reflexivity|].
  apply (windows_menu_print_counts (H := scripted_host [1%nat] None));
    [done|reflexivity].
Defined.

(** X15.  The settings prompt of the Windows menu front end never
    takes the batch size out of the range 1 to 50: whatever is typed and
    whatever [int] makes of it, the value it leaves is the old one or a
    number that was typed.  The print loop that follows therefore counts
    every found file once, as printed or as an error. *)
Theorem windows_menu_batch_size_stays_between_1_and_50 `{Host}
    (int_ : string -> option Z) (inputs : list string) (batch_size batch_size' : Z)
    (found_pdfs : list (string * string)) (confirm : string) w :
  1 <= batch_size <= 50 ->
  interactive_pdf_printer_windows.configure_print_settings int_ batch_size inputs
  = Some batch_size' ->
  1 <= batch_size' <= 50
  /\ (batch_size' = batch_size
      \/ exists line, In line inputs /\ int_ (str_strip line) = Some batch_size')
  /\ forall printed_count errors w' tr,
      interactive_pdf_printer_windows.print_pdfs found_pdfs batch_size' confirm w
      = (inr true, w', tr ++ [LogCompleted printed_count errors]) ->
      printed_count + errors = Py.len found_pdfs.
Proof.
  intros Hb Hset.
  pose proof (configure_print_settings_range int_ inputs batch_size Hb) as Hr.
  rewrite Hset in Hr. destruct Hr as [Hb' Hfrom].
  split; [done|]. split; [done|].
  intros p e w' tr Hrun.
  unfold interactive_pdf_printer_windows.print_pdfs in Hrun.
  destruct found_pdfs as [|x0 rest] eqn:Hfound; [discriminate Hrun|].
  destruct (negb (String.eqb (Py.upper (str_strip confirm)) "JA"));
    [discriminate Hrun|].
  destruct (windows_menu_loop (Py.len (x0 :: rest)) batch_size' (x0 :: rest)
              1 (0, 0) w)
    as (st & w1 & t1 & Hloop & _ & _ & Hpos & _).
  destruct (Hpos ltac:(lia)) as [Hsum _].
  unfold bind, emit, ret in Hrun. unfold returns in Hloop.
  rewrite Hloop in Hrun. cbn [fst snd] in *.
  rewrite app_nil_r in Hrun.
  injection Hrun as _ Htr. apply app_inj_tail in Htr as [_ Hev].
  injection Hev as <- <-. lia.
Qed.

Lemma windows_menu_batch_size_stays_between_1_and_50_witness :
  1 <= 10 <= 50
  /\ interactive_pdf_printer_windows.configure_print_settings
       (fun s => if String.eqb s "99" then Some 99
                 else if String.eqb s "2" then Some 2 else None)
       10 ["x"; "99"; " 2 "; ""]
     = Some 2
  /\ 1 <= 2 <= 50
  /\ (2 = 10
      \/ exists line,
           In line ["x"; "99"; " 2 "; ""]
           /\ (fun s => if String.eqb s "99" then Some 99
                        else if String.eqb s "2" then Some 2 else None)
                (str_strip line) = Some 2)
  /\ forall printed_count errors w' tr,
      interactive_pdf_printer_windows.print_pdfs (H := scripted_host [] None)
        [("C:\a.pdf", "a.pdf"); ("C:\b.pdf", "b.pdf"); ("C:\c.pdf", "c.pdf")]
        2 "JA" (0, 0)%nat
      = (inr true, w', tr ++ [LogCompleted printed_count errors]) ->
      printed_count + errors
      = Py.len [("C:\a.pdf", "a.pdf"); ("C:\b.pdf", "b.pdf"); ("C:\c.pdf", "c.pdf")].
Proof.
  split; [lia|]. split; [reflexivity|].
  apply (windows_menu_batch_size_stays_between_1_and_50
           (H := scripted_host [] None)
           (fun s => if String.eqb s "99" then Some 99
                     else if String.eqb s "2" then Some 2 else None)
           ["x"; "99"; " 2 "; ""] 10 2);
    [lia|reflexivity].
Defined.
